(** * Polling-read contract of three hardware RNG drivers

    A shallow embedding of the read paths of
    - the TX4939 SoC RNG driver     ([tx4939_rng_read], [tx4939_rng_probe]),
    - the Freescale i.MX RNGA driver ([mxc_rnga_read]),
    - the ath9k ADC-noise RNG       ([ath9k_rng_data_read], [ath9k_rng_read]),
    followed by the properties of the bounded-retry poll and of the drain step.

    The drivers talk to memory-mapped hardware.  A driver function is a
    computation over the device state that returns its C return value, the
    next device state and the list of externally visible events it performed,
    in program order: register loads and stores, delays, stores through the
    caller's [data] pointer, and calls into kernel services.

    The paths that bring a source up and take it down are embedded the same
    way: [mxc_rnga_init], [mxc_rnga_cleanup], [mxc_rnga_probe],
    [mxc_rnga_remove], [ath9k_rng_start] and [ath9k_rng_stop].  The last
    part of the file is about them and about the safety and the timing of
    the read entry points. *)

From stdpp Require Import base list strings gmap.
From Stdlib Require Import ZArith Lia.

Open Scope Z_scope.

(** ** Machine integers *)

(** [u32], [u64] and [int] values are integers of [Z]; a conversion to a
    type of [w] bits keeps the low [w] bits.  A [size_t], such as the
    capacity [max] of a read, is a non-negative integer; its width, 32 or 64
    bits, is left open. *)
Definition u32_of (z : Z) : Z := z mod 2 ^ 32.
Definition u64_of (z : Z) : Z := z mod 2 ^ 64.

(** Conversion to [int] (32 bits, two's complement).  A [size_t] of 32 or 64
    bits converted to [int] keeps its low 32 bits, so this is also the
    conversion of a [size_t] product to the [int] a read entry point
    returns. *)
Definition int_of (z : Z) : Z := (z + 2 ^ 31) mod 2 ^ 32 - 2 ^ 31.

Definition INT_MAX : Z := 2 ^ 31 - 1.

(** C's logical negation [!x]. *)
Definition lnot (z : Z) : Z := if z =? 0 then 1 else 0.

Definition sizeof_u32 : Z := 4.
Definition sizeof_u64 : Z := 8.

(** Error numbers of the kernel's errno-base.h. *)
Definition EIO : Z := 5.
Definition ENOMEM : Z := 12.
Definition EINVAL : Z := 22.

(** ** Events and computations *)

(** The address held by a [data] pointer. *)
Definition ptr := Z.

Inductive event : Type :=
| MmioRead (offset val : Z)          (* register load at base + offset *)
| MmioWrite (offset val : Z)         (* register store at base + offset *)
| Udelay (us : Z)
| Ndelay (ns : Z)
| Store (data : ptr) (idx val : Z)   (* data[idx] = val, in words *)
| Warn                               (* WARN_ON fired *)
| LocalIrqDisable
| LocalIrqEnable
| DevDbg (msg : string)
| PsWakeup                           (* ath9k_ps_wakeup *)
| PsRestore                          (* ath9k_ps_restore *)
| RegRmwField (reg field val : Z)    (* REG_RMW_FIELD *)
| RegClrBit (reg bit : Z)            (* REG_CLR_BIT *)
| RegRead (reg val : Z)              (* REG_READ *)
| SetDrvdata                         (* platform_set_drvdata *)
| HwrngRegister.                     (* devm_hwrng_register *)

(** A computation over a state [S]: result, next state, events. *)
Definition M (S A : Type) : Type := S -> A * S * list event.

Definition ret {S A : Type} (a : A) : M S A := fun s => (a, s, []).

Definition bind {S A B : Type} (m : M S A) (f : A -> M S B) : M S B :=
  fun s =>
    let '(a, s1, t1) := m s in
    let '(b, s2, t2) := f a s1 in
    (b, s2, t1 ++ t2).

Definition emit {S : Type} (e : event) : M S unit := fun s => (tt, s, [e]).

#[global] Instance M_ret {S : Type} : MRet (M S) := @ret S.
#[global] Instance M_bind {S : Type} : MBind (M S) :=
  fun A B f m => bind m f.

(** Projections of a finished run. *)
Definition result {S A : Type} (r : A * S * list event) : A := r.1.1.
Definition final {S A : Type} (r : A * S * list event) : S := r.1.2.
Definition trace {S A : Type} (r : A * S * list event) : list event := r.2.

(** [WARN_ON(c)] evaluates to [c] and warns when it holds. *)
Definition WARN_ON {S : Type} (c : bool) : M S bool :=
  if c then emit Warn;; ret true else ret false.

Definition dev_dbg {S : Type} (msg : string) : M S unit := emit (DevDbg msg).

(** [data[idx] = val] through a pointer to words. *)
Definition store {S : Type} (data : ptr) (idx val : Z) : M S unit :=
  emit (Store data idx val).

(** ** Reading a trace *)

(** The stores a run made through [data], oldest first: index and value. *)
Definition stored (data : ptr) (t : list event) : list (Z * Z) :=
  omap (fun e =>
          match e with
          | Store p i v => if decide (p = data) then Some (i, v) else None
          | _ => None
          end) t.

Definition is_delay (e : event) : bool :=
  match e with
  | Udelay _ | Ndelay _ => true
  | _ => false
  end.

Definition is_hw_access (e : event) : bool :=
  match e with
  | MmioRead _ _ | MmioWrite _ _ | RegRmwField _ _ _ | RegClrBit _ _
  | RegRead _ _ | PsWakeup | PsRestore => true
  | _ => false
  end.

Definition writes_to (offset : Z) (e : event) : bool :=
  match e with
  | MmioWrite o _ => o =? offset
  | _ => false
  end.

Definition reads_of (offset : Z) (e : event) : bool :=
  match e with
  | MmioRead o _ => o =? offset
  | _ => false
  end.

Definition registers (e : event) : bool :=
  match e with
  | HwrngRegister => true
  | _ => false
  end.

Definition wakes (e : event) : bool :=
  match e with
  | PsWakeup => true
  | _ => false
  end.

(** How many events of a trace pass the test [f]. *)
Definition count (f : event -> bool) (t : list event) : nat :=
  length (List.filter f t).

(** The caller's buffer [buf] (in words, from [data]) after a run with trace
    [t]: its stores applied in order.  A store outside the buffer is
    undefined behaviour in C; here it leaves the list alone and stays
    visible in [stored]. *)
Definition replay (data : ptr) (t : list event) (buf : list Z) : list Z :=
  foldl (fun b iv => if decide (0 <= iv.1) then <[Z.to_nat iv.1 := iv.2]> b
                     else b)
        buf (stored data t).

(** A store stays inside a caller's buffer of [cap] words at [data]. *)
Definition in_buffer (data : ptr) (cap : Z) (e : event) : Prop :=
  match e with
  | Store p i _ => p = data /\ 0 <= i < cap
  | _ => True
  end.

Definition is_store (e : event) : bool :=
  match e with
  | Store _ _ _ => true
  | _ => false
  end.

Definition is_mmio_write (e : event) : bool :=
  match e with
  | MmioWrite _ _ => true
  | _ => false
  end.

Definition is_mmio_read (e : event) : bool :=
  match e with
  | MmioRead _ _ => true
  | _ => false
  end.

Definition is_reg_read (e : event) : bool :=
  match e with
  | RegRead _ _ => true
  | _ => false
  end.

(** The time a run spends in its delays, in nanoseconds. *)
Fixpoint delay_ns (t : list event) : Z :=
  match t with
  | [] => 0
  | Udelay us :: t' => us * 1000 + delay_ns t'
  | Ndelay ns :: t' => ns + delay_ns t'
  | _ :: t' => delay_ns t'
  end.

(** The register stores of a run, oldest first: offset and value. *)
Definition mmio_writes (t : list event) : list (Z * Z) :=
  omap (fun e =>
          match e with
          | MmioWrite o v => Some (o, v)
          | _ => None
          end) t.

(** The register loads of a run, oldest first: offset and value. *)
Definition mmio_reads (t : list event) : list (Z * Z) :=
  omap (fun e =>
          match e with
          | MmioRead o v => Some (o, v)
          | _ => None
          end) t.

Definition toggles_irq (e : event) : bool :=
  match e with
  | LocalIrqDisable | LocalIrqEnable => true
  | _ => false
  end.

Definition restores (e : event) : bool :=
  match e with
  | PsRestore => true
  | _ => false
  end.

(** The interrupt discipline a 64-bit register access needs on a 32-bit
    kernel, checked along a trace from the interrupt state [enabled]: a
    register load or store is made with interrupts disabled, a delay with
    interrupts enabled, [local_irq_disable] and [local_irq_enable] come in
    turn.  [Some s]: the trace keeps to it and ends in state [s]. *)
Fixpoint irq_discipline (enabled : bool) (t : list event) : option bool :=
  match t with
  | [] => Some enabled
  | LocalIrqDisable :: t' =>
      if enabled then irq_discipline false t' else None
  | LocalIrqEnable :: t' =>
      if enabled then None else irq_discipline true t'
  | MmioRead _ _ :: t' | MmioWrite _ _ :: t' =>
      if enabled then None else irq_discipline enabled t'
  | Udelay _ :: t' | Ndelay _ :: t' =>
      if enabled then irq_discipline enabled t' else None
  | _ :: t' => irq_discipline enabled t'
  end.

(** The power-save discipline of the ath9k register accessors, checked
    along a trace from the state [awake]: a register access is made between
    [ath9k_ps_wakeup] and the [ath9k_ps_restore] that follows it, the two
    come in turn, and a delay is taken outside of them.  [Some s]: the trace
    keeps to it and ends in state [s]. *)
Fixpoint ps_discipline (awake : bool) (t : list event) : option bool :=
  match t with
  | [] => Some awake
  | PsWakeup :: t' => if awake then None else ps_discipline true t'
  | PsRestore :: t' => if awake then ps_discipline false t' else None
  | RegRmwField _ _ _ :: t' | RegClrBit _ _ :: t' | RegRead _ _ :: t' =>
      if awake then ps_discipline awake t' else None
  | Udelay _ :: t' | Ndelay _ :: t' =>
      if awake then None else ps_discipline awake t'
  | _ :: t' => ps_discipline awake t'
  end.

(** ** Calls into kernel services *)

(** The probe, remove and init paths call into the clock framework, the
    driver core and the hwrng core.  None of them is among the sources: a
    call is an event that carries what was passed and, where the driver
    looks at it, what the service answered. *)

Definition ENODEV : Z := 19.

(** [IS_ERR] and [PTR_ERR] of err.h, on a pointer read as a [long]: the
    last [MAX_ERRNO] addresses encode an error number. *)
Definition MAX_ERRNO : Z := 4095.
Definition IS_ERR (p : Z) : bool := (- MAX_ERRNO <=? p) && (p <? 0).
Definition PTR_ERR (p : Z) : Z := p.

(** The fields of [struct hwrng] the drivers set; a callback is the name of
    the function it points to, [None] for a null pointer. *)
Record hwrng : Type := {
  hwrng_name : string;
  hwrng_init : option string;
  hwrng_cleanup : option string;
  hwrng_read : option string;
  hwrng_quality : Z
}.

Inductive kcall : Type :=
| KDevErr (fmt : string) (args : list Z)      (* dev_err *)
| KDevmKzalloc
| KDevmClkGet
| KClkPrepareEnable (clk ret : Z)
| KClkDisableUnprepare (clk : Z)
| KPlatformGetResource
| KDevmIoremapResource
| KPlatformGetDrvdata
| KHwrngRegister (rng : hwrng) (ret : Z)      (* hwrng_register *)
| KHwrngUnregister (rng : option hwrng)       (* hwrng_unregister *)
| KDevmHwrngRegister (rng : hwrng) (ret : Z)
| KDevmHwrngUnregister (rng : hwrng).

(** What such a path does, in program order: events of the register space
    and calls into the kernel. *)
Inductive kevent : Type :=
| Hw (e : event)
| Call (c : kcall).

Definition K (S A : Type) : Type := S -> A * S * list kevent.

Definition kret {S A : Type} (a : A) : K S A := fun s => (a, s, []).

Definition kbind {S A B : Type} (m : K S A) (f : A -> K S B) : K S B :=
  fun s =>
    let '(a, s1, t1) := m s in
    let '(b, s2, t2) := f a s1 in
    (b, s2, t1 ++ t2).

Definition call {S : Type} (c : kcall) : K S unit :=
  fun s => (tt, s, [Call c]).

(** A computation on the register space, run inside such a path. *)
Definition hw {S A : Type} (m : M S A) : K S A := fun s =>
  let '(a, s', t) := m s in (a, s', Hw <$> t).

#[global] Instance K_ret {S : Type} : MRet (K S) := @kret S.
#[global] Instance K_bind {S : Type} : MBind (K S) :=
  fun A B f m => kbind m f.

Definition kresult {S A : Type} (r : A * S * list kevent) : A := r.1.1.
Definition kfinal {S A : Type} (r : A * S * list kevent) : S := r.1.2.
Definition ktrace {S A : Type} (r : A * S * list kevent) : list kevent := r.2.

(** The register events among the events of a path. *)
Definition hw_events (t : list kevent) : list event :=
  omap (fun e => match e with Hw e' => Some e' | Call _ => None end) t.

(** The calls among the events of a path. *)
Definition calls (t : list kevent) : list kcall :=
  omap (fun e => match e with Call c => Some c | Hw _ => None end) t.

(** The clock references a path leaves behind: the calls of
    [clk_prepare_enable] that returned [0], less the calls of
    [clk_disable_unprepare]. *)
Fixpoint clk_refs (cs : list kcall) : Z :=
  match cs with
  | [] => 0
  | KClkPrepareEnable _ ret :: cs' =>
      (if ret =? 0 then 1 else 0) + clk_refs cs'
  | KClkDisableUnprepare _ :: cs' => clk_refs cs' - 1
  | _ :: cs' => clk_refs cs'
  end.

(** The sources a path leaves registered with the hwrng core: the register
    calls that returned [0], less the unregister calls. *)
Fixpoint rng_refs (cs : list kcall) : Z :=
  match cs with
  | [] => 0
  | KHwrngRegister _ ret :: cs' | KDevmHwrngRegister _ ret :: cs' =>
      (if ret =? 0 then 1 else 0) + rng_refs cs'
  | KHwrngUnregister _ :: cs' | KDevmHwrngUnregister _ :: cs' =>
      rng_refs cs' - 1
  | _ :: cs' => rng_refs cs'
  end.

(** ** The memory-mapped device *)

(** The hardware behind a mapped register window: what a load at an offset
    returns and how the device moves on, what a store does to it, and how it
    evolves while the CPU busy-waits for some nanoseconds. *)
Class MmioDevice (D : Type) : Type := {
  mmio_load : D -> Z -> Z * D;
  mmio_store : D -> Z -> Z -> D;
  mmio_elapse : D -> Z -> D
}.

Section Accessors.
Context {D : Type} `{MmioDevice D}.

Definition __raw_readl (offset : Z) : M D Z := fun d =>
  let '(v, d') := mmio_load d offset in
  (u32_of v, d', [MmioRead offset (u32_of v)]).

Definition __raw_writel (val offset : Z) : M D unit := fun d =>
  (tt, mmio_store d offset (u32_of val), [MmioWrite offset (u32_of val)]).

Definition ____raw_readq (offset : Z) : M D Z := fun d =>
  let '(v, d') := mmio_load d offset in
  (u64_of v, d', [MmioRead offset (u64_of v)]).

Definition ____raw_writeq (val offset : Z) : M D unit := fun d =>
  (tt, mmio_store d offset (u64_of val), [MmioWrite offset (u64_of val)]).

Definition udelay (us : Z) : M D unit := fun d =>
  (tt, mmio_elapse d (us * 1000), [Udelay us]).

Definition ndelay (ns : Z) : M D unit := fun d =>
  (tt, mmio_elapse d ns, [Ndelay ns]).
End Accessors.

(** ** TX4939 RNG (tx4939-rng.c) *)

Module Tx4939.
Section Driver.
Context {D : Type} `{MmioDevice D}.
(** Whether the kernel is built with CONFIG_64BIT. *)
Variable CONFIG_64BIT : bool.

Definition TX4939_RNG_RCSR : Z := 0x00000000.
Definition TX4939_RNG_ROR (n : Z) : Z := 0x00000018 + n * 8.

Definition TX4939_RNG_RCSR_INTE : Z := 0x00000008.
Definition TX4939_RNG_RCSR_RST : Z := 0x00000004.
Definition TX4939_RNG_RCSR_FIN : Z := 0x00000002.
Definition TX4939_RNG_RCSR_ST : Z := 0x00000001.

Definition rng_io_start : M D unit :=
  if CONFIG_64BIT then ret tt else emit LocalIrqDisable.

Definition rng_io_end : M D unit :=
  if CONFIG_64BIT then ret tt else emit LocalIrqEnable.

Definition read_rng (offset : Z) : M D Z := ____raw_readq offset.

Definition write_rng (val offset : Z) : M D unit := ____raw_writeq val offset.

(** Lines 72-75 and 81-84: one evaluation of the ready test
    [!(read_rng(base, RCSR) & ST)] inside its critical section. *)
Definition tx4939_rng_present : M D Z :=
  rng_io_start;;
  v ← read_rng TX4939_RNG_RCSR;
  rng_io_end;;
  ret (lnot (Z.land v TX4939_RNG_RCSR_ST)).

(** Lines 77-85: [while (wait && !present && retries--)]. *)
Fixpoint tx4939_rng_wait (wait : bool) (retries : nat) (present : Z)
  : M D Z :=
  if wait && (present =? 0) then
    match retries with
    | O => ret present
    | S retries' =>
        ndelay (90 * 5);;
        present' ← tx4939_rng_present;
        tx4939_rng_wait wait retries' present'
    end
  else ret present.

(** Lines 93-94: [for (i = 0; i < max; i++) out[i] = read_rng(ROR(i))],
    with [n] the iterations left, [max - i]. *)
Fixpoint tx4939_rng_drain (data : ptr) (n : nat) (i : Z) : M D Z :=
  match n with
  | O => ret i
  | S n' =>
      v ← read_rng (TX4939_RNG_ROR i);
      store data i v;;
      tx4939_rng_drain data n' (i + 1)
  end.

(** Lines 72-85: the first test and the retries, [present] at line 87. *)
Definition tx4939_rng_poll (wait : bool) : M D Z :=
  present ← tx4939_rng_present;
  tx4939_rng_wait wait 20 present.

Definition tx4939_rng_read (data : ptr) (max : Z) (wait : bool) : M D Z :=
  w ← WARN_ON (max <? sizeof_u64);
  if w : bool then ret (- EINVAL) else
  present ← tx4939_rng_poll wait;
  if present =? 0 then ret 0 else
  let max := Z.min 3 (max / sizeof_u64) in
  rng_io_start;;
  i ← tx4939_rng_drain data (Z.to_nat max) 0;
  write_rng TX4939_RNG_RCSR_ST TX4939_RNG_RCSR;;
  rng_io_end;;
  ret (int_of (i * sizeof_u64)).

(** Lines 135-137: [for (i = 0; i < 2; i++) if (!read(flush, 24, 1))
    return -EIO;], [n] the iterations left.  [None]: the loop ran to its
    end; [Some r]: it returned [r]. *)
Fixpoint tx4939_rng_flush (flush : ptr) (n : nat) : M D (option Z) :=
  match n with
  | O => ret None
  | S n' =>
      r ← tx4939_rng_read flush (3 * sizeof_u64) true;
      if r =? 0 then ret (Some (- EIO)) else tx4939_rng_flush flush n'
  end.

(** What the kernel services called by probe answer: whether
    [devm_kzalloc] returned memory, the pointer [devm_ioremap_resource]
    returned, read as a [long], and the value of [devm_hwrng_register]. *)
Record probe_env : Type := {
  kzalloc_ok : bool;
  ioremap_base : Z;
  hwrng_register_ret : Z
}.

Definition tx4939_rng_probe (env : probe_env) (flush : ptr) : M D Z :=
  if negb (kzalloc_ok env) then ret (- ENOMEM) else
  if IS_ERR (ioremap_base env) then
    ret (int_of (PTR_ERR (ioremap_base env)))
  else
  rng_io_start;;
  write_rng TX4939_RNG_RCSR_RST TX4939_RNG_RCSR;;
  write_rng 0 TX4939_RNG_RCSR;;
  write_rng TX4939_RNG_RCSR_ST TX4939_RNG_RCSR;;
  rng_io_end;;
  r ← tx4939_rng_flush flush 2;
  match r with
  | Some e => ret e
  | None =>
      emit SetDrvdata;;
      emit HwrngRegister;;
      ret (hwrng_register_ret env)
  end.

(** *** Shapes of TX4939 traces *)

(** The events of a critical section around the events [t]. *)
Definition critical (t : list event) : list event :=
  (if CONFIG_64BIT then [] else [LocalIrqDisable]) ++ t ++
  (if CONFIG_64BIT then [] else [LocalIrqEnable]).

(** One evaluation of the ready test that loads [s] from RCSR. *)
Definition check_events (s : Z) : list event :=
  critical [MmioRead TX4939_RNG_RCSR s].

(** The re-checks that load the values [ss], each after its delay. *)
Definition recheck_events (ss : list Z) : list event :=
  flat_map (fun s => Ndelay 450 :: check_events s) ss.

(** Loading the words [ws] from ROR(i), ROR(i+1), ... into [data[i]],
    [data[i+1]], ... *)
Fixpoint drain_events (data : ptr) (i : Z) (ws : list Z) : list event :=
  match ws with
  | [] => []
  | w :: ws' =>
      MmioRead (TX4939_RNG_ROR i) w :: Store data i w ::
      drain_events data (i + 1) ws'
  end.

(** The reset and start sequence of probe, lines 120-126. *)
Definition reset_events : list event :=
  critical [MmioWrite TX4939_RNG_RCSR TX4939_RNG_RCSR_RST;
            MmioWrite TX4939_RNG_RCSR 0;
            MmioWrite TX4939_RNG_RCSR TX4939_RNG_RCSR_ST].

(** The register stores of a probe that goes all the way: reset, clear,
    start, and a start after each of the two discarded reads. *)
Definition probe_writes : list (Z * Z) :=
  [(TX4939_RNG_RCSR, TX4939_RNG_RCSR_RST); (TX4939_RNG_RCSR, 0);
   (TX4939_RNG_RCSR, TX4939_RNG_RCSR_ST);
   (TX4939_RNG_RCSR, TX4939_RNG_RCSR_ST);
   (TX4939_RNG_RCSR, TX4939_RNG_RCSR_ST)].

(** The register accesses open to a read: loads of RCSR and of the three
    output registers, and the store of the start bit. *)
Definition read_access (e : event) : Prop :=
  match e with
  | MmioRead o _ =>
      o = TX4939_RNG_RCSR \/
      exists k, 0 <= k < 3 /\ o = TX4939_RNG_ROR k
  | MmioWrite o v => o = TX4939_RNG_RCSR /\ v = TX4939_RNG_RCSR_ST
  | _ => True
  end.

(** A loaded RCSR value shows a finished generation: ST is clear. *)
Definition ready (s : Z) : Prop := Z.land s TX4939_RNG_RCSR_ST = 0.

(** The value [present] takes from a loaded RCSR value. *)
Definition present_of (s : Z) : Z := lnot (Z.land s TX4939_RNG_RCSR_ST).
End Driver.
End Tx4939.

(** ** Freescale RNGA (drivers/char/hw_random/mxc-rnga.c) *)

Module Rnga.
Section Driver.
Context {D : Type} `{MmioDevice D}.

Definition RNGA_CONTROL : Z := 0x00.
Definition RNGA_STATUS : Z := 0x04.
Definition RNGA_ENTROPY : Z := 0x08.
Definition RNGA_OUTPUT_FIFO : Z := 0x0c.

Definition RNGA_CONTROL_SLEEP : Z := 0x00000010.
Definition RNGA_CONTROL_CLEAR_INT : Z := 0x00000008.
Definition RNGA_CONTROL_MASK_INTS : Z := 0x00000004.
Definition RNGA_CONTROL_HIGH_ASSURANCE : Z := 0x00000002.
Definition RNGA_CONTROL_GO : Z := 0x00000001.

Definition RNGA_STATUS_LEVEL_MASK : Z := 0x0000ff00.

Definition RNGA_STATUS_OSC_DEAD : Z := 0x80000000.
Definition RNGA_STATUS_SLEEP : Z := 0x00000010.
Definition RNGA_STATUS_ERROR_INT : Z := 0x00000008.
Definition RNGA_STATUS_FIFO_UNDERFLOW : Z := 0x00000004.
Definition RNGA_STATUS_LAST_READ_STATUS : Z := 0x00000002.
Definition RNGA_STATUS_SECURITY_VIOLATION : Z := 0x00000001.

(** Lines 70-71 and 75-76: the FIFO level field of the status register,
    still in place (bits 8 to 15). *)
Definition mxc_rnga_present : M D Z :=
  s ← __raw_readl RNGA_STATUS;
  ret (Z.land s RNGA_STATUS_LEVEL_MASK).

(** Lines 73-77: [while (wait && !present && retries--)]. *)
Fixpoint mxc_rnga_wait (wait : bool) (retries : nat) (present : Z) : M D Z :=
  if wait && (present =? 0) then
    match retries with
    | O => ret present
    | S retries' =>
        udelay 10;;
        present' ← mxc_rnga_present;
        mxc_rnga_wait wait retries' present'
    end
  else ret present.

(** Lines 85-93: the drain loop, [n] the iterations left, [max - i].  The
    boolean tells how the loop was left: [true] through [goto err_clear],
    [false] at its end; [i] is the value of the counter at that point. *)
Fixpoint mxc_rnga_drain (data : ptr) (n : nat) (i : Z) : M D (Z * bool) :=
  match n with
  | O => ret (i, false)
  | S n' =>
      v ← __raw_readl RNGA_OUTPUT_FIFO;
      store data i v;;
      s ← __raw_readl RNGA_STATUS;
      let err := Z.land s RNGA_STATUS_ERROR_INT in
      if err =? 0 then mxc_rnga_drain data n' (i + 1) else ret (i, true)
  end.

(** Lines 97-101, the [err_clear] label; the debug message is kept without
    its final newline. *)
Definition mxc_rnga_err_clear : M D unit :=
  dev_dbg "Error while reading random number!";;
  ctrl ← __raw_readl RNGA_CONTROL;
  __raw_writel (Z.lor ctrl RNGA_CONTROL_CLEAR_INT) RNGA_CONTROL.

(** Lines 70-77: the first test and the retries, [present] at line 79. *)
Definition mxc_rnga_poll (wait : bool) : M D Z :=
  present ← mxc_rnga_present;
  mxc_rnga_wait wait 20 present.

Definition mxc_rnga_read (data : ptr) (max : Z) (wait : bool) : M D Z :=
  w ← WARN_ON (max <? sizeof_u32);
  if w : bool then ret (- EINVAL) else
  present ← mxc_rnga_poll wait;
  if present =? 0 then ret 0 else
  let max := Z.min (Z.shiftr present 8) (max / sizeof_u32) in
  '(i, err) ← mxc_rnga_drain data (Z.to_nat max) 0;
  if err : bool then
    mxc_rnga_err_clear;;
    ret (int_of (i * sizeof_u32))
  else ret (int_of (i * sizeof_u32)).

(** Lines 106-127.  [~RNGA_CONTROL_SLEEP] is the complement of an [int],
    converted to [u32] by the [&]; the message is kept without its final
    newline. *)
Definition mxc_rnga_init : K D Z :=
  ctrl ← hw (__raw_readl RNGA_CONTROL);
  hw (__raw_writel (Z.land ctrl (u32_of (Z.lnot RNGA_CONTROL_SLEEP)))
        RNGA_CONTROL);;
  osc ← hw (__raw_readl RNGA_STATUS);
  if negb (Z.land osc RNGA_STATUS_OSC_DEAD =? 0) then
    call (KDevErr "RNGA Oscillator is dead!" []);;
    kret (- ENODEV)
  else
    ctrl ← hw (__raw_readl RNGA_CONTROL);
    hw (__raw_writel (Z.lor ctrl RNGA_CONTROL_GO) RNGA_CONTROL);;
    kret 0.

(** Lines 129-138. *)
Definition mxc_rnga_cleanup : M D unit :=
  ctrl ← __raw_readl RNGA_CONTROL;
  __raw_writel (Z.land ctrl (u32_of (Z.lnot RNGA_CONTROL_GO))) RNGA_CONTROL.

(** [struct mxc_rng], lines 54-59, without [dev], the back pointer to the
    device that only the messages use. *)
Record mxc_rng : Type := {
  rng : hwrng;
  mem : Z;
  clk : Z
}.

(** The platform device as the driver sees it: its driver data, the
    instance [platform_get_drvdata] returns, [None] for a null pointer. *)
Record platform_device : Type := {
  driver_data : option mxc_rng
}.

Definition platform_get_drvdata : K platform_device (option mxc_rng) :=
  fun pdev => (driver_data pdev, pdev, [Call KPlatformGetDrvdata]).

(** What the kernel services called by probe answer: whether
    [devm_kzalloc] returned memory, the pointers [devm_clk_get] and
    [devm_ioremap_resource] return, and the values of [clk_prepare_enable]
    and [hwrng_register]. *)
Record rnga_env : Type := {
  env_kzalloc_ok : bool;
  env_clk : Z;
  env_clk_prepare_enable : Z;
  env_mem : Z;
  env_hwrng_register : Z
}.

(** Lines 181-183, the [err_ioremap] label. *)
Definition mxc_rnga_err_ioremap (clk err : Z) : K platform_device Z :=
  call (KClkDisableUnprepare clk);;
  kret err.

(** Lines 140-184.  The messages are kept without their final newline; a
    [long] returned as [int] goes through [int_of]. *)
Definition mxc_rnga_probe (env : rnga_env) : K platform_device Z :=
  call KDevmKzalloc;;
  if negb (env_kzalloc_ok env) then kret (- ENOMEM) else
  let rng := {| hwrng_name := "mxc-rnga";
                hwrng_init := Some "mxc_rnga_init";
                hwrng_cleanup := Some "mxc_rnga_cleanup";
                hwrng_read := Some "mxc_rnga_read";
                hwrng_quality := 0 |} in
  call KDevmClkGet;;
  let clk := env_clk env in
  if IS_ERR clk then
    call (KDevErr "Could not get rng_clk!" []);;
    kret (int_of (PTR_ERR clk))
  else
  let err := env_clk_prepare_enable env in
  call (KClkPrepareEnable clk err);;
  if negb (err =? 0) then kret err else
  call KPlatformGetResource;;
  call KDevmIoremapResource;;
  let mem := env_mem env in
  if IS_ERR mem then
    mxc_rnga_err_ioremap clk (int_of (PTR_ERR mem))
  else
  let err := env_hwrng_register env in
  call (KHwrngRegister rng err);;
  if negb (err =? 0) then
    call (KDevErr "MXC RNGA registering failed (%d)" [err]);;
    mxc_rnga_err_ioremap clk err
  else kret 0.

(** Lines 186-195.  With null driver data [&mxc_rng->rng] is still passed
    on, and the load of [mxc_rng->clk] goes through the null pointer: the
    function does not return, [None]. *)
Definition mxc_rnga_remove : K platform_device (option Z) :=
  mxc_rng ← platform_get_drvdata;
  call (KHwrngUnregister (rng <$> mxc_rng));;
  match mxc_rng with
  | None => kret None
  | Some inst =>
      call (KClkDisableUnprepare (clk inst));;
      kret (Some 0)
  end.

(** *** Shapes of RNGA traces *)

(** The value [present] takes from a loaded status value. *)
Definition present_of (s : Z) : Z := Z.land s RNGA_STATUS_LEVEL_MASK.

(** The FIFO level a loaded status value reports. *)
Definition level (s : Z) : Z := Z.shiftr (present_of s) 8.

(** A loaded status value shows a FIFO that is not empty. *)
Definition ready (s : Z) : Prop := present_of s <> 0.

(** A loaded status value shows the latched error interrupt. *)
Definition faulty (s : Z) : Prop := Z.land s RNGA_STATUS_ERROR_INT <> 0.

(** The re-checks that load the status values [ss], each after its delay. *)
Definition recheck_events (ss : list Z) : list event :=
  flat_map (fun s => [Udelay 10; MmioRead RNGA_STATUS s]) ss.

(** Rounds of the drain loop from index [i]: each loads a word from the
    FIFO into [data], then loads the status. *)
Fixpoint drain_events (data : ptr) (i : Z) (rounds : list (Z * Z))
  : list event :=
  match rounds with
  | [] => []
  | (w, s) :: rounds' =>
      MmioRead RNGA_OUTPUT_FIFO w :: Store data i w ::
      MmioRead RNGA_STATUS s :: drain_events data (i + 1) rounds'
  end.

(** The events of [err_clear] when CONTROL reads as [ctrl]. *)
Definition err_clear_events (ctrl : Z) : list event :=
  [DevDbg "Error while reading random number!";
   MmioRead RNGA_CONTROL ctrl;
   MmioWrite RNGA_CONTROL (Z.lor ctrl RNGA_CONTROL_CLEAR_INT)].

(** The error path was taken: the trace holds a store to CONTROL. *)
Definition cleared (t : list event) : bool :=
  existsb (writes_to RNGA_CONTROL) t.
End Driver.
End Rnga.

(** ** ath9k ADC-noise RNG (ath9k/rng.c) *)

(** The register map, the register accessors and the power-save calls of
    ath9k (ar9003_phy.h, hw.h, ath9k.h) are not among the sources; the
    driver is embedded over any implementation of them: the offsets and
    masks it names, what each accessor does to the chip, what a register
    load returns, and how the chip evolves during a delay. *)
Class AthHw (H : Type) : Type := {
  AR_PHY_TEST : Z;
  AR_PHY_TEST_BBB_OBS_SEL : Z;
  AR_PHY_TEST_RX_OBS_SEL_BIT5 : Z;
  AR_PHY_TEST_CTL_STATUS : Z;
  AR_PHY_TEST_CTL_RX_OBS_SEL : Z;
  AR_PHY_TST_ADC : Z;
  ath_ps_wakeup : H -> H;
  ath_ps_restore : H -> H;
  ath_rmw_field : H -> Z -> Z -> Z -> H;
  ath_clr_bit : H -> Z -> Z -> H;
  ath_reg_read : H -> Z -> Z * H;
  ath_elapse : H -> Z -> H
}.

Module Ath9k.
Section Driver.
Context {H : Type} `{AthHw H}.

(** The fields of [struct ath_softc] the RNG code uses. *)
Record ath_softc : Type := {
  rng_last : Z;
  sc_ah : H
}.

Definition on_ah (f : H -> H) (sc : ath_softc) : ath_softc :=
  {| rng_last := rng_last sc; sc_ah := f (sc_ah sc) |}.

Definition ath9k_ps_wakeup : M ath_softc unit := fun sc =>
  (tt, on_ah ath_ps_wakeup sc, [PsWakeup]).

Definition ath9k_ps_restore : M ath_softc unit := fun sc =>
  (tt, on_ah ath_ps_restore sc, [PsRestore]).

Definition REG_RMW_FIELD (reg field val : Z) : M ath_softc unit := fun sc =>
  (tt, on_ah (fun ah => ath_rmw_field ah reg field val) sc,
   [RegRmwField reg field val]).

Definition REG_CLR_BIT (reg bit : Z) : M ath_softc unit := fun sc =>
  (tt, on_ah (fun ah => ath_clr_bit ah reg bit) sc, [RegClrBit reg bit]).

Definition REG_READ (reg : Z) : M ath_softc Z := fun sc =>
  let '(v, ah) := ath_reg_read (sc_ah sc) reg in
  (u32_of v, on_ah (fun _ => ah) sc, [RegRead reg (u32_of v)]).

Definition udelay (us : Z) : M ath_softc unit := fun sc =>
  (tt, on_ah (fun ah => ath_elapse ah (us * 1000)) sc, [Udelay us]).

Definition get_rng_last : M ath_softc Z := fun sc => (rng_last sc, sc, []).

Definition set_rng_last (v : Z) : M ath_softc unit := fun sc =>
  (tt, {| rng_last := v; sc_ah := sc_ah sc |}, []).

(** Line 40-41: the test that guards the store. *)
Definition data_ready (rng_last v1 v2 : Z) : bool :=
  negb (v1 =? 0) && negb (v2 =? 0) && negb (rng_last =? v1) &&
  negb (v1 =? v2) && negb (v1 =? 0xffff) && negb (v2 =? 0xffff).

(** Lines 36-44: the body of the scan loop on the locals [j] and
    [rng_last]; [j++] is an increment of an [int]. *)
Definition ath9k_rng_scan (buf : ptr) (st : Z * Z) : M ath_softc (Z * Z) :=
  let '(j, rng_last) := st in
  r1 ← REG_READ AR_PHY_TST_ADC;
  let v1 := Z.land r1 0xffff in
  r2 ← REG_READ AR_PHY_TST_ADC;
  let v2 := Z.land r2 0xffff in
  if data_ready rng_last v1 v2 then
    store buf j (u32_of (Z.lor (Z.shiftl v1 16) v2));;
    ret (int_of (j + 1), v2)
  else ret (j, v2).

(** Line 35: [for (i = 0, j = 0; i < buf_size; i++)], [n] the iterations
    left.  [i] is an [int] compared with the [u32] [buf_size] as unsigned, so
    the body runs [buf_size] times. *)
Fixpoint ath9k_rng_scan_loop (buf : ptr) (n : nat) (st : Z * Z)
  : M ath_softc (Z * Z) :=
  match n with
  | O => ret st
  | S n' =>
      st' ← ath9k_rng_scan buf st;
      ath9k_rng_scan_loop buf n' st'
  end.

Definition ath9k_rng_data_read (buf : ptr) (buf_size : Z) : M ath_softc Z :=
  rng_last ← get_rng_last;
  ath9k_ps_wakeup;;
  REG_RMW_FIELD AR_PHY_TEST AR_PHY_TEST_BBB_OBS_SEL 1;;
  REG_CLR_BIT AR_PHY_TEST AR_PHY_TEST_RX_OBS_SEL_BIT5;;
  REG_RMW_FIELD AR_PHY_TEST_CTL_STATUS AR_PHY_TEST_CTL_RX_OBS_SEL 0;;
  '(j, rng_last) ← ath9k_rng_scan_loop buf (Z.to_nat buf_size) (0, rng_last);
  ath9k_ps_restore;;
  set_rng_last rng_last;;
  ret j.

(** Lines 64-68: [while (wait && !u32s_read && retries--)]. *)
Fixpoint ath9k_rng_retry (data : ptr) (max : Z) (wait : bool) (retries : nat)
  (u32s_read : Z) : M ath_softc Z :=
  if wait && (u32s_read =? 0) then
    match retries with
    | O => ret u32s_read
    | S retries' =>
        udelay 10;;
        u32s_read' ← ath9k_rng_data_read data (u32_of (max / sizeof_u32));
        ath9k_rng_retry data max wait retries' u32s_read'
    end
  else ret u32s_read.

(** Lines 62-68: the first scan and the retries, [u32s_read] at line 70. *)
Definition ath9k_rng_poll (data : ptr) (max : Z) (wait : bool)
  : M ath_softc Z :=
  u32s_read ← ath9k_rng_data_read data (u32_of (max / sizeof_u32));
  ath9k_rng_retry data max wait 20 u32s_read.

Definition ath9k_rng_read (data : ptr) (max : Z) (wait : bool)
  : M ath_softc Z :=
  w ← WARN_ON (max <? sizeof_u32);
  if w : bool then ret (- EINVAL) else
  u32s_read ← ath9k_rng_poll data max wait;
  ret (int_of (u32s_read * sizeof_u32)).

(** What [ath9k_rng_start] and [ath9k_rng_stop] use of [struct
    ath_softc]: the embedded [struct hwrng], the name of the device's
    kobject, and what [AR_SREV_9300_20_OR_LATER] (reg.h, not among the
    sources) says of the chip. *)
Record rng_host : Type := {
  host_rng : hwrng;
  host_kobj_name : string;
  AR_SREV_9300_20_OR_LATER : bool
}.

Definition set_host_rng (f : hwrng -> hwrng) : K rng_host unit := fun sc =>
  (tt,
   {| host_rng := f (host_rng sc);
      host_kobj_name := host_kobj_name sc;
      AR_SREV_9300_20_OR_LATER := AR_SREV_9300_20_OR_LATER sc |},
   []).

Definition get_host : K rng_host rng_host := fun sc => (sc, sc, []).

(** Lines 73-85; [ret] is what [devm_hwrng_register] answers, which the
    function drops. *)
Definition ath9k_rng_start (ret : Z) : K rng_host unit :=
  sc ← get_host;
  if negb (AR_SREV_9300_20_OR_LATER sc) then kret tt else
  set_host_rng (fun r =>
    {| hwrng_name := host_kobj_name sc;
       hwrng_init := hwrng_init r;
       hwrng_cleanup := hwrng_cleanup r;
       hwrng_read := hwrng_read r;
       hwrng_quality := hwrng_quality r |});;
  set_host_rng (fun r =>
    {| hwrng_name := hwrng_name r;
       hwrng_init := hwrng_init r;
       hwrng_cleanup := hwrng_cleanup r;
       hwrng_read := Some "ath9k_rng_read";
       hwrng_quality := hwrng_quality r |});;
  set_host_rng (fun r =>
    {| hwrng_name := hwrng_name r;
       hwrng_init := hwrng_init r;
       hwrng_cleanup := hwrng_cleanup r;
       hwrng_read := hwrng_read r;
       hwrng_quality := 320 |});;
  sc ← get_host;
  call (KDevmHwrngRegister (host_rng sc) ret).

(** Lines 87-90. *)
Definition ath9k_rng_stop : K rng_host unit :=
  sc ← get_host;
  call (KDevmHwrngUnregister (host_rng sc)).

(** The halves of a stored word. *)
Definition hi_half (w : Z) : Z := Z.shiftr w 16.
Definition lo_half (w : Z) : Z := Z.land w 0xffff.

(** A word whose halves are two different samples, neither of them [0] nor
    [0xffff]. *)
Definition good_word (w : Z) : Prop :=
  0 < hi_half w < 0xffff /\ 0 < lo_half w < 0xffff /\ hi_half w <> lo_half w.

(** What the scan loop does: loads of the ADC register and stores of good
    words through [buf]. *)
Definition scan_event (buf : ptr) (e : event) : Prop :=
  match e with
  | RegRead reg _ => reg = AR_PHY_TST_ADC
  | Store p _ w => p = buf /\ good_word w
  | _ => False
  end.

(** *** Shapes of ath9k traces *)

(** The 16-bit sample in a loaded ADC value. *)
Definition sample (r : Z) : Z := Z.land r 0xffff.

(** The word packed from two samples. *)
Definition pack (v1 v2 : Z) : Z := Z.lor (Z.shiftl v1 16) v2.

(** The filter in words: both samples are neither [0] nor [0xffff], they
    differ, and the first differs from the sample read just before it. *)
Definition valid_pair (rng_last v1 v2 : Z) : Prop :=
  v1 <> 0 /\ v1 <> 0xffff /\ v2 <> 0 /\ v2 <> 0xffff /\
  v1 <> v2 /\ v1 <> rng_last.

(** The words a scan keeps from the loaded pairs [pairs], the sample before
    the first pair being [rng_last]. *)
Fixpoint valid_words (rng_last : Z) (pairs : list (Z * Z)) : list Z :=
  match pairs with
  | [] => []
  | (r1, r2) :: pairs' =>
      (if data_ready rng_last (sample r1) (sample r2)
       then [pack (sample r1) (sample r2)] else []) ++
      valid_words (sample r2) pairs'
  end.

(** The last sample after the pairs [pairs]. *)
Definition last_sample (rng_last : Z) (pairs : list (Z * Z)) : Z :=
  default rng_last (sample <$> last (pairs.*2)).

(** Events before and after the scan loop. *)
Definition setup_events : list event :=
  [PsWakeup;
   RegRmwField AR_PHY_TEST AR_PHY_TEST_BBB_OBS_SEL 1;
   RegClrBit AR_PHY_TEST AR_PHY_TEST_RX_OBS_SEL_BIT5;
   RegRmwField AR_PHY_TEST_CTL_STATUS AR_PHY_TEST_CTL_RX_OBS_SEL 0].

(** Events of the scan loop over the loaded pairs [pairs], storing from
    index [j]. *)
Fixpoint scan_events (buf : ptr) (rng_last j : Z) (pairs : list (Z * Z))
  : list event :=
  match pairs with
  | [] => []
  | (r1, r2) :: pairs' =>
      RegRead AR_PHY_TST_ADC r1 :: RegRead AR_PHY_TST_ADC r2 ::
      (if data_ready rng_last (sample r1) (sample r2)
       then Store buf j (pack (sample r1) (sample r2)) ::
            scan_events buf (sample r2) (j + 1) pairs'
       else scan_events buf (sample r2) j pairs')
  end.

(** The values the register loads of a run returned, oldest first. *)
Definition reg_loads (t : list event) : list Z :=
  omap (fun e =>
          match e with
          | RegRead _ v => Some v
          | _ => None
          end) t.

(** A stream of loaded values taken two by two, as the scan loop does. *)
Fixpoint pair_up (l : list Z) : list (Z * Z) :=
  match l with
  | r1 :: r2 :: l' => (r1, r2) :: pair_up l'
  | _ => []
  end.

(** Events of one call of [ath9k_rng_data_read] whose scan loop does [t]. *)
Definition bracket (t : list event) : list event :=
  setup_events ++ t ++ [PsRestore].

(** Events of one call of [ath9k_rng_data_read] that loads [pairs]. *)
Definition data_read_events (buf : ptr) (rng_last : Z)
  (pairs : list (Z * Z)) : list event :=
  setup_events ++ scan_events buf rng_last 0 pairs ++ [PsRestore].

(** Events of the repeated scans that load [scans], each after its delay;
    [rng_last] is the sample before the first of them. *)
Fixpoint rescan_events (buf : ptr) (rng_last : Z)
  (scans : list (list (Z * Z))) : list event :=
  match scans with
  | [] => []
  | pairs :: scans' =>
      Udelay 10 :: data_read_events buf rng_last pairs ++
      rescan_events buf (last_sample rng_last pairs) scans'
  end.

(** The words kept by the last of the scans [scans]; [found] when there is
    none. *)
Fixpoint rescan_words (rng_last : Z) (found : list Z)
  (scans : list (list (Z * Z))) : list Z :=
  match scans with
  | [] => found
  | pairs :: scans' =>
      rescan_words (last_sample rng_last pairs) (valid_words rng_last pairs)
        scans'
  end.

(** The last sample after the scans [scans]. *)
Fixpoint rescan_last (rng_last : Z) (scans : list (list (Z * Z))) : Z :=
  match scans with
  | [] => rng_last
  | pairs :: scans' => rescan_last (last_sample rng_last pairs) scans'
  end.

(** None of the scans [scans] keeps a word. *)
Fixpoint barren (rng_last : Z) (scans : list (list (Z * Z))) : Prop :=
  match scans with
  | [] => True
  | pairs :: scans' =>
      valid_words rng_last pairs = [] /\
      barren (last_sample rng_last pairs) scans'
  end.
End Driver.
End Ath9k.

(** ** A scripted register space *)

(** A mock device to run the drivers on: the queue of the values the coming
    register loads return, in order, whatever the offset; an empty queue
    reads as [0].  Stores and delays leave the queue alone. *)
Module Mock.
#[global] Instance scripted_mmio : MmioDevice (list Z) := {|
  mmio_load q _ := (hd 0 q, tl q);
  mmio_store q _ _ := q;
  mmio_elapse q _ := q
|}.

(** The same queue behind the ath9k accessors, with a stand-in register
    map. *)
#[global] Instance scripted_ath : AthHw (list Z) := {|
  AR_PHY_TEST := 0xa360;
  AR_PHY_TEST_BBB_OBS_SEL := 0x780000;
  AR_PHY_TEST_RX_OBS_SEL_BIT5 := 0x800000;
  AR_PHY_TEST_CTL_STATUS := 0xa364;
  AR_PHY_TEST_CTL_RX_OBS_SEL := 0x3c00;
  AR_PHY_TST_ADC := 0xa3c8;
  ath_ps_wakeup q := q;
  ath_ps_restore q := q;
  ath_rmw_field q _ _ _ := q;
  ath_clr_bit q _ _ := q;
  ath_reg_read q _ := (hd 0 q, tl q);
  ath_elapse q _ := q
|}.

(** Kernel services that let probe through, with a mapping at 0x1000. *)
Definition probe_ok : Tx4939.probe_env :=
  {| Tx4939.kzalloc_ok := true;
     Tx4939.ioremap_base := 0x1000;
     Tx4939.hwrng_register_ret := 0 |}.

(** A TX4939 that has finished a generation, with the words 11, 22, 33. *)
Definition tx_ready : list Z := [0; 11; 22; 33].

(** A TX4939 whose RCSR keeps the start bit set. *)
Definition tx_busy : list Z := repeat 1 30.

(** An RNGA at level 5: status, then words and clean statuses in turn. *)
Definition rnga_clean : list Z := [0x500; 11; 0; 22; 0; 33; 0].

(** The same with the error interrupt in the second status of the drain. *)
Definition rnga_fault : list Z := [0x500; 11; 0; 22; 8; 33].

(** An RNGA with an empty FIFO. *)
Definition rnga_empty : list Z := [].

(** An ath9k whose ADC yields the pairs (1, 2) and (3, 3). *)
Definition ath_two : Ath9k.ath_softc :=
  {| Ath9k.rng_last := 0; Ath9k.sc_ah := [1; 2; 3; 3] |}.

(** An ath9k whose ADC yields ten pairs of which two pass the filter, the
    first and the seventh. *)
Definition ath_ten : Ath9k.ath_softc :=
  {| Ath9k.rng_last := 0;
     Ath9k.sc_ah :=
       [1; 2; 2; 3; 0; 5; 5; 5; 0xffff; 1; 1; 0xffff; 7; 8; 8; 9; 0; 0;
        3; 3] |}.

(** An ath9k whose ADC yields only 0. *)
Definition ath_none : Ath9k.ath_softc :=
  {| Ath9k.rng_last := 0; Ath9k.sc_ah := ([] : list Z) |}.

(** Kernel services that let the RNGA probe through: a clock at 0x1000 and
    a mapping at 0x2000. *)
Definition rnga_services_ok : Rnga.rnga_env :=
  {| Rnga.env_kzalloc_ok := true;
     Rnga.env_clk := 0x1000;
     Rnga.env_clk_prepare_enable := 0;
     Rnga.env_mem := 0x2000;
     Rnga.env_hwrng_register := 0 |}.

(** A platform device no driver has bound to yet. *)
Definition rnga_unbound : Rnga.platform_device :=
  {| Rnga.driver_data := None |}.
End Mock.

(** ** A plain register space *)

(** A register space without side effects: a load returns what was last
    stored at the offset, [0] before any store, and neither a load nor a
    delay changes anything. *)
Module RegFile.
#[global] Instance regfile_mmio : MmioDevice (gmap Z Z) := {|
  mmio_load m offset := (default 0 (m !! offset), m);
  mmio_store m offset val := <[offset := val]> m;
  mmio_elapse m _ := m
|}.

(** An RNGA asleep, with a working oscillator and the interrupts masked. *)
Definition rnga_asleep : gmap Z Z :=
  {[ Rnga.RNGA_CONTROL := 0x14; Rnga.RNGA_STATUS := 0x10 ]}.

(** An RNGA whose status shows a dead oscillator. *)
Definition rnga_dead : gmap Z Z :=
  {[ Rnga.RNGA_CONTROL := 0x10; Rnga.RNGA_STATUS := 0x80000010 ]}.
End RegFile.

(** * Properties *)

(** ** Machine integers *)

Lemma int_of_small (z : Z) : - 2 ^ 31 <= z < 2 ^ 31 -> int_of z = z.
Proof.
  intros Hz. unfold int_of.
  rewrite Z.mod_small by lia. lia.
Qed.

Lemma int_of_range (z : Z) : - 2 ^ 31 <= int_of z < 2 ^ 31.
Proof.
  unfold int_of.
  pose proof (Z.mod_pos_bound (z + 2 ^ 31) (2 ^ 32) ltac:(lia)). lia.
Qed.

Lemma int_of_cong (z : Z) : exists q, int_of z = z + q * 2 ^ 32.
Proof.
  unfold int_of. exists (- ((z + 2 ^ 31) / 2 ^ 32)).
  pose proof (Z.div_mod (z + 2 ^ 31) (2 ^ 32) ltac:(lia)). lia.
Qed.

Lemma int_of_succ (z : Z) : int_of (int_of z + 1) = int_of (z + 1).
Proof.
  destruct (int_of_cong z) as [q Hq]. rewrite Hq. unfold int_of.
  replace (z + q * 2 ^ 32 + 1 + 2 ^ 31) with (z + 1 + 2 ^ 31 + q * 2 ^ 32)
    by lia.
  now rewrite Z.mod_add by lia.
Qed.

Lemma u32_of_small (z : Z) : 0 <= z < 2 ^ 32 -> u32_of z = z.
Proof. intros Hz. unfold u32_of. now rewrite Z.mod_small. Qed.

Lemma u32_of_range (z : Z) : 0 <= u32_of z < 2 ^ 32.
Proof. unfold u32_of. apply Z.mod_pos_bound. lia. Qed.

Lemma u32_of_le (z : Z) : 0 <= z -> u32_of z <= z.
Proof. intros Hz. unfold u32_of. apply Z.mod_le; lia. Qed.

Lemma lnot_zero (z : Z) : lnot z = 0 <-> z <> 0.
Proof.
  unfold lnot. destruct (Z.eqb_spec z 0); split; intros; lia || congruence.
Qed.

Lemma lor_below (n a b : Z) :
  0 <= n -> 0 <= a < 2 ^ n -> 0 <= b < 2 ^ n -> 0 <= Z.lor a b < 2 ^ n.
Proof.
  intros Hn Ha Hb.
  rewrite <- (Z.mod_small a (2 ^ n)), <- (Z.mod_small b (2 ^ n)) by lia.
  rewrite <- !Z.land_ones by lia.
  rewrite <- Z.land_lor_distr_l, Z.land_ones by lia.
  apply Z.mod_pos_bound. lia.
Qed.

(** ** Computations *)

(** Unfolds the monad down to state-passing functions. *)
Ltac unfold_m :=
  unfold store, dev_dbg in *;
  unfold mbind, M_bind, bind, ret, emit in *;
  cbv beta iota in *.

(** ** TX4939 *)

Section TxFacts.
Context {D : Type} `{MmioDevice D}.
Variable cfg : bool.
Import Tx4939.

Lemma tx_present_run (d : D) :
  tx4939_rng_present cfg d =
  (lnot (Z.land (u64_of (mmio_load d TX4939_RNG_RCSR).1) TX4939_RNG_RCSR_ST),
   (mmio_load d TX4939_RNG_RCSR).2,
   check_events cfg (u64_of (mmio_load d TX4939_RNG_RCSR).1)).
Proof.
  unfold tx4939_rng_present, check_events, critical, rng_io_start, rng_io_end,
    read_rng, ____raw_readq.
  unfold_m.
  destruct cfg; cbn; destruct (mmio_load d TX4939_RNG_RCSR) as [v d'];
    reflexivity.
Qed.

Lemma tx_wait_step (wait : bool) (retries : nat) (present : Z) (d : D) :
  tx4939_rng_wait cfg wait retries present d =
  if wait && (present =? 0) then
    match retries with
    | O => (present, d, [])
    | S retries' =>
        let '(p, d1, t1) := tx4939_rng_present cfg (mmio_elapse d 450) in
        let '(p', d2, t2) := tx4939_rng_wait cfg wait retries' p d1 in
        (p', d2, Ndelay 450 :: t1 ++ t2)
    end
  else (present, d, []).
Proof.
  destruct retries; cbn [tx4939_rng_wait]; destruct (wait && (present =? 0));
    try reflexivity.
  unfold ndelay. unfold_m. cbn. change (90 * 5) with 450.
  destruct (tx4939_rng_present cfg (mmio_elapse d 450)) as [[p d1] t1].
  destruct (tx4939_rng_wait cfg wait retries p d1) as [[p' d2] t2].
  reflexivity.
Qed.

Lemma tx_wait_run (retries : nat) (wait : bool) (present : Z) (d : D) :
  exists (ss : list Z) (d' : D),
    (length ss <= retries)%nat /\
    tx4939_rng_wait cfg wait retries present d =
      (default present (last (present_of <$> ss)), d',
       recheck_events cfg ss) /\
    (ss <> [] -> wait = true /\ present = 0) /\
    Forall (fun s => ~ ready s) (take (length ss - 1) ss) /\
    (wait = true -> default present (last (present_of <$> ss)) = 0 ->
     length ss = retries).
Proof.
  revert present d.
  induction retries as [|r IH]; intros p d; rewrite tx_wait_step.
  - exists [], d.
    destruct (wait && (p =? 0)); cbn; repeat split; auto; lia || congruence.
  - destruct (wait && (p =? 0)) eqn:Hc.
    + apply andb_true_iff in Hc as [-> Hp%Z.eqb_eq].
      rewrite tx_present_run.
      set (s := u64_of (mmio_load (mmio_elapse d 450) TX4939_RNG_RCSR).1).
      destruct (IH (lnot (Z.land s TX4939_RNG_RCSR_ST))
                  (mmio_load (mmio_elapse d 450) TX4939_RNG_RCSR).2)
        as (ss & d' & Hlen & Hrun & Hne & Hall & Hex).
      rewrite Hrun. exists (s :: ss), d'.
      assert (Hlast : default p (last (present_of <$> s :: ss)) =
                      default (present_of s) (last (present_of <$> ss))).
      { destruct ss as [|s1 ss]; [reflexivity|]. rewrite fmap_cons, last_cons.
        destruct (last (present_of <$> s1 :: ss)) eqn:El; [reflexivity|].
        rewrite fmap_cons in El. apply last_None in El. discriminate. }
      repeat split.
      * cbn. lia.
      * rewrite Hlast. reflexivity.
      * assumption.
      * destruct ss as [|s1 ss]; [constructor|].
        cbn [length].
        replace (S (S (length ss)) - 1)%nat with (S (S (length ss) - 1))
          by lia.
        rewrite firstn_cons. constructor; [|exact Hall].
        destruct Hne as [_ Hz]; [discriminate|].
        apply lnot_zero in Hz. exact Hz.
      * intros _ Hz. rewrite Hlast in Hz. cbn. f_equal. apply Hex; auto.
    + exists [], d. cbn. repeat split; auto; try lia; try congruence.
      intros -> Hp. subst p. discriminate.
Qed.

Lemma tx_present_of_ready (s : Z) : present_of s <> 0 <-> ready s.
Proof.
  unfold present_of, ready, lnot.
  destruct (Z.eqb_spec (Z.land s TX4939_RNG_RCSR_ST) 0); split; intros;
    lia || congruence.
Qed.

Lemma tx_poll_run (wait : bool) (d : D) :
  exists (ss : list Z) (d' : D),
    let s0 := u64_of (mmio_load d TX4939_RNG_RCSR).1 in
    (length ss <= 20)%nat /\
    tx4939_rng_poll cfg wait d =
      (present_of (default s0 (last ss)), d',
       check_events cfg s0 ++ recheck_events cfg ss) /\
    (wait = false -> ss = []) /\
    (ready s0 -> ss = []) /\
    Forall (fun s => ~ ready s) (take (length ss) (s0 :: ss)) /\
    (wait = true -> ~ ready (default s0 (last ss)) -> length ss = 20%nat).
Proof.
  unfold tx4939_rng_poll. unfold_m. rewrite tx_present_run.
  set (s0 := u64_of (mmio_load d TX4939_RNG_RCSR).1).
  destruct (tx_wait_run 20 wait (lnot (Z.land s0 TX4939_RNG_RCSR_ST))
              (mmio_load d TX4939_RNG_RCSR).2)
    as (ss & d' & Hlen & Hrun & Hne & Hall & Hex).
  exists ss, d'. cbn zeta. rewrite Hrun.
  assert (Hlast : default (lnot (Z.land s0 TX4939_RNG_RCSR_ST))
                    (last (present_of <$> ss)) =
                  present_of (default s0 (last ss))).
  { rewrite fmap_last. destruct (last ss); reflexivity. }
  rewrite Hlast in *.
  repeat split; try assumption.
  - intros ->. destruct ss; [reflexivity|]. destruct Hne; congruence.
  - intros Hr. destruct ss; [reflexivity|].
    destruct Hne as [_ Hz]; [discriminate|].
    apply lnot_zero in Hz. contradiction.
  - destruct ss as [|s1 ss]; [constructor|].
    cbn [length] in *. rewrite firstn_cons. constructor.
    + destruct Hne as [_ Hz]; [discriminate|]. now apply lnot_zero in Hz.
    + replace (S (length ss) - 1)%nat with (length ss) in Hall by lia.
      exact Hall.
  - intros Hw Hnr. apply Hex; [assumption|].
    destruct (Z.eq_dec (present_of (default s0 (last ss))) 0) as [|Hn];
      [assumption|].
    apply tx_present_of_ready in Hn. contradiction.
Qed.

Lemma tx_drain_run (data : ptr) (n : nat) (i : Z) (d : D) :
  exists (ws : list Z) (d' : D),
    length ws = n /\
    tx4939_rng_drain data n i d =
      (i + Z.of_nat n, d', drain_events data i ws).
Proof.
  revert i d. induction n as [|n IH]; intros i d.
  - exists [], d. split; [reflexivity|]. cbn. unfold ret.
    f_equal. f_equal. lia.
  - cbn [tx4939_rng_drain]. unfold read_rng, ____raw_readq. unfold_m.
    destruct (mmio_load d (TX4939_RNG_ROR i)) as [v d1].
    destruct (IH (i + 1) d1) as (ws & d' & Hlen & Hrun).
    exists (u64_of v :: ws), d'. split; [cbn; lia|].
    rewrite Hrun. cbn. f_equal. f_equal. lia.
Qed.

Lemma tx_read_unfold (data : ptr) (max : Z) (wait : bool) (d : D) :
  tx4939_rng_read cfg data max wait d =
  if max <? 8 then (- EINVAL, d, [Warn]) else
  let '(p, d1, t1) := tx4939_rng_poll cfg wait d in
  if p =? 0 then (0, d1, t1) else
  let '(i, d2, t2) :=
    tx4939_rng_drain data (Z.to_nat (Z.min 3 (max / 8))) 0 d1 in
  (int_of (i * 8), mmio_store d2 TX4939_RNG_RCSR TX4939_RNG_RCSR_ST,
   t1 ++
   critical cfg (t2 ++ [MmioWrite TX4939_RNG_RCSR TX4939_RNG_RCSR_ST])).
Proof.
  unfold tx4939_rng_read, WARN_ON, sizeof_u64.
  destruct (max <? 8); [reflexivity|].
  unfold_m. cbn.
  destruct (tx4939_rng_poll cfg wait d) as [[p d1] t1].
  destruct (p =? 0); [now rewrite app_nil_r|].
  unfold rng_io_start, rng_io_end, write_rng, ____raw_writeq, critical.
  unfold_m.
  destruct cfg; cbn;
    destruct (tx4939_rng_drain data (Z.to_nat (3 `min` (max / 8))) 0 d1)
      as [[i d2] t2]; cbn;
    change (u64_of TX4939_RNG_RCSR_ST) with TX4939_RNG_RCSR_ST;
    rewrite ?app_nil_r, <- ?app_assoc; reflexivity.
Qed.

(** The run of a call that passes the size check, by the outcome of the
    poll. *)
Lemma tx_read_run (data : ptr) (max : Z) (wait : bool) (d : D) :
  8 <= max ->
  let n := Z.min 3 (max / 8) in
  exists (ws : list Z) (d' : D),
    length ws = Z.to_nat n /\
    tx4939_rng_read cfg data max wait d =
    if result (tx4939_rng_poll cfg wait d) =? 0
    then tx4939_rng_poll cfg wait d
    else (8 * n, d',
          trace (tx4939_rng_poll cfg wait d) ++
          critical cfg (drain_events data 0 ws ++
                        [MmioWrite TX4939_RNG_RCSR TX4939_RNG_RCSR_ST])).
Proof.
  intros Hmax n. rewrite tx_read_unfold.
  destruct (Z.ltb_spec max 8) as [|_]; [lia|].
  destruct (tx4939_rng_poll cfg wait d) as [[p d1] t1]. cbn.
  destruct (tx_drain_run data (Z.to_nat n) 0 d1) as (ws & d2 & Hlen & Hrun).
  fold n. rewrite Hrun.
  exists ws, (mmio_store d2 TX4939_RNG_RCSR TX4939_RNG_RCSR_ST).
  split; [assumption|].
  destruct (Z.eqb_spec p 0) as [->|Hp]; [reflexivity|].
  assert (0 <= max / 8) by (apply Z.div_pos; lia).
  assert (0 <= n <= 3) by (unfold n; lia).
  rewrite int_of_small by lia.
  f_equal. f_equal. lia.
Qed.
End TxFacts.

(** ** RNGA *)

Section RngaFacts.
Context {D : Type} `{MmioDevice D}.
Import Rnga.

Lemma rnga_present_run (d : D) :
  mxc_rnga_present d =
  (present_of (u32_of (mmio_load d RNGA_STATUS).1),
   (mmio_load d RNGA_STATUS).2,
   [MmioRead RNGA_STATUS (u32_of (mmio_load d RNGA_STATUS).1)]).
Proof.
  unfold mxc_rnga_present, __raw_readl. unfold_m.
  destruct (mmio_load d RNGA_STATUS) as [v d']. reflexivity.
Qed.

Lemma rnga_wait_step (wait : bool) (retries : nat) (present : Z) (d : D) :
  mxc_rnga_wait wait retries present d =
  if wait && (present =? 0) then
    match retries with
    | O => (present, d, [])
    | S retries' =>
        let '(p, d1, t1) := mxc_rnga_present (mmio_elapse d 10000) in
        let '(p', d2, t2) := mxc_rnga_wait wait retries' p d1 in
        (p', d2, Udelay 10 :: t1 ++ t2)
    end
  else (present, d, []).
Proof.
  destruct retries; cbn [mxc_rnga_wait]; destruct (wait && (present =? 0));
    try reflexivity.
  unfold udelay. unfold_m. change (10 * 1000) with 10000.
  destruct (mxc_rnga_present (mmio_elapse d 10000)) as [[p d1] t1].
  destruct (mxc_rnga_wait wait retries p d1) as [[p' d2] t2].
  reflexivity.
Qed.

Lemma rnga_wait_run (retries : nat) (wait : bool) (present : Z) (d : D) :
  exists (ss : list Z) (d' : D),
    (length ss <= retries)%nat /\
    mxc_rnga_wait wait retries present d =
      (default present (last (present_of <$> ss)), d', recheck_events ss) /\
    (ss <> [] -> wait = true /\ present = 0) /\
    Forall (fun s => ~ ready s) (take (length ss - 1) ss) /\
    (wait = true -> default present (last (present_of <$> ss)) = 0 ->
     length ss = retries).
Proof.
  revert present d.
  induction retries as [|r IH]; intros p d; rewrite rnga_wait_step.
  - exists [], d.
    destruct (wait && (p =? 0)); cbn; repeat split; auto; lia || congruence.
  - destruct (wait && (p =? 0)) eqn:Hc.
    + apply andb_true_iff in Hc as [-> Hp%Z.eqb_eq].
      rewrite rnga_present_run.
      set (s := u32_of (mmio_load (mmio_elapse d 10000) RNGA_STATUS).1).
      destruct (IH (present_of s)
                  (mmio_load (mmio_elapse d 10000) RNGA_STATUS).2)
        as (ss & d' & Hlen & Hrun & Hne & Hall & Hex).
      rewrite Hrun. exists (s :: ss), d'.
      assert (Hlast : default p (last (present_of <$> s :: ss)) =
                      default (present_of s) (last (present_of <$> ss))).
      { rewrite !fmap_last. destruct ss as [|s1 ss]; [reflexivity|].
        rewrite last_cons. destruct (last (s1 :: ss)) eqn:El; [reflexivity|].
        apply last_None in El. discriminate. }
      repeat split.
      * cbn. lia.
      * rewrite Hlast. reflexivity.
      * assumption.
      * destruct ss as [|s1 ss]; [constructor|].
        cbn [length].
        replace (S (S (length ss)) - 1)%nat with (S (S (length ss) - 1))
          by lia.
        rewrite firstn_cons. constructor; [|exact Hall].
        destruct Hne as [_ Hz]; [discriminate|].
        unfold ready. intros Hr. contradiction.
      * intros _ Hz. rewrite Hlast in Hz. cbn. f_equal. apply Hex; auto.
    + exists [], d. cbn. repeat split; auto; try lia; try congruence.
      intros -> Hp. subst p. discriminate.
Qed.

Lemma rnga_poll_run (wait : bool) (d : D) :
  exists (ss : list Z) (d' : D),
    let s0 := u32_of (mmio_load d RNGA_STATUS).1 in
    (length ss <= 20)%nat /\
    mxc_rnga_poll wait d =
      (present_of (default s0 (last ss)), d',
       MmioRead RNGA_STATUS s0 :: recheck_events ss) /\
    (wait = false -> ss = []) /\
    (ready s0 -> ss = []) /\
    Forall (fun s => ~ ready s) (take (length ss) (s0 :: ss)) /\
    (wait = true -> ~ ready (default s0 (last ss)) -> length ss = 20%nat).
Proof.
  unfold mxc_rnga_poll. unfold_m. rewrite rnga_present_run.
  set (s0 := u32_of (mmio_load d RNGA_STATUS).1).
  destruct (rnga_wait_run 20 wait (present_of s0) (mmio_load d RNGA_STATUS).2)
    as (ss & d' & Hlen & Hrun & Hne & Hall & Hex).
  exists ss, d'. cbn zeta. rewrite Hrun.
  assert (Hlast : default (present_of s0) (last (present_of <$> ss)) =
                  present_of (default s0 (last ss))).
  { rewrite fmap_last. destruct (last ss); reflexivity. }
  rewrite Hlast in *.
  repeat split; try assumption.
  - intros ->. destruct ss; [reflexivity|]. destruct Hne; congruence.
  - intros Hr. destruct ss; [reflexivity|].
    destruct Hne as [_ Hz]; [discriminate|]. contradiction.
  - destruct ss as [|s1 ss]; [constructor|].
    cbn [length] in *. rewrite firstn_cons. constructor.
    + destruct Hne as [_ Hz]; [discriminate|]. unfold ready. tauto.
    + replace (S (length ss) - 1)%nat with (length ss) in Hall by lia.
      exact Hall.
  - intros Hw Hnr. apply Hex; [assumption|].
    destruct (Z.eq_dec (present_of (default s0 (last ss))) 0) as [|Hn];
      [assumption|contradiction].
Qed.

(** The drain loop: clean rounds, then either the end of the loop or one
    round whose status shows the error interrupt. *)
Lemma rnga_drain_run (data : ptr) (n : nat) (i : Z) (d : D) :
  exists (rounds : list (Z * Z)) (fault : option (Z * Z)) (d' : D),
    Forall (fun r => ~ faulty r.2) rounds /\
    match fault with
    | None => length rounds = n
    | Some r => (length rounds < n)%nat /\ faulty r.2
    end /\
    mxc_rnga_drain data n i d =
      ((i + Z.of_nat (length rounds), bool_decide (is_Some fault)), d',
       drain_events data i (rounds ++ option_list fault)).
Proof.
  revert i d. induction n as [|n IH]; intros i d.
  - exists [], None, d. repeat split; [constructor|].
    cbn. unfold ret. rewrite Z.add_0_r. reflexivity.
  - cbn [mxc_rnga_drain]. unfold __raw_readl. unfold_m.
    destruct (mmio_load d RNGA_OUTPUT_FIFO) as [v d1].
    destruct (mmio_load d1 RNGA_STATUS) as [s d2].
    destruct (Z.eqb_spec (Z.land (u32_of s) RNGA_STATUS_ERROR_INT) 0)
      as [Hok|Herr].
    + destruct (IH (i + 1) d2) as (rounds & fault & d' & Hclean & Hf & Hrun).
      exists ((u32_of v, u32_of s) :: rounds), fault, d'. repeat split.
      * constructor; [|assumption]. intros Hf'. apply Hf'. exact Hok.
      * destruct fault; cbn in *; [|lia].
        destruct Hf. split; [lia|assumption].
      * rewrite Hrun. cbn [length app drain_events].
        replace (i + 1 + Z.of_nat (length rounds))
          with (i + Z.of_nat (S (length rounds))) by lia.
        reflexivity.
    + exists [], (Some (u32_of v, u32_of s)), d2. repeat split.
      * constructor.
      * cbn. lia.
      * exact Herr.
      * cbn. rewrite Z.add_0_r. reflexivity.
Qed.

Lemma level_range (s : Z) : 0 <= level s < 256.
Proof.
  unfold level, present_of. rewrite Z.shiftr_land.
  change (Z.shiftr RNGA_STATUS_LEVEL_MASK 8) with (Z.ones 8).
  rewrite Z.land_ones by lia. apply Z.mod_pos_bound. lia.
Qed.

Lemma rnga_read_unfold (data : ptr) (max : Z) (wait : bool) (d : D) :
  mxc_rnga_read data max wait d =
  if max <? 4 then (- EINVAL, d, [Warn]) else
  let '(p, d1, t1) := mxc_rnga_poll wait d in
  if p =? 0 then (0, d1, t1) else
  let '(i, err, d2, t2) :=
    mxc_rnga_drain data (Z.to_nat (Z.min (Z.shiftr p 8) (max / 4))) 0 d1 in
  if err : bool then
    let '(c, d3) := mmio_load d2 RNGA_CONTROL in
    (int_of (i * 4),
     mmio_store d3 RNGA_CONTROL (Z.lor (u32_of c) RNGA_CONTROL_CLEAR_INT),
     t1 ++ t2 ++ err_clear_events (u32_of c))
  else (int_of (i * 4), d2, t1 ++ t2).
Proof.
  unfold mxc_rnga_read, WARN_ON, sizeof_u32.
  destruct (max <? 4); [reflexivity|].
  unfold_m. cbn.
  destruct (mxc_rnga_poll wait d) as [[p d1] t1].
  destruct (p =? 0); [now rewrite app_nil_r|].
  destruct (mxc_rnga_drain data (Z.to_nat (Z.shiftr p 8 `min` (max / 4))) 0 d1)
    as [[[i err] d2] t2].
  destruct err; [|now rewrite !app_nil_r].
  unfold mxc_rnga_err_clear, __raw_readl, __raw_writel, err_clear_events.
  unfold_m.
  destruct (mmio_load d2 RNGA_CONTROL) as [c d3]. cbn.
  rewrite (u32_of_small (Z.lor _ _)); [reflexivity|].
  apply (lor_below 32); [lia|apply u32_of_range|].
  unfold RNGA_CONTROL_CLEAR_INT. lia.
Qed.

(** The run of a call that passes the size check, by the outcome of the
    poll: clean rounds of the drain loop, then either its end or a faulty
    round followed by [err_clear]. *)
Lemma rnga_read_run (data : ptr) (max : Z) (wait : bool) (d : D) :
  4 <= max ->
  let p := result (mxc_rnga_poll wait d) in
  let n := Z.min (Z.shiftr p 8) (max / 4) in
  exists (rounds : list (Z * Z)) (fault : option (Z * Z)) (ctrl : Z) (d' : D),
    Forall (fun r => ~ faulty r.2) rounds /\
    match fault with
    | None => Z.of_nat (length rounds) = n
    | Some r => 0 <= Z.of_nat (length rounds) < n /\ faulty r.2
    end /\
    mxc_rnga_read data max wait d =
    if p =? 0 then mxc_rnga_poll wait d
    else (4 * Z.of_nat (length rounds), d',
          trace (mxc_rnga_poll wait d) ++
          drain_events data 0 (rounds ++ option_list fault) ++
          match fault with
          | None => []
          | Some _ => err_clear_events ctrl
          end).
Proof.
  intros Hmax p n. rewrite rnga_read_unfold.
  destruct (Z.ltb_spec max 4) as [|_]; [lia|].
  destruct (rnga_poll_run wait d) as (ss & d1 & _ & Hpoll & _).
  cbn zeta in Hpoll. subst n p. rewrite Hpoll. cbn [result fst snd trace].
  set (p := present_of _).
  set (n := Z.min (Z.shiftr p 8) (max / 4)).
  assert (Hn : 0 <= n < 256).
  { pose proof (level_range
                  (default (u32_of (mmio_load d RNGA_STATUS).1) (last ss)))
      as Hl.
    unfold level in Hl. fold p in Hl.
    assert (0 <= max / 4) by (apply Z.div_pos; lia). lia. }
  destruct (rnga_drain_run data (Z.to_nat n) 0 d1)
    as (rounds & fault & d2 & Hclean & Hf & Hrun).
  rewrite Hrun.
  destruct (mmio_load d2 RNGA_CONTROL) as [c d3] eqn:Ec.
  assert (Hk : 0 <= Z.of_nat (length rounds) <= n).
  { destruct fault; [destruct Hf|]; lia. }
  destruct fault as [r|]; cbn [is_Some bool_decide].
  - exists rounds, (Some r), (u32_of c),
      (mmio_store d3 RNGA_CONTROL (Z.lor (u32_of c) RNGA_CONTROL_CLEAR_INT)).
    destruct Hf as [Hlt Hfaulty].
    split; [assumption|]. split; [split; [lia|assumption]|].
    destruct (Z.eqb_spec p 0) as [->|_]; [reflexivity|].
    rewrite bool_decide_eq_true_2 by eauto.
    replace ((0 + Z.of_nat (length rounds)) * 4)
      with (4 * Z.of_nat (length rounds)) by lia.
    rewrite int_of_small by lia. reflexivity.
  - exists rounds, None, 0, d2.
    split; [assumption|]. split; [lia|].
    destruct (Z.eqb_spec p 0) as [->|_]; [reflexivity|].
    rewrite bool_decide_eq_false_2 by (intros [? ?]; discriminate).
    replace ((0 + Z.of_nat (length rounds)) * 4)
      with (4 * Z.of_nat (length rounds)) by lia.
    rewrite int_of_small by lia. rewrite !app_nil_r. reflexivity.
Qed.
End RngaFacts.

(** ** ath9k *)

Section AthFacts.
Context {H : Type} `{AthHw H}.
Import Ath9k.

Lemma sample_range (r : Z) : 0 <= sample r < 2 ^ 16.
Proof.
  unfold sample. change 0xffff with (Z.ones 16).
  rewrite Z.land_ones by lia. apply Z.mod_pos_bound. lia.
Qed.

Lemma pack_range (v1 v2 : Z) :
  0 <= v1 < 2 ^ 16 -> 0 <= v2 < 2 ^ 16 -> 0 <= pack v1 v2 < 2 ^ 32.
Proof.
  intros H1 H2. unfold pack. apply lor_below; [lia| |lia].
  rewrite Z.shiftl_mul_pow2 by lia. lia.
Qed.

(** The test of line 40 is the filter in words. *)
Lemma data_ready_spec (rng_last v1 v2 : Z) :
  data_ready rng_last v1 v2 = true <-> valid_pair rng_last v1 v2.
Proof.
  unfold data_ready, valid_pair.
  rewrite !andb_true_iff, !negb_true_iff, !Z.eqb_neq. intuition congruence.
Qed.

Lemma ath_scan_run (buf : ptr) (j rng_last : Z) (sc : ath_softc) :
  exists (r1 r2 : Z) (ah : H),
    let v1 := sample r1 in
    let v2 := sample r2 in
    ath9k_rng_scan buf (j, rng_last) sc =
    (if data_ready rng_last v1 v2 then (int_of (j + 1), v2) else (j, v2),
     {| Ath9k.rng_last := Ath9k.rng_last sc; sc_ah := ah |},
     scan_events buf rng_last j [(r1, r2)]).
Proof.
  unfold ath9k_rng_scan, REG_READ, on_ah. unfold_m.
  destruct (ath_reg_read (sc_ah sc) AR_PHY_TST_ADC) as [x1 ah1]. cbn.
  destruct (ath_reg_read ah1 AR_PHY_TST_ADC) as [x2 ah2]. cbn.
  exists (u32_of x1), (u32_of x2), ah2. cbn zeta.
  fold (sample (u32_of x1)). fold (sample (u32_of x2)).
  fold (pack (sample (u32_of x1)) (sample (u32_of x2))).
  rewrite (u32_of_small (pack _ _))
    by (apply pack_range; apply sample_range).
  destruct (data_ready rng_last (sample (u32_of x1)) (sample (u32_of x2)));
    reflexivity.
Qed.

Lemma last_sample_cons (rng_last r1 r2 : Z) (pairs : list (Z * Z)) :
  last_sample rng_last ((r1, r2) :: pairs) = last_sample (sample r2) pairs.
Proof.
  unfold last_sample. destruct pairs as [|p pairs]; [reflexivity|].
  rewrite !fmap_cons, last_cons.
  destruct (last (p.2 :: pairs.*2)) eqn:El; [reflexivity|].
  apply last_None in El. discriminate.
Qed.

Lemma valid_words_length (rng_last : Z) (pairs : list (Z * Z)) :
  (length (valid_words rng_last pairs) <= length pairs)%nat.
Proof.
  revert rng_last. induction pairs as [|[r1 r2] pairs IH]; intros l; cbn.
  - lia.
  - rewrite length_app. specialize (IH (sample r2)).
    destruct (data_ready l (sample r1) (sample r2)); cbn; lia.
Qed.

Lemma ath_scan_loop_step (buf : ptr) (n : nat) (st : Z * Z) (sc : ath_softc) :
  ath9k_rng_scan_loop buf (S n) st sc =
  let '(st1, sc1, t1) := ath9k_rng_scan buf st sc in
  let '(st2, sc2, t2) := ath9k_rng_scan_loop buf n st1 sc1 in
  (st2, sc2, t1 ++ t2).
Proof. reflexivity. Qed.

(** The scan loop while the counter [j] stays below [INT_MAX]. *)
Lemma ath_scan_loop_run (buf : ptr) (n : nat) (j rng_last : Z)
  (sc : ath_softc) :
  0 <= j -> j + Z.of_nat n <= INT_MAX ->
  exists (pairs : list (Z * Z)) (ah : H),
    length pairs = n /\
    ath9k_rng_scan_loop buf n (j, rng_last) sc =
    ((j + Z.of_nat (length (valid_words rng_last pairs)),
      last_sample rng_last pairs),
     {| Ath9k.rng_last := Ath9k.rng_last sc; sc_ah := ah |},
     scan_events buf rng_last j pairs).
Proof.
  revert j rng_last sc.
  induction n as [|n IH]; intros j l sc Hj Hn.
  - exists [], (sc_ah sc). split; [reflexivity|]. cbn. unfold ret.
    rewrite Z.add_0_r. destruct sc. reflexivity.
  - rewrite ath_scan_loop_step.
    destruct (ath_scan_run buf j l sc) as (r1 & r2 & ah1 & Hstep).
    cbn zeta in Hstep. rewrite Hstep. clear Hstep.
    unfold INT_MAX in Hn.
    destruct (data_ready l (sample r1) (sample r2)) eqn:Hr.
    + rewrite int_of_small by lia.
      destruct (IH (j + 1) (sample r2)
                  {| Ath9k.rng_last := Ath9k.rng_last sc; sc_ah := ah1 |})
        as (pairs & ah & Hlen & Hrun); [lia|unfold INT_MAX; lia|].
      rewrite Hrun. exists ((r1, r2) :: pairs), ah.
      split; [cbn; lia|].
      rewrite last_sample_cons. cbn [valid_words scan_events]. rewrite Hr.
      cbn [app length Ath9k.rng_last].
      replace (j + 1 + Z.of_nat (length (valid_words (sample r2) pairs)))
        with (j + Z.of_nat (S (length (valid_words (sample r2) pairs))))
        by lia.
      reflexivity.
    + destruct (IH j (sample r2)
                  {| Ath9k.rng_last := Ath9k.rng_last sc; sc_ah := ah1 |})
        as (pairs & ah & Hlen & Hrun); [lia|unfold INT_MAX; lia|].
      rewrite Hrun. exists ((r1, r2) :: pairs), ah.
      split; [cbn; lia|].
      rewrite last_sample_cons. cbn [valid_words scan_events]. rewrite Hr.
      reflexivity.
Qed.

(** The counter of the scan loop for any number of rounds: the number of
    stores, wrapped to [int]. *)
Lemma ath_scan_loop_count (buf : ptr) (n : nat) (jz rng_last : Z)
  (sc : ath_softc) :
  exists c : Z,
    0 <= c <= Z.of_nat n /\
    (result (ath9k_rng_scan_loop buf n (int_of jz, rng_last) sc)).1 =
    int_of (jz + c).
Proof.
  revert jz rng_last sc. induction n as [|n IH]; intros jz l sc.
  - exists 0. split; [lia|]. cbn. now rewrite Z.add_0_r.
  - rewrite ath_scan_loop_step.
    destruct (ath_scan_run buf (int_of jz) l sc) as (r1 & r2 & ah1 & Hstep).
    cbn zeta in Hstep. rewrite Hstep. clear Hstep.
    destruct (data_ready l (sample r1) (sample r2)).
    + rewrite int_of_succ.
      destruct (IH (jz + 1) (sample r2)
                  {| Ath9k.rng_last := Ath9k.rng_last sc; sc_ah := ah1 |})
        as (c & Hc & Hres).
      destruct (ath9k_rng_scan_loop buf n (int_of (jz + 1), sample r2) _)
        as [[st2 sc2] t2].
      exists (c + 1). split; [lia|]. cbn in *. rewrite Hres. f_equal. lia.
    + destruct (IH jz (sample r2)
                  {| Ath9k.rng_last := Ath9k.rng_last sc; sc_ah := ah1 |})
        as (c & Hc & Hres).
      destruct (ath9k_rng_scan_loop buf n (int_of jz, sample r2) _)
        as [[st2 sc2] t2].
      exists c. split; [lia|]. exact Hres.
Qed.

Lemma ath_data_read_unfold (buf : ptr) (buf_size : Z) (sc : ath_softc) :
  exists sc0 : ath_softc,
    Ath9k.rng_last sc0 = Ath9k.rng_last sc /\
    ath9k_rng_data_read buf buf_size sc =
    let '(j, l, sc1, t) :=
      ath9k_rng_scan_loop buf (Z.to_nat buf_size) (0, Ath9k.rng_last sc) sc0 in
    (j, {| Ath9k.rng_last := l; sc_ah := ath_ps_restore (sc_ah sc1) |},
     setup_events ++ t ++ [PsRestore]).
Proof.
  unfold ath9k_rng_data_read, get_rng_last, ath9k_ps_wakeup, REG_RMW_FIELD,
    REG_CLR_BIT, ath9k_ps_restore, set_rng_last, on_ah.
  unfold_m. cbn.
  exists {| Ath9k.rng_last := Ath9k.rng_last sc;
            sc_ah :=
              ath_rmw_field
                (ath_clr_bit
                   (ath_rmw_field (ath_ps_wakeup (sc_ah sc)) AR_PHY_TEST
                      AR_PHY_TEST_BBB_OBS_SEL 1)
                   AR_PHY_TEST AR_PHY_TEST_RX_OBS_SEL_BIT5)
                AR_PHY_TEST_CTL_STATUS AR_PHY_TEST_CTL_RX_OBS_SEL 0 |}.
  split; [reflexivity|].
  destruct (ath9k_rng_scan_loop buf (Z.to_nat buf_size) _ _)
    as [[[j l] sc1] t]; cbn; rewrite ?app_nil_r; reflexivity.
Qed.

Lemma ath_data_read_run (buf : ptr) (buf_size : Z) (sc : ath_softc) :
  0 <= buf_size <= INT_MAX ->
  exists (pairs : list (Z * Z)) (ah : H),
    Z.of_nat (length pairs) = buf_size /\
    ath9k_rng_data_read buf buf_size sc =
    (Z.of_nat (length (valid_words (Ath9k.rng_last sc) pairs)),
     {| Ath9k.rng_last := last_sample (Ath9k.rng_last sc) pairs;
        sc_ah := ah |},
     data_read_events buf (Ath9k.rng_last sc) pairs).
Proof.
  intros Hsz.
  destruct (ath_data_read_unfold buf buf_size sc) as (sc0 & Hl & ->).
  destruct (ath_scan_loop_run buf (Z.to_nat buf_size) 0 (Ath9k.rng_last sc) sc0)
    as (pairs & ah & Hlen & Hrun); [lia|lia|].
  rewrite Hrun. exists pairs, (ath_ps_restore ah).
  split; [lia|]. reflexivity.
Qed.

Lemma ath_data_read_count (buf : ptr) (buf_size : Z) (sc : ath_softc) :
  exists c : Z,
    0 <= c <= Z.of_nat (Z.to_nat buf_size) /\
    result (ath9k_rng_data_read buf buf_size sc) = int_of c.
Proof.
  destruct (ath_data_read_unfold buf buf_size sc) as (sc0 & Hl & ->).
  destruct (ath_scan_loop_count buf (Z.to_nat buf_size) 0
              (Ath9k.rng_last sc) sc0)
    as (c & Hc & Hres).
  change (int_of 0) with 0 in Hres.
  destruct (ath9k_rng_scan_loop buf (Z.to_nat buf_size) _ _)
    as [[[j l] sc1] t].
  exists c. split; [assumption|]. exact Hres.
Qed.

Lemma ath_retry_step (data : ptr) (max : Z) (wait : bool) (retries : nat)
  (u : Z) (sc : ath_softc) :
  ath9k_rng_retry data max wait retries u sc =
  if wait && (u =? 0) then
    match retries with
    | O => (u, sc, [])
    | S retries' =>
        let '(u1, sc1, t1) :=
          ath9k_rng_data_read data (u32_of (max / 4))
            (on_ah (fun ah => ath_elapse ah 10000) sc) in
        let '(u2, sc2, t2) := ath9k_rng_retry data max wait retries' u1 sc1 in
        (u2, sc2, Udelay 10 :: t1 ++ t2)
    end
  else (u, sc, []).
Proof.
  destruct retries; cbn [ath9k_rng_retry]; destruct (wait && (u =? 0));
    try reflexivity.
  unfold Ath9k.udelay, sizeof_u32. unfold_m. change (10 * 1000) with 10000.
  destruct (ath9k_rng_data_read data (u32_of (max / 4)) _) as [[u1 sc1] t1].
  destruct (ath9k_rng_retry data max wait retries u1 sc1) as [[u2 sc2] t2].
  reflexivity.
Qed.

(** The retries while a scan stays below [INT_MAX] rounds. *)
Lemma ath_retry_run (data : ptr) (max : Z) (wait : bool) (retries : nat)
  (found : list Z) (sc : ath_softc) :
  u32_of (max / 4) <= INT_MAX ->
  exists (scans : list (list (Z * Z))) (ah : H),
    (length scans <= retries)%nat /\
    Forall (fun pairs => Z.of_nat (length pairs) = u32_of (max / 4)) scans /\
    ath9k_rng_retry data max wait retries (Z.of_nat (length found)) sc =
    (Z.of_nat (length (rescan_words (Ath9k.rng_last sc) found scans)),
     {| Ath9k.rng_last := rescan_last (Ath9k.rng_last sc) scans;
        sc_ah := ah |},
     rescan_events data (Ath9k.rng_last sc) scans) /\
    (scans <> [] -> wait = true /\ found = []) /\
    barren (Ath9k.rng_last sc) (take (length scans - 1) scans) /\
    (wait = true -> rescan_words (Ath9k.rng_last sc) found scans = [] ->
     length scans = retries).
Proof.
  intros Hsz. revert found sc.
  induction retries as [|r IH]; intros found sc; rewrite ath_retry_step.
  - exists [], (sc_ah sc). destruct sc.
    destruct (wait && _); cbn; repeat split; auto; try congruence.
  - destruct (wait && (Z.of_nat (length found) =? 0)) eqn:Hc.
    + apply andb_true_iff in Hc as [-> Hz%Z.eqb_eq].
      assert (found = []) as ->
        by (destruct found; [reflexivity|cbn in Hz; lia]).
      destruct (ath_data_read_run data (u32_of (max / 4))
                  (on_ah (fun ah => ath_elapse ah 10000) sc))
        as (pairs & ah1 & Hlen & Hrun);
        [pose proof (u32_of_range (max / 4)); lia|].
      rewrite Hrun. cbn [on_ah Ath9k.rng_last].
      destruct (IH (valid_words (Ath9k.rng_last sc) pairs)
                  {| Ath9k.rng_last := last_sample (Ath9k.rng_last sc) pairs;
                     sc_ah := ah1 |})
        as (scans & ah & Hn & Hall & Hretry & Hne & Hbar & Hex).
      rewrite Hretry. cbn [Ath9k.rng_last] in *.
      exists (pairs :: scans), ah. repeat split.
      * cbn. lia.
      * constructor; assumption.
      * destruct scans as [|ps scans]; [exact I|].
        cbn [length]. replace (S (S (length scans)) - 1)%nat
          with (S (S (length scans) - 1)) by lia.
        rewrite firstn_cons. cbn [barren]. split; [|exact Hbar].
        destruct Hne as [_ Hv]; [discriminate|exact Hv].
      * intros _ Hw. cbn. f_equal. apply Hex; [reflexivity|exact Hw].
    + exists [], (sc_ah sc). destruct sc. cbn.
      split; [lia|]. split; [constructor|]. split; [reflexivity|].
      split; [congruence|]. split; [exact I|].
      intros -> Hf. subst found. discriminate.
Qed.

(** The result of the retries for any size of scan. *)
Lemma ath_retry_count (data : ptr) (max : Z) (wait : bool) (retries : nat)
  (u : Z) (sc : ath_softc) :
  (exists c, 0 <= c <= u32_of (max / 4) /\ u = int_of c) ->
  exists c,
    0 <= c <= u32_of (max / 4) /\
    result (ath9k_rng_retry data max wait retries u sc) = int_of c.
Proof.
  revert u sc. induction retries as [|r IH]; intros u sc Hu;
    rewrite ath_retry_step.
  - destruct (wait && _); exact Hu.
  - destruct (wait && _); [|exact Hu].
    destruct (ath_data_read_count data (u32_of (max / 4))
                (on_ah (fun ah => ath_elapse ah 10000) sc)) as (c & Hc & Hres).
    destruct (ath9k_rng_data_read data (u32_of (max / 4)) _) as [[u1 sc1] t1].
    cbn in Hres.
    destruct (IH u1 sc1) as (c' & Hc' & Hres').
    { exists c. split; [|assumption].
      pose proof (u32_of_range (max / 4)). lia. }
    destruct (ath9k_rng_retry data max wait r u1 sc1) as [[u2 sc2] t2].
    exists c'. split; assumption.
Qed.

Lemma ath_read_unfold (data : ptr) (max : Z) (wait : bool) (sc : ath_softc) :
  ath9k_rng_read data max wait sc =
  if max <? 4 then (- EINVAL, sc, [Warn]) else
  let '(u, sc1, t1) := ath9k_rng_data_read data (u32_of (max / 4)) sc in
  let '(u', sc2, t2) := ath9k_rng_retry data max wait 20 u sc1 in
  (int_of (u' * 4), sc2, t1 ++ t2).
Proof.
  unfold ath9k_rng_read, ath9k_rng_poll, WARN_ON, sizeof_u32.
  destruct (max <? 4); [reflexivity|].
  unfold_m.
  destruct (ath9k_rng_data_read data (u32_of (max / 4)) sc) as [[u sc1] t1].
  destruct (ath9k_rng_retry data max wait 20 u sc1) as [[u' sc2] t2].
  rewrite ?app_nil_r. reflexivity.
Qed.

Lemma ath_poll_unfold (data : ptr) (max : Z) (wait : bool) (sc : ath_softc) :
  ath9k_rng_poll data max wait sc =
  let '(u, sc1, t1) := ath9k_rng_data_read data (u32_of (max / 4)) sc in
  let '(u', sc2, t2) := ath9k_rng_retry data max wait 20 u sc1 in
  (u', sc2, t1 ++ t2).
Proof.
  unfold ath9k_rng_poll, sizeof_u32. unfold_m.
  destruct (ath9k_rng_data_read data (u32_of (max / 4)) sc) as [[u sc1] t1].
  destruct (ath9k_rng_retry data max wait 20 u sc1) as [[u' sc2] t2].
  reflexivity.
Qed.

(** The run of a call that passes the size check and asks for at most
    [INT_MAX] bytes: a first scan, then the repeated ones. *)
Lemma ath_read_run (data : ptr) (max : Z) (wait : bool) (sc : ath_softc) :
  4 <= max <= INT_MAX ->
  exists (pairs : list (Z * Z)) (scans : list (list (Z * Z))) (ah : H),
    let l0 := Ath9k.rng_last sc in
    let l1 := last_sample l0 pairs in
    let found := rescan_words l1 (valid_words l0 pairs) scans in
    Forall (fun ps => Z.of_nat (length ps) = max / 4) (pairs :: scans) /\
    (length scans <= 20)%nat /\
    ath9k_rng_read data max wait sc =
    (4 * Z.of_nat (length found),
     {| Ath9k.rng_last := rescan_last l1 scans; sc_ah := ah |},
     data_read_events data l0 pairs ++ rescan_events data l1 scans) /\
    (scans <> [] -> wait = true) /\
    barren l0 (take (length scans) (pairs :: scans)) /\
    (Z.of_nat (length found) <= max / 4) /\
    (wait = true -> found = [] -> length scans = 20%nat).
Proof.
  intros Hmax. rewrite ath_read_unfold.
  destruct (Z.ltb_spec max 4) as [|_]; [lia|].
  assert (Hdiv : 0 <= max / 4 <= INT_MAX /\ 4 * (max / 4) <= max).
  { unfold INT_MAX in *. pose proof (Z.mul_div_le max 4 ltac:(lia)).
    assert (0 <= max / 4) by (apply Z.div_pos; lia). lia. }
  assert (Hu : u32_of (max / 4) = max / 4)
    by (apply u32_of_small; unfold INT_MAX in *; lia).
  destruct (ath_data_read_run data (u32_of (max / 4)) sc)
    as (pairs & ah1 & Hlen & Hrun); [rewrite Hu; lia|].
  rewrite Hrun.
  destruct (ath_retry_run data max wait 20
              (valid_words (Ath9k.rng_last sc) pairs)
              {| Ath9k.rng_last := last_sample (Ath9k.rng_last sc) pairs;
                 sc_ah := ah1 |})
    as (scans & ah & Hn & Hall & Hretry & Hne & Hbar & Hex);
    [rewrite Hu; lia|].
  rewrite Hretry. cbn [Ath9k.rng_last] in *. rewrite Hu in *.
  exists pairs, scans, ah. cbn zeta.
  set (found := rescan_words _ _ scans).
  assert (Hfound : Z.of_nat (length found) <= max / 4).
  { subst found. clear - Hall Hlen.
    revert pairs Hlen. generalize (Ath9k.rng_last sc) as l.
    induction Hall as [|ps scans Hps Hall IH]; intros l pairs Hlen; cbn.
    - pose proof (valid_words_length l pairs). lia.
    - apply IH. exact Hps. }
  repeat split; try assumption.
  - constructor; assumption.
  - rewrite Z.mul_comm.
    rewrite int_of_small by (unfold INT_MAX in *; lia). reflexivity.
  - intros Hs. now destruct (Hne Hs).
  - destruct scans as [|ps scans]; [exact I|].
    cbn [length] in *. rewrite firstn_cons. cbn [barren]. split.
    + destruct Hne as [_ Hv]; [discriminate|exact Hv].
    + replace (S (length scans) - 1)%nat with (length scans) in Hbar by lia.
      exact Hbar.
Qed.
End AthFacts.

(** ** Reading traces *)

Lemma stored_app (data : ptr) (t1 t2 : list event) :
  stored data (t1 ++ t2) = stored data t1 ++ stored data t2.
Proof. apply omap_app. Qed.

Lemma stored_store (data : ptr) (i v : Z) (t : list event) :
  stored data (Store data i v :: t) = (i, v) :: stored data t.
Proof. unfold stored. cbn. now rewrite decide_True. Qed.

Lemma count_app (f : event -> bool) (t1 t2 : list event) :
  count f (t1 ++ t2) = (count f t1 + count f t2)%nat.
Proof. unfold count. now rewrite List.filter_app, length_app. Qed.

Lemma count_zero (f : event -> bool) (t : list event) :
  Forall (fun e => f e = false) t -> count f t = 0%nat.
Proof.
  unfold count. induction 1 as [|e t He _ IH]; [reflexivity|].
  cbn. now rewrite He.
Qed.

Lemma existsb_count (f : event -> bool) (t : list event) :
  existsb f t = negb (count f t =? 0)%nat.
Proof.
  unfold count. induction t as [|e t IH]; [reflexivity|].
  cbn. destruct (f e); cbn; [reflexivity|exact IH].
Qed.

(** Stores at consecutive indices fill a buffer from the first of them. *)
Lemma replay_words (pre buf ws : list Z) :
  (length ws <= length buf)%nat ->
  foldl (fun b iv => if decide (0 <= iv.1) then <[Z.to_nat iv.1 := iv.2]> b
                     else b)
    (pre ++ buf) (zip (seqZ (Z.of_nat (length pre)) (Z.of_nat (length ws))) ws)
  = pre ++ ws ++ drop (length ws) buf.
Proof.
  revert pre buf. induction ws as [|w ws IH]; intros pre buf Hlen.
  - cbn. now rewrite drop_0.
  - destruct buf as [|b buf]; [cbn in Hlen; lia|].
    cbn [length] in *. rewrite Nat2Z.inj_succ, seqZ_cons by lia.
    cbn [zip zip_with foldl fst snd].
    rewrite decide_True by lia. rewrite Nat2Z.id.
    rewrite insert_app_r_alt by lia. rewrite Nat.sub_diag.
    cbn [insert list_insert].
    replace (pre ++ w :: buf) with ((pre ++ [w]) ++ buf)
      by now rewrite <- app_assoc.
    replace (Z.succ (Z.of_nat (length pre)))
      with (Z.of_nat (length (pre ++ [w])))
      by (rewrite length_app; cbn; lia).
    rewrite Z.pred_succ. rewrite IH by lia.
    now rewrite <- app_assoc.
Qed.

Lemma replay_stored (data : ptr) (t : list event) (buf ws : list Z) :
  stored data t = zip (seqZ 0 (Z.of_nat (length ws))) ws ->
  (length ws <= length buf)%nat ->
  replay data t buf = ws ++ drop (length ws) buf.
Proof.
  intros Hst Hlen. unfold replay. rewrite Hst.
  exact (replay_words [] buf ws Hlen).
Qed.

(** ** TX4939: the claims *)

Section TxClaims.
Context {D : Type} `{MmioDevice D}.
Variable cfg : bool.
Import Tx4939.

Lemma tx_stored_critical (data : ptr) (t : list event) :
  stored data (critical cfg t) = stored data t.
Proof.
  unfold critical. rewrite !stored_app.
  destruct cfg; cbn; now rewrite app_nil_r.
Qed.

Lemma tx_count_critical (f : event -> bool) (t : list event) :
  f LocalIrqDisable = false -> f LocalIrqEnable = false ->
  count f (critical cfg t) = count f t.
Proof.
  intros Hd He. unfold critical. rewrite !count_app.
  destruct cfg; unfold count; cbn; rewrite ?Hd, ?He; cbn; lia.
Qed.

Lemma tx_stored_poll (data : ptr) (s0 : Z) (ss : list Z) :
  stored data (check_events cfg s0 ++ recheck_events cfg ss) = [].
Proof.
  rewrite stored_app. unfold check_events. rewrite tx_stored_critical. cbn.
  induction ss as [|s ss IH]; [reflexivity|].
  cbn [recheck_events flat_map].
  change (flat_map _ ss) with (recheck_events cfg ss).
  rewrite (stored_app _ (_ :: _)). rewrite IH.
  change (Ndelay 450 :: check_events cfg s)
    with ([Ndelay 450] ++ check_events cfg s).
  rewrite stored_app. unfold check_events. now rewrite tx_stored_critical.
Qed.

Lemma tx_count_poll (f : event -> bool) (s0 : Z) (ss : list Z) :
  f LocalIrqDisable = false -> f LocalIrqEnable = false ->
  (forall s, f (MmioRead TX4939_RNG_RCSR s) = false) ->
  f (Ndelay 450) = false ->
  count f (check_events cfg s0 ++ recheck_events cfg ss) = 0%nat.
Proof.
  intros Hd He Hr Hn. rewrite count_app. unfold check_events.
  rewrite tx_count_critical by assumption.
  assert (Hc : forall s, count f [MmioRead TX4939_RNG_RCSR s] = 0%nat).
  { intros s. unfold count. cbn. now rewrite Hr. }
  rewrite Hc. cbn.
  induction ss as [|s ss IH]; [reflexivity|].
  cbn [recheck_events flat_map].
  change (flat_map _ ss) with (recheck_events cfg ss).
  rewrite (count_app _ (_ :: _)), IH.
  change (Ndelay 450 :: check_events cfg s)
    with ([Ndelay 450] ++ check_events cfg s).
  rewrite count_app. unfold check_events.
  rewrite tx_count_critical by assumption. rewrite Hc.
  unfold count. cbn. now rewrite Hn.
Qed.

Lemma tx_stored_drain (data : ptr) (i : Z) (ws : list Z) :
  stored data (drain_events data i ws) =
  zip (seqZ i (Z.of_nat (length ws))) ws.
Proof.
  revert i. induction ws as [|w ws IH]; intros i; [reflexivity|].
  cbn [drain_events length].
  change (stored data (MmioRead ?o ?v :: ?t)) with (stored data t).
  rewrite stored_store, IH.
  rewrite Nat2Z.inj_succ, (seqZ_cons i) by lia. rewrite Z.pred_succ.
  reflexivity.
Qed.

Lemma tx_drain_events_quiet (f : event -> bool) (data : ptr) (i : Z)
  (ws : list Z) :
  0 <= i ->
  (forall k w, 0 <= k -> f (MmioRead (TX4939_RNG_ROR k) w) = false) ->
  (forall k w, f (Store data k w) = false) ->
  Forall (fun e => f e = false) (drain_events data i ws).
Proof.
  intros Hi Hr Hs. revert i Hi.
  induction ws as [|w ws IH]; intros i Hi; cbn; [constructor|].
  repeat constructor; [now apply Hr|apply Hs|]. apply IH. lia.
Qed.

(** The trace of a call that passes the size check, with the poll and the
    drain in full. *)
Lemma tx_read_trace (data : ptr) (max : Z) (wait : bool) (d : D) :
  8 <= max ->
  let s0 := u64_of (mmio_load d TX4939_RNG_RCSR).1 in
  let n := Z.min 3 (max / 8) in
  exists (ss ws : list Z) (d' : D),
    (length ss <= 20)%nat /\
    (wait = false -> ss = []) /\
    (ready s0 -> ss = []) /\
    Forall (fun s => ~ ready s) (take (length ss) (s0 :: ss)) /\
    (wait = true -> ~ ready (default s0 (last ss)) -> length ss = 20%nat) /\
    Z.of_nat (length ws) = n /\
    tx4939_rng_poll cfg wait d =
      (present_of (default s0 (last ss)), (final (tx4939_rng_poll cfg wait d)),
       check_events cfg s0 ++ recheck_events cfg ss) /\
    tx4939_rng_read cfg data max wait d =
    if decide (ready (default s0 (last ss)))
    then (8 * n, d',
          check_events cfg s0 ++ recheck_events cfg ss ++
          critical cfg (drain_events data 0 ws ++
                        [MmioWrite TX4939_RNG_RCSR TX4939_RNG_RCSR_ST]))
    else (0, final (tx4939_rng_poll cfg wait d),
          check_events cfg s0 ++ recheck_events cfg ss).
Proof.
  intros Hmax s0 n.
  destruct (tx_read_run cfg data max wait d Hmax) as (ws & d' & Hlen & Hrun).
  destruct (tx_poll_run cfg wait d)
    as (ss & d1 & Hss & Hpoll & Hnw & Hrdy & Hall & Hex).
  cbn zeta in *. fold s0 in Hpoll, Hrdy, Hall, Hex. fold n in Hlen, Hrun.
  exists ss, ws, d'.
  assert (0 <= max / 8) by (apply Z.div_pos; lia).
  assert (0 <= n) by (unfold n; lia).
  repeat (split; [first [assumption|lia]|]).
  rewrite Hrun, Hpoll. cbn [result final trace fst snd].
  split; [reflexivity|].
  destruct (decide (ready (default s0 (last ss)))) as [Hr|Hr].
  - apply tx_present_of_ready in Hr.
    destruct (Z.eqb_spec (present_of (default s0 (last ss))) 0);
      [contradiction|].
    now rewrite <- app_assoc.
  - destruct (Z.eqb_spec (present_of (default s0 (last ss))) 0) as [->|Hp];
      [reflexivity|].
    apply tx_present_of_ready in Hp. contradiction.
Qed.

Lemma tx_read_count (f : event -> bool) (data : ptr) (max : Z) (wait : bool)
  (d : D) :
  8 <= max ->
  f LocalIrqDisable = false -> f LocalIrqEnable = false ->
  (forall o v, f (MmioRead o v) = false) ->
  f (Ndelay 450) = false ->
  (forall k w, f (Store data k w) = false) ->
  count f (trace (tx4939_rng_read cfg data max wait d)) =
  if result (tx4939_rng_read cfg data max wait d) =? 0 then 0%nat
  else count f [MmioWrite TX4939_RNG_RCSR TX4939_RNG_RCSR_ST].
Proof.
  intros Hmax Hd He Hr Hn Hs.
  destruct (tx_read_trace data max wait d Hmax)
    as (ss & ws & d' & _ & _ & _ & _ & _ & Hlen & _ & Hrun).
  cbn zeta in Hrun. rewrite Hrun.
  destruct (decide (ready _)) as [Hrd|Hrd]; cbn [trace result fst snd].
  - rewrite app_assoc, count_app, tx_count_poll by auto.
    rewrite tx_count_critical, count_app by assumption.
    rewrite (count_zero f (drain_events _ _ _))
      by (apply tx_drain_events_quiet; [lia|intros; apply Hr|assumption]).
    assert (1 <= max / 8) by (apply Z.div_le_lower_bound; lia).
    destruct (Z.eqb_spec (8 * Z.min 3 (max / 8)) 0); lia.
  - rewrite tx_count_poll by auto. reflexivity.
Qed.

(** A result that is not negative counts whole words within [max]. *)
Lemma tx_read_whole_words (data : ptr) (max : Z) (wait : bool) (d : D) :
  let r := result (tx4939_rng_read cfg data max wait d) in
  0 <= r -> r mod 8 = 0 /\ r <= max / 8 * 8.
Proof.
  cbn zeta. destruct (Z.ltb_spec max 8) as [Hlt|Hge].
  - rewrite tx_read_unfold. apply Z.ltb_lt in Hlt. rewrite Hlt.
    cbn. unfold EINVAL. lia.
  - destruct (tx_read_trace data max wait d Hge)
      as (ss & ws & d' & _ & _ & _ & _ & _ & _ & _ & ->).
    assert (0 <= max / 8) by (apply Z.div_pos; lia).
    destruct (decide _); cbn [result fst]; intros _.
    + split; [rewrite Z.mul_comm; apply Z_mod_mult|lia].
    + split; [reflexivity|lia].
Qed.

(** A capacity below one word is rejected before any access. *)
Lemma tx_read_small (data : ptr) (max : Z) (wait : bool) (d : D) :
  max < 8 ->
  tx4939_rng_read cfg data max wait d = (- EINVAL, d, [Warn]).
Proof.
  intros Hlt. rewrite tx_read_unfold. apply Z.ltb_lt in Hlt. now rewrite Hlt.
Qed.

(** Not ready and [wait] false: one test, result 0. *)
Lemma tx_read_nowait (data : ptr) (max : Z) (d : D) :
  8 <= max ->
  let s0 := u64_of (mmio_load d TX4939_RNG_RCSR).1 in
  ~ ready s0 ->
  tx4939_rng_read cfg data max false d =
  (0, (mmio_load d TX4939_RNG_RCSR).2, check_events cfg s0).
Proof.
  intros Hmax s0 Hnr. rewrite tx_read_unfold.
  destruct (Z.ltb_spec max 8) as [|_]; [lia|].
  unfold tx4939_rng_poll. unfold_m. rewrite tx_present_run.
  rewrite tx_wait_step. cbn [andb]. cbv beta iota. fold s0.
  destruct (Z.eqb_spec (lnot (Z.land s0 TX4939_RNG_RCSR_ST)) 0) as [_|Hp].
  - now rewrite app_nil_r.
  - exfalso. apply Hnr. apply tx_present_of_ready. exact Hp.
Qed.


(** The poll within the trace of a call. *)
Lemma tx_read_retries (data : ptr) (max : Z) (wait : bool) (d : D) :
  8 <= max ->
  let s0 := u64_of (mmio_load d TX4939_RNG_RCSR).1 in
  let r := tx4939_rng_read cfg data max wait d in
  exists (ss : list Z) (rest : list event),
    (length ss <= 20)%nat /\
    trace r = check_events cfg s0 ++ recheck_events cfg ss ++ rest /\
    count is_delay rest = 0%nat /\
    count (reads_of TX4939_RNG_RCSR) rest = 0%nat /\
    Forall (fun s => ~ ready s) (take (length ss) (s0 :: ss)) /\
    (wait = false -> ss = []) /\
    (ready s0 -> ss = []) /\
    (~ ready (default s0 (last ss)) ->
     rest = [] /\ result r = 0 /\ (wait = true -> length ss = 20%nat)).
Proof.
  intros Hmax s0 r.
  destruct (tx_read_trace data max wait d Hmax)
    as (ss & ws & d' & Hss & Hnw & Hrdy & Hall & Hex & Hlen & _ & Hrun).
  cbn zeta in *. fold s0 in Hrdy, Hall, Hex, Hrun. subst r.
  exists ss. rewrite Hrun.
  destruct (decide (ready (default s0 (last ss)))) as [Hr|Hr].
  - eexists. cbn [trace result fst snd].
    split; [assumption|]. split; [reflexivity|].
    split.
    { rewrite tx_count_critical, count_app by reflexivity.
      rewrite (count_zero is_delay (drain_events _ _ _)); [reflexivity|].
      apply tx_drain_events_quiet; [lia|reflexivity|reflexivity]. }
    split.
    { rewrite tx_count_critical, count_app by reflexivity.
      rewrite (count_zero _ (drain_events _ _ _)); [reflexivity|].
      apply tx_drain_events_quiet; [lia| |reflexivity].
      intros k w Hk. cbn. apply Z.eqb_neq.
      unfold TX4939_RNG_ROR, TX4939_RNG_RCSR. lia. }
    do 3 (split; [assumption|]). intros Hn. contradiction.
  - exists []. cbn [trace result fst snd]. rewrite app_nil_r.
    do 7 (split; [first [assumption|reflexivity]|]).
    intros _. split; [reflexivity|]. split; [reflexivity|].
    intros Hw. now apply Hex.
Qed.

(** The drain after a poll that found the source ready. *)
Lemma tx_read_ready (data : ptr) (max : Z) (wait : bool) (d : D) :
  8 <= max ->
  let n := Z.min 3 (max / 8) in
  let r := tx4939_rng_read cfg data max wait d in
  result (tx4939_rng_poll cfg wait d) <> 0 ->
  exists (ws : list Z) (d' : D),
    Z.of_nat (length ws) = n /\
    r = (8 * n, d',
         trace (tx4939_rng_poll cfg wait d) ++
         critical cfg (drain_events data 0 ws ++
                       [MmioWrite TX4939_RNG_RCSR TX4939_RNG_RCSR_ST])) /\
    count (writes_to TX4939_RNG_RCSR) (trace r) = 1%nat /\
    forall buf : list Z,
      (length ws <= length buf)%nat ->
      replay data (trace r) buf = ws ++ drop (length ws) buf.
Proof.
  intros Hmax n r Hp.
  destruct (tx_read_trace data max wait d Hmax)
    as (ss & ws & d' & _ & _ & _ & _ & _ & Hlen & Hpoll & Hrun).
  cbn zeta in *. fold n in Hlen, Hrun. subst r.
  rewrite Hpoll in Hp |- *. cbn [result trace fst snd] in Hp |- *.
  apply tx_present_of_ready in Hp.
  rewrite Hrun, decide_True by assumption.
  exists ws, d'. split; [assumption|]. split; [now rewrite <- app_assoc|].
  cbn [trace snd]. split.
  - rewrite app_assoc, count_app, tx_count_poll by auto.
    rewrite tx_count_critical, count_app by reflexivity.
    rewrite (count_zero _ (drain_events _ _ _)); [reflexivity|].
    apply tx_drain_events_quiet; [lia|reflexivity|reflexivity].
  - intros buf Hbuf. apply replay_stored; [|assumption].
    rewrite app_assoc, stored_app, tx_stored_poll, tx_stored_critical.
    rewrite stored_app, tx_stored_drain. cbn. now rewrite app_nil_r.
Qed.

(** Ready at the first test, 32 bytes. *)
Lemma tx_read_scenario (data : ptr) (wait : bool) (d : D) :
  ready (u64_of (mmio_load d TX4939_RNG_RCSR).1) ->
  let r := tx4939_rng_read cfg data 32 wait d in
  result r = 24 /\ count (writes_to TX4939_RNG_RCSR) (trace r) = 1%nat /\
  count is_delay (trace r) = 0%nat.
Proof.
  intros Hr r.
  destruct (tx_read_retries data 32 wait d ltac:(lia))
    as (ss & rest & _ & Htr & Hd & _ & _ & _ & Hss & _).
  cbn zeta in *. specialize (Hss Hr). subst ss.
  destruct (tx_poll_run cfg wait d) as (ss & d1 & _ & Hpoll & _ & Hss & _).
  cbn zeta in *. specialize (Hss Hr). subst ss. cbn [last default] in Hpoll.
  destruct (tx_read_ready data 32 wait d ltac:(lia))
    as (ws & d' & _ & Hrun & Hc & _).
  { rewrite Hpoll. cbn. now apply tx_present_of_ready. }
  cbn zeta in *. subst r. split; [now rewrite Hrun|]. split; [assumption|].
  rewrite Htr. cbn [recheck_events flat_map app]. rewrite count_app, Hd.
  unfold check_events. rewrite tx_count_critical by reflexivity. reflexivity.
Qed.

(** The stores of a call are those of its result. *)
Lemma tx_read_stores (data : ptr) (max : Z) (wait : bool) (d : D) :
  let r := tx4939_rng_read cfg data max wait d in
  0 <= result r ->
  exists ws : list Z,
    stored data (trace r) = zip (seqZ 0 (Z.of_nat (length ws))) ws /\
    Z.of_nat (length ws) = result r / 8.
Proof.
  cbn zeta. destruct (Z.ltb_spec max 8) as [Hlt|Hge].
  - rewrite tx_read_small by assumption. cbn. unfold EINVAL. lia.
  - destruct (tx_read_trace data max wait d Hge)
      as (ss & ws & d' & _ & _ & _ & _ & _ & Hlen & _ & ->).
    cbn zeta in *. destruct (decide _); cbn [trace result fst snd]; intros _.
    + exists ws. split.
      * rewrite app_assoc, stored_app, tx_stored_poll, tx_stored_critical.
        rewrite stored_app, tx_stored_drain. cbn. now rewrite app_nil_r.
      * rewrite Z.mul_comm, Z.div_mul by lia. exact Hlen.
    + exists []. split; [apply tx_stored_poll|reflexivity].
Qed.

Lemma tx_flush_step (flush : ptr) (n : nat) (d : D) :
  tx4939_rng_flush cfg flush (S n) d =
  let '(r, d1, t1) := tx4939_rng_read cfg flush 24 true d in
  if r =? 0 then (Some (- EIO), d1, t1)
  else let '(o, d2, t2) := tx4939_rng_flush cfg flush n d1 in
       (o, d2, t1 ++ t2).
Proof.
  cbn [tx4939_rng_flush]. unfold_m. change (3 * sizeof_u64) with 24.
  destruct (tx4939_rng_read cfg flush 24 true d) as [[r d1] t1].
  destruct (r =? 0); [now rewrite app_nil_r|].
  destruct (tx4939_rng_flush cfg flush n d1) as [[o d2] t2]. reflexivity.
Qed.

Lemma tx_probe_unfold (env : probe_env) (flush : ptr) (d : D) :
  kzalloc_ok env = true -> IS_ERR (ioremap_base env) = false ->
  tx4939_rng_probe cfg env flush d =
  let '(o, d2, t2) :=
    tx4939_rng_flush cfg flush 2
      (mmio_store
         (mmio_store (mmio_store d TX4939_RNG_RCSR TX4939_RNG_RCSR_RST)
            TX4939_RNG_RCSR 0)
         TX4939_RNG_RCSR TX4939_RNG_RCSR_ST) in
  match o with
  | Some e => (e, d2, reset_events cfg ++ t2)
  | None =>
      (hwrng_register_ret env, d2,
       reset_events cfg ++ t2 ++ [SetDrvdata; HwrngRegister])
  end.
Proof.
  intros Hk Hio. unfold tx4939_rng_probe. rewrite Hk, Hio. cbn [negb].
  unfold rng_io_start, rng_io_end, write_rng, ____raw_writeq, reset_events,
    critical.
  unfold_m.
  change (u64_of TX4939_RNG_RCSR_RST) with TX4939_RNG_RCSR_RST.
  change (u64_of TX4939_RNG_RCSR_ST) with TX4939_RNG_RCSR_ST.
  change (u64_of 0) with 0.
  destruct cfg; cbn -[tx4939_rng_flush];
    destruct (tx4939_rng_flush _ flush 2 _) as [[[e|] d2] t2];
    cbn; rewrite <- ?app_assoc, ?app_nil_r; reflexivity.
Qed.

Lemma tx_flush_twice (flush : ptr) (d0 : D) :
  let r1 := tx4939_rng_read cfg flush 24 true d0 in
  let r2 := tx4939_rng_read cfg flush 24 true (final r1) in
  tx4939_rng_flush cfg flush 2 d0 =
  if result r1 =? 0 then (Some (- EIO), final r1, trace r1)
  else if result r2 =? 0 then (Some (- EIO), final r2, trace r1 ++ trace r2)
       else (None, final r2, trace r1 ++ trace r2).
Proof.
  cbn zeta. rewrite tx_flush_step.
  destruct (tx4939_rng_read cfg flush 24 true d0) as [[x1 e1] t1].
  cbn [result final trace fst snd].
  destruct (x1 =? 0); [reflexivity|].
  rewrite tx_flush_step.
  destruct (tx4939_rng_read cfg flush 24 true e1) as [[x2 e2] t2].
  cbn [result final trace fst snd].
  destruct (x2 =? 0); [reflexivity|]. cbn. now rewrite app_nil_r.
Qed.

(** The run of probe by the results of its two reads. *)
Lemma tx_probe_run (env : probe_env) (flush : ptr) (d : D) :
  kzalloc_ok env = true -> IS_ERR (ioremap_base env) = false ->
  let d0 :=
    mmio_store
      (mmio_store (mmio_store d TX4939_RNG_RCSR TX4939_RNG_RCSR_RST)
         TX4939_RNG_RCSR 0)
      TX4939_RNG_RCSR TX4939_RNG_RCSR_ST in
  let r1 := tx4939_rng_read cfg flush 24 true d0 in
  let r2 := tx4939_rng_read cfg flush 24 true (final r1) in
  let p := tx4939_rng_probe cfg env flush d in
  p = (if result r1 =? 0 then
         (- EIO, final r1, reset_events cfg ++ trace r1)
       else if result r2 =? 0 then
         (- EIO, final r2, reset_events cfg ++ trace r1 ++ trace r2)
       else
         (hwrng_register_ret env, final r2,
          reset_events cfg ++ trace r1 ++ trace r2 ++
          [SetDrvdata; HwrngRegister])) /\
  count registers (trace p) =
    if (result r1 =? 0) || (result r2 =? 0) then 0%nat else 1%nat.
Proof.
  intros Hk Hio. cbn zeta.
  rewrite tx_probe_unfold by assumption.
  rewrite tx_flush_twice.
  assert (Hreset : count registers (reset_events cfg) = 0%nat).
  { unfold reset_events. now rewrite tx_count_critical. }
  assert (Hread : forall e, count registers
                    (trace (tx4939_rng_read cfg flush 24 true e)) = 0%nat).
  { intros e. rewrite tx_read_count by (reflexivity || lia).
    now destruct (_ =? 0). }
  generalize (Hread (mmio_store
      (mmio_store (mmio_store d TX4939_RNG_RCSR TX4939_RNG_RCSR_RST)
         TX4939_RNG_RCSR 0)
      TX4939_RNG_RCSR TX4939_RNG_RCSR_ST)).
  destruct (tx4939_rng_read cfg flush 24 true _) as [[x1 e1] t1].
  generalize (Hread e1).
  cbn [result final trace fst snd].
  destruct (tx4939_rng_read cfg flush 24 true e1) as [[x2 e2] t2].
  cbn [result final trace fst snd]. intros H2 H1.
  destruct (x1 =? 0); cbn [orb trace snd].
  - split; [reflexivity|]. now rewrite count_app, Hreset, H1.
  - destruct (x2 =? 0); cbn [trace snd].
    + split; [reflexivity|]. now rewrite !count_app, Hreset, H1, H2.
    + split; [now rewrite <- app_assoc|].
      now rewrite !count_app, Hreset, H1, H2.
Qed.
End TxClaims.

(** ** RNGA: the claims *)

Section RngaClaims.
Context {D : Type} `{MmioDevice D}.
Import Rnga.

Lemma rnga_stored_poll (data : ptr) (s0 : Z) (ss : list Z) :
  stored data (MmioRead RNGA_STATUS s0 :: recheck_events ss) = [].
Proof.
  change (stored data (recheck_events ss) = []).
  induction ss as [|s ss IH]; [reflexivity|exact IH].
Qed.

Lemma rnga_count_poll (f : event -> bool) (s0 : Z) (ss : list Z) :
  (forall s, f (MmioRead RNGA_STATUS s) = false) ->
  f (Udelay 10) = false ->
  count f (MmioRead RNGA_STATUS s0 :: recheck_events ss) = 0%nat.
Proof.
  intros Hr Hd. apply count_zero. constructor; [apply Hr|].
  induction ss as [|s ss IH]; cbn; [constructor|].
  repeat constructor; [exact Hd|apply Hr|exact IH].
Qed.

Lemma rnga_stored_drain (data : ptr) (i : Z) (rounds : list (Z * Z)) :
  stored data (drain_events data i rounds) =
  zip (seqZ i (Z.of_nat (length rounds))) rounds.*1.
Proof.
  revert i. induction rounds as [|[w s] rounds IH]; intros i; [reflexivity|].
  cbn [drain_events length fmap list_fmap fst].
  change (stored data (MmioRead ?o ?v :: ?t)) with (stored data t).
  rewrite stored_store.
  change (stored data (MmioRead ?o ?v :: ?t)) with (stored data t).
  rewrite IH.
  rewrite Nat2Z.inj_succ, (seqZ_cons i) by lia. rewrite Z.pred_succ.
  reflexivity.
Qed.

Lemma rnga_count_drain (f : event -> bool) (data : ptr) (i : Z)
  (rounds : list (Z * Z)) :
  (forall o v, f (MmioRead o v) = false) ->
  (forall k w, f (Store data k w) = false) ->
  count f (drain_events data i rounds) = 0%nat.
Proof.
  intros Hr Hs. apply count_zero. revert i.
  induction rounds as [|[w s] rounds IH]; intros i; cbn; [constructor|].
  repeat constructor; [apply Hr|apply Hs|apply Hr|apply IH].
Qed.

Lemma rnga_drain_events_app (data : ptr) (i : Z) (r1 r2 : list (Z * Z)) :
  drain_events data i (r1 ++ r2) =
  drain_events data i r1 ++
  drain_events data (i + Z.of_nat (length r1)) r2.
Proof.
  revert i. induction r1 as [|[w s] r1 IH]; intros i.
  - cbn. now rewrite Z.add_0_r.
  - cbn [app drain_events length]. rewrite IH.
    replace (i + 1 + Z.of_nat (length r1)) with (i + Z.of_nat (S (length r1)))
      by lia.
    reflexivity.
Qed.

(** The trace of a call that passes the size check, with the poll and the
    drain in full. *)
Lemma rnga_read_trace (data : ptr) (max : Z) (wait : bool) (d : D) :
  4 <= max ->
  let s0 := u32_of (mmio_load d RNGA_STATUS).1 in
  exists (ss : list Z) (rounds : list (Z * Z)) (fault : option (Z * Z))
         (ctrl : Z) (d' : D),
    let sl := default s0 (last ss) in
    let n := Z.min (level sl) (max / 4) in
    (length ss <= 20)%nat /\
    (wait = false -> ss = []) /\
    (ready s0 -> ss = []) /\
    Forall (fun s => ~ ready s) (take (length ss) (s0 :: ss)) /\
    (wait = true -> ~ ready sl -> length ss = 20%nat) /\
    Forall (fun r => ~ faulty r.2) rounds /\
    match fault with
    | None => Z.of_nat (length rounds) = n
    | Some r => 0 <= Z.of_nat (length rounds) < n /\ faulty r.2
    end /\
    mxc_rnga_poll wait d =
      (present_of sl, final (mxc_rnga_poll wait d),
       MmioRead RNGA_STATUS s0 :: recheck_events ss) /\
    mxc_rnga_read data max wait d =
    if decide (ready sl)
    then (4 * Z.of_nat (length rounds), d',
          MmioRead RNGA_STATUS s0 :: recheck_events ss ++
          drain_events data 0 (rounds ++ option_list fault) ++
          match fault with
          | None => []
          | Some _ => err_clear_events ctrl
          end)
    else (0, final (mxc_rnga_poll wait d),
          MmioRead RNGA_STATUS s0 :: recheck_events ss).
Proof.
  intros Hmax s0.
  destruct (rnga_read_run data max wait d Hmax)
    as (rounds & fault & ctrl & d' & Hclean & Hf & Hrun).
  destruct (rnga_poll_run wait d)
    as (ss & d1 & Hss & Hpoll & Hnw & Hrdy & Hall & Hex).
  cbn zeta in *. fold s0 in Hpoll, Hrdy, Hall, Hex.
  exists ss, rounds, fault, ctrl, d'.
  rewrite Hpoll in Hf, Hrun |- *. cbn [result final trace fst snd] in *.
  do 7 (split; [assumption|]).
  split; [reflexivity|]. rewrite Hrun.
  destruct (decide (ready (default s0 (last ss)))) as [Hr|Hr];
    unfold ready in Hr.
  - destruct (Z.eqb_spec (present_of (default s0 (last ss))) 0);
      [contradiction|reflexivity].
  - destruct (Z.eqb_spec (present_of (default s0 (last ss))) 0) as [->|];
      [reflexivity|contradiction].
Qed.

(** A result that is not negative counts whole words within [max]. *)
Lemma rnga_read_whole_words (data : ptr) (max : Z) (wait : bool) (d : D) :
  let r := result (mxc_rnga_read data max wait d) in
  0 <= r -> r mod 4 = 0 /\ r <= max / 4 * 4.
Proof.
  cbn zeta. destruct (Z.ltb_spec max 4) as [Hlt|Hge].
  - rewrite rnga_read_unfold. apply Z.ltb_lt in Hlt. rewrite Hlt.
    cbn. unfold EINVAL. lia.
  - destruct (rnga_read_trace data max wait d Hge)
      as (ss & rounds & fault & ctrl & d' & _ & _ & _ & _ & _ & _ & Hf & _
          & ->).
    cbn zeta in Hf.
    assert (0 <= max / 4) by (apply Z.div_pos; lia).
    destruct (decide _); cbn [result fst]; intros _.
    + split; [rewrite Z.mul_comm; apply Z_mod_mult|].
      destruct fault; [destruct Hf|]; lia.
    + split; [reflexivity|lia].
Qed.

(** A capacity below one word is rejected before any access. *)
Lemma rnga_read_small (data : ptr) (max : Z) (wait : bool) (d : D) :
  max < 4 ->
  mxc_rnga_read data max wait d = (- EINVAL, d, [Warn]).
Proof.
  intros Hlt. rewrite rnga_read_unfold. apply Z.ltb_lt in Hlt.
  now rewrite Hlt.
Qed.

(** Not ready and [wait] false: one test, result 0. *)
Lemma rnga_read_nowait (data : ptr) (max : Z) (d : D) :
  4 <= max ->
  let s0 := u32_of (mmio_load d RNGA_STATUS).1 in
  ~ ready s0 ->
  mxc_rnga_read data max false d =
  (0, (mmio_load d RNGA_STATUS).2, [MmioRead RNGA_STATUS s0]).
Proof.
  intros Hmax s0 Hnr. rewrite rnga_read_unfold.
  destruct (Z.ltb_spec max 4) as [|_]; [lia|].
  unfold mxc_rnga_poll. unfold_m. rewrite rnga_present_run.
  rewrite rnga_wait_step. cbn [andb]. cbv beta iota. fold s0.
  destruct (Z.eqb_spec (present_of s0) 0) as [_|Hp]; [reflexivity|].
  contradiction.
Qed.

(** The poll within the trace of a call. *)
Lemma rnga_read_retries (data : ptr) (max : Z) (wait : bool) (d : D) :
  4 <= max ->
  let s0 := u32_of (mmio_load d RNGA_STATUS).1 in
  let r := mxc_rnga_read data max wait d in
  exists (ss : list Z) (rest : list event),
    (length ss <= 20)%nat /\
    trace r = MmioRead RNGA_STATUS s0 :: recheck_events ss ++ rest /\
    count is_delay rest = 0%nat /\
    Forall (fun s => ~ ready s) (take (length ss) (s0 :: ss)) /\
    (wait = false -> ss = []) /\
    (ready s0 -> ss = []) /\
    (~ ready (default s0 (last ss)) ->
     rest = [] /\ result r = 0 /\ (wait = true -> length ss = 20%nat)).
Proof.
  intros Hmax s0 r.
  destruct (rnga_read_trace data max wait d Hmax)
    as (ss & rounds & fault & ctrl & d' & Hss & Hnw & Hrdy & Hall & Hex & _
        & _ & _ & Hrun).
  cbn zeta in *. fold s0 in Hrdy, Hall, Hex, Hrun. subst r.
  exists ss. rewrite Hrun.
  destruct (decide (ready (default s0 (last ss)))) as [Hr|Hr].
  - eexists. cbn [trace result fst snd].
    split; [assumption|]. split; [reflexivity|].
    split.
    { rewrite count_app, rnga_count_drain by reflexivity.
      now destruct fault. }
    do 3 (split; [assumption|]). intros Hn. contradiction.
  - exists []. cbn [trace result fst snd]. rewrite app_nil_r.
    do 6 (split; [first [assumption|reflexivity]|]).
    intros _. split; [reflexivity|]. split; [reflexivity|].
    intros Hw. now apply Hex.
Qed.

Lemma rnga_cleared_ready (data : ptr) (s0 ctrl : Z) (ss : list Z)
  (rounds : list (Z * Z)) (fault : option (Z * Z)) :
  let t := MmioRead RNGA_STATUS s0 :: recheck_events ss ++
           drain_events data 0 (rounds ++ option_list fault) ++
           match fault with
           | None => []
           | Some _ => err_clear_events ctrl
           end in
  count (writes_to RNGA_CONTROL) t =
    match fault with Some _ => 1%nat | None => 0%nat end /\
  cleared t = bool_decide (is_Some fault).
Proof.
  cbn zeta.
  assert (Hc : count (writes_to RNGA_CONTROL)
                 (MmioRead RNGA_STATUS s0 :: recheck_events ss ++
                  drain_events data 0 (rounds ++ option_list fault) ++
                  match fault with
                  | None => []
                  | Some _ => err_clear_events ctrl
                  end) =
               match fault with Some _ => 1%nat | None => 0%nat end).
  { rewrite app_comm_cons, !count_app.
    rewrite rnga_count_poll, rnga_count_drain by reflexivity.
    now destruct fault. }
  split; [exact Hc|].
  unfold cleared. rewrite existsb_count, Hc. now destruct fault.
Qed.

(** The stores of a call that passes the size check. *)
Lemma rnga_stored_ready (data : ptr) (s0 ctrl : Z) (ss : list Z)
  (rounds : list (Z * Z)) (fault : option (Z * Z)) :
  let ws := (rounds ++ option_list fault).*1 in
  stored data
    (MmioRead RNGA_STATUS s0 :: recheck_events ss ++
     drain_events data 0 (rounds ++ option_list fault) ++
     match fault with
     | None => []
     | Some _ => err_clear_events ctrl
     end) = zip (seqZ 0 (Z.of_nat (length ws))) ws.
Proof.
  cbn zeta. rewrite app_comm_cons, !stored_app.
  rewrite rnga_stored_poll, rnga_stored_drain.
  rewrite length_fmap. destruct fault; cbn; now rewrite app_nil_r.
Qed.

(** A poll that finds data, a drain that meets no fault. *)
Lemma rnga_read_ready (data : ptr) (max : Z) (wait : bool) (d : D) :
  4 <= max ->
  let p := result (mxc_rnga_poll wait d) in
  let n := Z.min (Z.shiftr p 8) (max / 4) in
  let r := mxc_rnga_read data max wait d in
  p <> 0 -> cleared (trace r) = false ->
  exists (rounds : list (Z * Z)) (d' : D),
    Z.of_nat (length rounds) = n /\
    Forall (fun r => ~ faulty r.2) rounds /\
    r = (4 * n, d',
         trace (mxc_rnga_poll wait d) ++ drain_events data 0 rounds) /\
    forall buf : list Z,
      (length rounds <= length buf)%nat ->
      replay data (trace r) buf = rounds.*1 ++ drop (length rounds) buf.
Proof.
  intros Hmax p n r Hp Hc.
  destruct (rnga_read_trace data max wait d Hmax)
    as (ss & rounds & fault & ctrl & d' & _ & _ & _ & _ & _ & Hclean & Hf
        & Hpoll & Hrun).
  cbn zeta in *. subst p n r.
  rewrite Hpoll in Hp |- *. cbn [result trace fst snd] in Hp |- *.
  rewrite Hrun in Hc |- *. rewrite decide_True in Hc |- * by exact Hp.
  cbn [trace snd] in Hc |- *.
  destruct (rnga_cleared_ready data (u32_of (mmio_load d RNGA_STATUS).1) ctrl
              ss rounds fault) as [_ Hcl].
  cbn zeta in Hcl. rewrite Hcl in Hc.
  destruct fault as [f|].
  { rewrite bool_decide_eq_true_2 in Hc by eauto. discriminate. }
  exists rounds, d'. cbn [option_list] in *. rewrite !app_nil_r in *.
  split; [exact Hf|]. split; [exact Hclean|].
  split; [now rewrite Hf|].
  intros buf Hbuf.
  pose proof (rnga_stored_ready data (u32_of (mmio_load d RNGA_STATUS).1) ctrl
                ss rounds None) as Hst.
  cbn zeta in Hst. cbn [option_list] in Hst. rewrite !app_nil_r in Hst.
  replace (length rounds) with (length rounds.*1) by apply length_fmap.
  apply replay_stored; [|now rewrite length_fmap].
  exact Hst.
Qed.

(** Level 5, 12 bytes, no fault. *)
Lemma rnga_read_scenario (data : ptr) (wait : bool) (d : D) :
  level (u32_of (mmio_load d RNGA_STATUS).1) = 5 ->
  let r := mxc_rnga_read data 12 wait d in
  cleared (trace r) = false ->
  result r = 12 /\ count is_delay (trace r) = 0%nat.
Proof.
  intros Hl r Hc.
  set (s0 := u32_of (mmio_load d RNGA_STATUS).1) in *.
  assert (Hr : ready s0).
  { unfold ready. intros Hz. unfold level in Hl. rewrite Hz in Hl.
    discriminate. }
  destruct (rnga_poll_run wait d) as (ss & d1 & _ & Hpoll & _ & Hss & _).
  cbn zeta in *. fold s0 in Hpoll, Hss. specialize (Hss Hr). subst ss.
  cbn [last default] in Hpoll.
  destruct (rnga_read_ready data 12 wait d ltac:(lia))
    as (rounds & d' & _ & _ & Hrun & _).
  { rewrite Hpoll. exact Hr. }
  { exact Hc. }
  cbn zeta in Hrun. rewrite Hpoll in Hrun. cbn [result trace fst snd] in Hrun.
  fold (level s0) in Hrun. rewrite Hl in Hrun. subst r. rewrite Hrun.
  split; [reflexivity|]. cbn [trace snd].
  rewrite count_app.
  change (count is_delay (MmioRead RNGA_STATUS s0 :: recheck_events []))
    with 0%nat.
  now rewrite rnga_count_drain.
Qed.

(** The drain of a call that finds data is a row of clean rounds, then
    either the end of the loop or one faulty round and [err_clear]. *)
Lemma rnga_read_fault (data : ptr) (max : Z) (wait : bool) (d : D) :
  4 <= max ->
  let p := result (mxc_rnga_poll wait d) in
  let n := Z.min (Z.shiftr p 8) (max / 4) in
  let r := mxc_rnga_read data max wait d in
  p <> 0 ->
  exists (rounds : list (Z * Z)) (fault : option (Z * Z)) (ctrl : Z),
    let k := Z.of_nat (length rounds) in
    Forall (fun r => ~ faulty r.2) rounds /\
    trace r =
      trace (mxc_rnga_poll wait d) ++
      drain_events data 0 rounds ++
      match fault with
      | None => []
      | Some (w, s) =>
          [MmioRead RNGA_OUTPUT_FIFO w; Store data k w;
           MmioRead RNGA_STATUS s] ++ err_clear_events ctrl
      end /\
    result r = 4 * k /\
    match fault with
    | None => k = n /\ count (writes_to RNGA_CONTROL) (trace r) = 0%nat
    | Some (w, s) =>
        faulty s /\ 0 <= k < n /\
        count (writes_to RNGA_CONTROL) (trace r) = 1%nat
    end.
Proof.
  intros Hmax p n r Hp.
  destruct (rnga_read_trace data max wait d Hmax)
    as (ss & rounds & fault & ctrl & d' & _ & _ & _ & _ & _ & Hclean & Hf
        & Hpoll & Hrun).
  cbn zeta in *. subst p n r.
  rewrite Hpoll in Hp |- *. cbn [result trace fst snd] in Hp |- *.
  rewrite Hrun. rewrite decide_True by exact Hp. cbn [trace result fst snd].
  destruct (rnga_cleared_ready data (u32_of (mmio_load d RNGA_STATUS).1) ctrl
              ss rounds fault) as [Hcnt _].
  cbn zeta in Hcnt.
  exists rounds, fault, ctrl. cbn zeta.
  split; [exact Hclean|]. split.
  { destruct fault as [[w s]|]; cbn [option_list].
    - rewrite rnga_drain_events_app, Z.add_0_l. cbn [drain_events].
      rewrite <- !app_assoc. reflexivity.
    - now rewrite !app_nil_r. }
  split; [reflexivity|].
  destruct fault as [[w s]|].
  - destruct Hf as [Hk Hfy].
    split; [exact Hfy|]. split; [exact Hk|]. exact Hcnt.
  - split; [exact Hf|exact Hcnt].
Qed.

(** The stores of a call: those of its result, one more after a fault. *)
Lemma rnga_read_stores (data : ptr) (max : Z) (wait : bool) (d : D) :
  let r := mxc_rnga_read data max wait d in
  0 <= result r ->
  exists ws : list Z,
    stored data (trace r) = zip (seqZ 0 (Z.of_nat (length ws))) ws /\
    (forall buf : list Z,
       (length ws <= length buf)%nat ->
       replay data (trace r) buf = ws ++ drop (length ws) buf) /\
    if cleared (trace r) then
      Z.of_nat (length ws) = result r / 4 + 1 /\
      exists (w s : Z) (pre post : list event),
        last ws = Some w /\ faulty s /\
        trace r =
          pre ++ [MmioRead RNGA_OUTPUT_FIFO w; Store data (result r / 4) w;
                  MmioRead RNGA_STATUS s] ++ post
    else Z.of_nat (length ws) = result r / 4.
Proof.
  cbn zeta. destruct (Z.ltb_spec max 4) as [Hlt|Hge].
  { rewrite rnga_read_small by assumption. cbn. unfold EINVAL. lia. }
  destruct (rnga_read_trace data max wait d Hge)
    as (ss & rounds & fault & ctrl & d' & _ & _ & _ & _ & _ & _ & Hf & _
        & ->).
  cbn zeta in *. set (s0 := u32_of (mmio_load d RNGA_STATUS).1) in *.
  destruct (decide _); cbn [trace result fst snd]; intros _.
  - exists (rounds ++ option_list fault).*1.
    pose proof (rnga_stored_ready data s0 ctrl ss rounds fault) as Hst.
    destruct (rnga_cleared_ready data s0 ctrl ss rounds fault) as [_ Hcl].
    cbn zeta in Hst, Hcl.
    split; [exact Hst|].
    split; [intros buf Hbuf; now apply replay_stored|].
    rewrite Hcl. rewrite Z.mul_comm, Z.div_mul by lia.
    rewrite length_fmap, length_app.
    destruct fault as [[w s]|].
    + rewrite bool_decide_eq_true_2 by eauto.
      split; [cbn; lia|].
      exists w, s.
      exists (MmioRead RNGA_STATUS s0 :: recheck_events ss ++
              drain_events data 0 rounds), (err_clear_events ctrl).
      split; [rewrite fmap_app; cbn; now rewrite last_snoc|].
      split; [now destruct Hf|].
      cbn [option_list]. rewrite rnga_drain_events_app, Z.add_0_l.
      cbn [drain_events]. rewrite <- !app_comm_cons, <- !app_assoc.
      reflexivity.
    + rewrite bool_decide_eq_false_2 by (intros [? ?]; discriminate).
      cbn. lia.
  - exists []. split; [apply rnga_stored_poll|].
    split.
    { intros buf _. unfold replay. now rewrite rnga_stored_poll. }
    unfold cleared. rewrite existsb_count.
    now rewrite rnga_count_poll.
Qed.
(** The two ways out of the drain loop, with what each leaves in the
    caller's buffer: after a faulty status the word loaded just before it
    is at [data[k]], and the result counts the [k] words before it. *)
Lemma rnga_read_paths (data : ptr) (max : Z) (wait : bool) (d : D) :
  4 <= max ->
  let p := result (mxc_rnga_poll wait d) in
  let n := Z.min (Z.shiftr p 8) (max / 4) in
  let r := mxc_rnga_read data max wait d in
  p <> 0 ->
  exists (rounds : list (Z * Z)) (fault : option (Z * Z)) (ctrl : Z),
    let k := Z.of_nat (length rounds) in
    Forall (fun r => ~ faulty r.2) rounds /\
    trace r =
      trace (mxc_rnga_poll wait d) ++
      drain_events data 0 rounds ++
      match fault with
      | None => []
      | Some (w, s) =>
          [MmioRead RNGA_OUTPUT_FIFO w; Store data k w;
           MmioRead RNGA_STATUS s] ++ err_clear_events ctrl
      end /\
    result r = 4 * k /\
    cleared (trace r) = bool_decide (is_Some fault) /\
    match fault with
    | None =>
        k = n /\
        stored data (trace r) = zip (seqZ 0 k) rounds.*1 /\
        forall buf : list Z,
          (length rounds <= length buf)%nat ->
          replay data (trace r) buf = rounds.*1 ++ drop (length rounds) buf
    | Some (w, s) =>
        faulty s /\ 0 <= k < n /\
        stored data (trace r) = zip (seqZ 0 (k + 1)) (rounds.*1 ++ [w]) /\
        forall buf : list Z,
          (length rounds < length buf)%nat ->
          replay data (trace r) buf =
          rounds.*1 ++ w :: drop (S (length rounds)) buf
    end.
Proof.
  intros Hmax p n r Hp.
  destruct (rnga_read_trace data max wait d Hmax)
    as (ss & rounds & fault & ctrl & d' & _ & _ & _ & _ & _ & Hclean & Hf
        & Hpoll & Hrun).
  cbn zeta in *. subst p n r.
  rewrite Hpoll in Hp |- *. cbn [result trace fst snd] in Hp |- *.
  rewrite Hrun. rewrite decide_True by exact Hp. cbn [trace result fst snd].
  set (s0 := u32_of (mmio_load d RNGA_STATUS).1) in *.
  destruct (rnga_cleared_ready data s0 ctrl ss rounds fault) as [_ Hcl].
  pose proof (rnga_stored_ready data s0 ctrl ss rounds fault) as Hst.
  cbn zeta in Hcl, Hst.
  exists rounds, fault, ctrl. cbn zeta.
  split; [exact Hclean|]. split.
  { destruct fault as [[w s]|]; cbn [option_list].
    - rewrite rnga_drain_events_app, Z.add_0_l. cbn [drain_events].
      rewrite <- !app_assoc. reflexivity.
    - now rewrite !app_nil_r. }
  split; [reflexivity|]. split; [exact Hcl|].
  destruct fault as [[w s]|].
  - destruct Hf as [Hk Hfy].
    change (option_list (Some (w, s))) with [(w, s)] in *.
    rewrite fmap_app, length_app, length_fmap in Hst.
    cbn [fmap list_fmap length fst] in Hst.
    replace (Z.of_nat (length rounds + 1)) with (Z.of_nat (length rounds) + 1)
      in Hst by lia.
    split; [exact Hfy|]. split; [exact Hk|]. split; [exact Hst|].
    intros buf Hbuf.
    rewrite (replay_stored data _ buf (rounds.*1 ++ [w])).
    + rewrite length_app, length_fmap. cbn [length].
      rewrite <- app_assoc. cbn [app].
      now replace (length rounds + 1)%nat with (S (length rounds)) by lia.
    + rewrite Hst, length_app, length_fmap. cbn [length].
      now replace (Z.of_nat (length rounds + 1))
        with (Z.of_nat (length rounds) + 1) by lia.
    + rewrite length_app, length_fmap. cbn [length]. lia.
  - change (option_list None) with (@nil (Z * Z)) in *.
    rewrite !app_nil_r in Hst |- *. rewrite length_fmap in Hst.
    split; [exact Hf|]. split; [exact Hst|].
    intros buf Hbuf.
    rewrite (replay_stored data _ buf rounds.*1).
    + now rewrite length_fmap.
    + now rewrite Hst, length_fmap.
    + now rewrite length_fmap.
Qed.
End RngaClaims.

(** ** ath9k: the claims *)

Section AthClaims.
Context {H : Type} `{AthHw H}.
Import Ath9k.

Lemma ath_stored_scan (buf : ptr) (rng_last j : Z) (pairs : list (Z * Z)) :
  stored buf (scan_events buf rng_last j pairs) =
  zip (seqZ j (Z.of_nat (length (valid_words rng_last pairs))))
    (valid_words rng_last pairs).
Proof.
  revert rng_last j.
  induction pairs as [|[r1 r2] pairs IH]; intros l j; [reflexivity|].
  cbn [scan_events valid_words].
  change (stored buf (RegRead ?o ?v :: ?t)) with (stored buf t).
  change (stored buf (RegRead ?o ?v :: ?t)) with (stored buf t).
  destruct (data_ready l (sample r1) (sample r2)).
  - rewrite stored_store, IH. cbn [app length].
    rewrite Nat2Z.inj_succ, (seqZ_cons j) by lia. rewrite Z.pred_succ.
    reflexivity.
  - apply IH.
Qed.

Lemma ath_stored_data_read (buf : ptr) (rng_last : Z)
  (pairs : list (Z * Z)) :
  stored buf (data_read_events buf rng_last pairs) =
  zip (seqZ 0 (Z.of_nat (length (valid_words rng_last pairs))))
    (valid_words rng_last pairs).
Proof.
  unfold data_read_events. rewrite !stored_app, ath_stored_scan.
  cbn. now rewrite app_nil_r.
Qed.

Lemma ath_count_scan (f : event -> bool) (buf : ptr) (rng_last j : Z)
  (pairs : list (Z * Z)) :
  (forall o v, f (RegRead o v) = false) ->
  (forall k w, f (Store buf k w) = false) ->
  count f (scan_events buf rng_last j pairs) = 0%nat.
Proof.
  intros Hr Hs. apply count_zero. revert rng_last j.
  induction pairs as [|[r1 r2] pairs IH]; intros l j; cbn; [constructor|].
  repeat constructor; try apply Hr.
  destruct (data_ready l (sample r1) (sample r2)); [constructor|]; auto.
Qed.

(** Repeated scans of which only the last may keep words store the words
    of the last. *)
Lemma ath_stored_rescan (buf : ptr) (rng_last : Z)
  (scans : list (list (Z * Z))) :
  barren rng_last (take (length scans - 1) scans) ->
  stored buf (rescan_events buf rng_last scans) =
  zip (seqZ 0 (Z.of_nat (length (rescan_words rng_last [] scans))))
    (rescan_words rng_last [] scans).
Proof.
  revert rng_last. induction scans as [|ps scans IH]; intros l Hb;
    [reflexivity|].
  cbn [rescan_events rescan_words].
  change (stored buf (Udelay ?n :: ?t)) with (stored buf t).
  rewrite stored_app, ath_stored_data_read.
  destruct scans as [|ps' scans].
  - cbn. now rewrite app_nil_r.
  - cbn [length] in Hb.
    replace (S (S (length scans)) - 1)%nat with (S (S (length scans) - 1))
      in Hb by lia.
    rewrite firstn_cons in Hb. destruct Hb as [Hv Hb].
    rewrite Hv. cbn [length zip zip_with app].
    apply IH. exact Hb.
Qed.

(** A result that is not negative counts whole words within [max]. *)
Lemma ath_read_whole_words (data : ptr) (max : Z) (wait : bool)
  (sc : ath_softc) :
  let r := result (ath9k_rng_read data max wait sc) in
  0 <= r -> r mod 4 = 0 /\ r <= max / 4 * 4.
Proof.
  cbn zeta. rewrite ath_read_unfold.
  destruct (Z.ltb_spec max 4) as [Hlt|Hge].
  { cbn. unfold EINVAL. lia. }
  destruct (ath_data_read_count data (u32_of (max / 4)) sc)
    as (c0 & Hc0 & Hres0).
  destruct (ath9k_rng_data_read data (u32_of (max / 4)) sc) as [[u sc1] t1].
  cbn [result fst] in Hres0.
  assert (Hu32 : 0 <= u32_of (max / 4) <= max / 4).
  { split; [apply u32_of_range|]. apply u32_of_le. apply Z.div_pos; lia. }
  destruct (ath_retry_count data max wait 20 u sc1) as (c & Hc & Hres).
  { exists c0. split; [lia|assumption]. }
  destruct (ath9k_rng_retry data max wait 20 u sc1) as [[u' sc2] t2].
  cbn [result fst] in *. subst u'.
  destruct (int_of_cong c) as [q Hq].
  destruct (int_of_cong (int_of c * 4)) as [q' Hq'].
  pose proof (int_of_range (int_of c * 4)) as Hrange.
  intros Hpos. rewrite Hq' in *. rewrite Hq in *.
  replace (2 ^ 32) with (4 * 2 ^ 30) in * by reflexivity.
  split.
  - replace ((c + q * (4 * 2 ^ 30)) * 4 + q' * (4 * 2 ^ 30))
      with ((c + q * (4 * 2 ^ 30) + q' * 2 ^ 30) * 4) by lia.
    apply Z_mod_mult.
  - lia.
Qed.

(** A capacity below one word is rejected before any access. *)
Lemma ath_read_small (data : ptr) (max : Z) (wait : bool) (sc : ath_softc) :
  max < 4 ->
  ath9k_rng_read data max wait sc = (- EINVAL, sc, [Warn]).
Proof.
  intros Hlt. rewrite ath_read_unfold. apply Z.ltb_lt in Hlt.
  now rewrite Hlt.
Qed.

Lemma ath_count_scan_loop (f : event -> bool) (buf : ptr) (n : nat)
  (st : Z * Z) (sc : ath_softc) :
  (forall o v, f (RegRead o v) = false) ->
  (forall k w, f (Store buf k w) = false) ->
  count f (trace (ath9k_rng_scan_loop buf n st sc)) = 0%nat.
Proof.
  intros Hr Hs. revert st sc. induction n as [|n IH]; intros [j l] sc.
  - reflexivity.
  - rewrite ath_scan_loop_step.
    destruct (ath_scan_run buf j l sc) as (r1 & r2 & ah & Hstep).
    cbn zeta in Hstep. rewrite Hstep.
    match goal with
    | |- context [ath9k_rng_scan_loop buf n ?st ?sc] =>
        specialize (IH st sc);
        destruct (ath9k_rng_scan_loop buf n st sc) as [[st2 sc2] t2]
    end.
    cbn [trace snd] in *. rewrite count_app, IH.
    now rewrite ath_count_scan.
Qed.

Lemma ath_count_data_read (f : event -> bool) (buf : ptr) (buf_size : Z)
  (sc : ath_softc) :
  (forall o v, f (RegRead o v) = false) ->
  (forall k w, f (Store buf k w) = false) ->
  (forall r b v, f (RegRmwField r b v) = false) ->
  (forall r b, f (RegClrBit r b) = false) ->
  f PsWakeup = false -> f PsRestore = false ->
  count f (trace (ath9k_rng_data_read buf buf_size sc)) = 0%nat.
Proof.
  intros Hr Hs Hm Hc Hw He.
  destruct (ath_data_read_unfold buf buf_size sc) as (sc0 & _ & ->).
  pose proof (ath_count_scan_loop f buf (Z.to_nat buf_size)
                (0, Ath9k.rng_last sc) sc0 Hr Hs) as Hl.
  destruct (ath9k_rng_scan_loop buf (Z.to_nat buf_size) _ _)
    as [[[j l] sc1] t].
  cbn [trace snd] in *. rewrite !count_app, Hl.
  unfold setup_events, count. cbn. now rewrite !Hm, Hc, Hw, He.
Qed.

(** A first scan that keeps nothing and [wait] false: result 0. *)
Lemma ath_read_nowait (data : ptr) (max : Z) (sc : ath_softc) :
  4 <= max ->
  let scan := ath9k_rng_data_read data (u32_of (max / 4)) sc in
  result scan = 0 ->
  ath9k_rng_read data max false sc = (0, final scan, trace scan) /\
  count is_delay (trace scan) = 0%nat.
Proof.
  intros Hmax scan Hz. split.
  - rewrite ath_read_unfold.
    destruct (Z.ltb_spec max 4) as [|_]; [lia|].
    subst scan.
    destruct (ath9k_rng_data_read data (u32_of (max / 4)) sc)
      as [[u sc1] t1].
    cbn [result final trace fst snd] in *. subst u.
    rewrite ath_retry_step. cbn [andb]. now rewrite app_nil_r.
  - now apply ath_count_data_read.
Qed.

(** The scans of a call. *)
Lemma ath_read_retries (data : ptr) (max : Z) (wait : bool)
  (sc : ath_softc) :
  4 <= max <= INT_MAX ->
  let l0 := Ath9k.rng_last sc in
  let r := ath9k_rng_read data max wait sc in
  exists (pairs : list (Z * Z)) (scans : list (list (Z * Z))),
    let l1 := last_sample l0 pairs in
    let found := rescan_words l1 (valid_words l0 pairs) scans in
    (length scans <= 20)%nat /\
    Forall (fun ps => Z.of_nat (length ps) = max / 4) (pairs :: scans) /\
    trace r = data_read_events data l0 pairs ++ rescan_events data l1 scans /\
    barren l0 (take (length scans) (pairs :: scans)) /\
    (wait = false -> scans = []) /\
    (valid_words l0 pairs <> [] -> scans = []) /\
    result r = 4 * Z.of_nat (length found) /\
    (found = [] -> wait = true -> length scans = 20%nat).
Proof.
  intros Hmax l0 r.
  destruct (ath_read_run data max wait sc Hmax)
    as (pairs & scans & ah & Hall & Hn & Hrun & Hne & Hbar & _ & Hex).
  cbn zeta in *. exists pairs, scans. subst r. rewrite Hrun.
  cbn [trace result fst snd].
  split; [assumption|]. split; [assumption|]. split; [reflexivity|].
  split; [assumption|]. split.
  { intros ->. destruct scans; [reflexivity|].
    discriminate Hne. discriminate. }
  split.
  { intros Hv. destruct scans as [|ps scans]; [reflexivity|].
    cbn [length] in Hbar. rewrite firstn_cons in Hbar.
    destruct Hbar as [Hb _]. contradiction. }
  split; [reflexivity|]. intros Hf Hw. now apply Hex.
Qed.

(** A call that ends after its first scan. *)
Lemma ath_read_found (data : ptr) (max : Z) (wait : bool) (sc : ath_softc) :
  4 <= max <= INT_MAX ->
  exists (pairs : list (Z * Z)) (ah : H),
    let words := valid_words (Ath9k.rng_last sc) pairs in
    Z.of_nat (length pairs) = max / 4 /\
    Z.of_nat (length words) <= max / 4 /\
    (wait = false \/ words <> [] ->
     ath9k_rng_read data max wait sc =
     (4 * Z.of_nat (length words),
      {| Ath9k.rng_last := last_sample (Ath9k.rng_last sc) pairs;
         sc_ah := ah |},
      data_read_events data (Ath9k.rng_last sc) pairs)).
Proof.
  intros Hmax.
  destruct (ath_read_run data max wait sc Hmax)
    as (pairs & scans & ah & Hall & Hn & Hrun & Hne & Hbar & _ & Hex).
  cbn zeta in *. exists pairs, ah. cbn zeta.
  apply Forall_cons in Hall as [Hlen _].
  split; [exact Hlen|]. split.
  { pose proof (valid_words_length (Ath9k.rng_last sc) pairs). lia. }
  intros Hcase.
  assert (scans = []) as ->.
  { destruct scans as [|ps scans]; [reflexivity|].
    destruct Hcase as [->|Hv].
    - discriminate Hne. discriminate.
    - cbn [length] in Hbar. rewrite firstn_cons in Hbar.
      destruct Hbar as [Hb _]. contradiction. }
  rewrite Hrun. cbn. now rewrite app_nil_r.
Qed.

(** One round of the scan loop, by the filter in words. *)
Lemma ath_scan_filter (buf : ptr) (j rng_last : Z) (sc : ath_softc) :
  0 <= j < INT_MAX ->
  exists (r1 r2 : Z) (ah : H),
    let v1 := sample r1 in
    let v2 := sample r2 in
    let sc' := {| Ath9k.rng_last := Ath9k.rng_last sc; sc_ah := ah |} in
    (valid_pair rng_last v1 v2 ->
     ath9k_rng_scan buf (j, rng_last) sc =
     ((j + 1, v2), sc',
      [RegRead AR_PHY_TST_ADC r1; RegRead AR_PHY_TST_ADC r2;
       Store buf j (Z.lor (Z.shiftl v1 16) v2)])) /\
    (~ valid_pair rng_last v1 v2 ->
     ath9k_rng_scan buf (j, rng_last) sc =
     ((j, v2), sc',
      [RegRead AR_PHY_TST_ADC r1; RegRead AR_PHY_TST_ADC r2])).
Proof.
  intros Hj.
  destruct (ath_scan_run buf j rng_last sc) as (r1 & r2 & ah & Hstep).
  exists r1, r2, ah. cbn zeta in *. rewrite Hstep.
  unfold INT_MAX in Hj. split; intros Hv.
  - apply data_ready_spec in Hv. cbn [scan_events]. rewrite Hv.
    rewrite int_of_small by lia. reflexivity.
  - destruct (data_ready rng_last (sample r1) (sample r2)) eqn:Hr.
    + apply data_ready_spec in Hr. contradiction.
    + cbn [scan_events]. rewrite Hr. reflexivity.
Qed.

(** The stores of a call are those of its result. *)
Lemma ath_read_stores (data : ptr) (max : Z) (wait : bool) (sc : ath_softc) :
  let r := ath9k_rng_read data max wait sc in
  max <= INT_MAX -> 0 <= result r ->
  exists ws : list Z,
    stored data (trace r) = zip (seqZ 0 (Z.of_nat (length ws))) ws /\
    Z.of_nat (length ws) = result r / 4 /\
    forall buf : list Z,
      (length ws <= length buf)%nat ->
      replay data (trace r) buf = ws ++ drop (length ws) buf.
Proof.
  cbn zeta. intros Hmax. destruct (Z.ltb_spec max 4) as [Hlt|Hge].
  { rewrite ath_read_small by assumption. cbn. unfold EINVAL. lia. }
  destruct (ath_read_run data max wait sc ltac:(lia))
    as (pairs & scans & ah & Hall & Hn & Hrun & Hne & Hbar & _ & Hex).
  cbn zeta in *. rewrite Hrun. cbn [trace result fst snd]. intros _.
  set (l0 := Ath9k.rng_last sc) in *.
  set (l1 := last_sample l0 pairs) in *.
  exists (rescan_words l1 (valid_words l0 pairs) scans).
  assert (Hst : stored data (data_read_events data l0 pairs ++
                             rescan_events data l1 scans) =
                zip (seqZ 0 (Z.of_nat (length
                       (rescan_words l1 (valid_words l0 pairs) scans))))
                  (rescan_words l1 (valid_words l0 pairs) scans)).
  { rewrite stored_app, ath_stored_data_read.
    destruct scans as [|ps scans].
    - cbn. now rewrite app_nil_r.
    - cbn [length] in Hbar. rewrite firstn_cons in Hbar.
      destruct Hbar as [Hv Hb]. rewrite Hv. cbn [length zip zip_with app].
      apply ath_stored_rescan.
      replace (length (ps :: scans) - 1)%nat with (length scans)
        by (cbn; lia).
      exact Hb. }
  split; [exact Hst|]. split.
  - now rewrite Z.mul_comm, Z.div_mul by lia.
  - intros buf Hbuf. now apply replay_stored.
Qed.
(** One scan wakes the chip once and never delays. *)
Lemma ath_data_read_wakes (buf : ptr) (buf_size : Z) (sc : ath_softc) :
  count wakes (trace (ath9k_rng_data_read buf buf_size sc)) = 1%nat.
Proof.
  destruct (ath_data_read_unfold buf buf_size sc) as (sc0 & _ & ->).
  pose proof (ath_count_scan_loop wakes buf (Z.to_nat buf_size)
                (0, Ath9k.rng_last sc) sc0) as Hl.
  destruct (ath9k_rng_scan_loop buf (Z.to_nat buf_size) _ _)
    as [[[j l] sc1] t].
  cbn [trace snd] in *. rewrite !count_app, Hl by reflexivity.
  reflexivity.
Qed.

(** The retries: as many scans as delays, at most [retries] of them, none
    when [wait] is false or the count is not 0, and all of them when the
    count stays 0 and [wait] is true. *)
Lemma ath_retry_counts (data : ptr) (max : Z) (wait : bool) (retries : nat)
  (u : Z) (sc : ath_softc) :
  let r := ath9k_rng_retry data max wait retries u sc in
  (count is_delay (trace r) <= retries)%nat /\
  count wakes (trace r) = count is_delay (trace r) /\
  (wait = false -> count is_delay (trace r) = 0%nat) /\
  (u <> 0 -> count is_delay (trace r) = 0%nat) /\
  (wait = true -> result r = 0 -> count is_delay (trace r) = retries).
Proof.
  cbn zeta. revert u sc.
  induction retries as [|n IH]; intros u sc; rewrite ath_retry_step.
  - destruct (wait && (u =? 0)); cbn; repeat split; auto; lia.
  - destruct (wait && (u =? 0)) eqn:Hc.
    + apply andb_true_iff in Hc as [-> Hu%Z.eqb_eq].
      pose proof (ath_data_read_wakes data (u32_of (max / 4))
                    (on_ah (fun ah => ath_elapse ah 10000) sc)) as Hw.
      pose proof (ath_count_data_read is_delay data (u32_of (max / 4))
                    (on_ah (fun ah => ath_elapse ah 10000) sc)) as Hd.
      destruct (ath9k_rng_data_read data (u32_of (max / 4)) _)
        as [[u1 sc1] t1].
      specialize (IH u1 sc1).
      destruct (ath9k_rng_retry data max true n u1 sc1) as [[u2 sc2] t2].
      cbn [trace result fst snd] in *.
      destruct IH as (Hle & Heq & _ & _ & Hex).
      change (Udelay 10 :: t1 ++ t2) with ([Udelay 10] ++ t1 ++ t2).
      rewrite !count_app, Hw, Hd by reflexivity.
      change (count is_delay [Udelay 10]) with 1%nat.
      change (count wakes [Udelay 10]) with 0%nat.
      split; [lia|]. split; [lia|]. split; [discriminate|].
      split; [intros Hn; contradiction|].
      intros _ Hz. specialize (Hex eq_refl Hz). lia.
    + cbn [trace result fst snd]. split; [cbn; lia|].
      split; [reflexivity|]. split; [reflexivity|]. split; [reflexivity|].
      intros -> ->. discriminate.
Qed.

(** The scans of a call of any capacity of at least one word. *)
Lemma ath_read_polls (data : ptr) (max : Z) (wait : bool) (sc : ath_softc) :
  4 <= max ->
  let p := ath9k_rng_poll data max wait sc in
  let r := ath9k_rng_read data max wait sc in
  trace r = trace p /\
  result r = int_of (result p * 4) /\
  (count is_delay (trace r) <= 20)%nat /\
  count wakes (trace r) = S (count is_delay (trace r)) /\
  (wait = false -> count is_delay (trace r) = 0%nat) /\
  (wait = true -> result p = 0 -> count is_delay (trace r) = 20%nat).
Proof.
  intros Hmax. cbn zeta. rewrite ath_read_unfold, ath_poll_unfold.
  destruct (Z.ltb_spec max 4) as [|_]; [lia|].
  pose proof (ath_data_read_wakes data (u32_of (max / 4)) sc) as Hw.
  pose proof (ath_count_data_read is_delay data (u32_of (max / 4)) sc) as Hd.
  destruct (ath9k_rng_data_read data (u32_of (max / 4)) sc) as [[u sc1] t1].
  pose proof (ath_retry_counts data max wait 20 u sc1) as Hr.
  destruct (ath9k_rng_retry data max wait 20 u sc1) as [[u' sc2] t2].
  cbn [trace result fst snd] in *.
  destruct Hr as (Hle & Heq & Hnw & _ & Hex).
  rewrite !count_app, Hw, Hd by reflexivity.
  split; [reflexivity|]. split; [reflexivity|].
  split; [lia|]. split; [lia|]. split; [exact Hnw|].
  intros Hwt Hz. exact (Hex Hwt Hz).
Qed.
(** A call ends after its first scan when [wait] is false or when that
    scan kept a word. *)
Lemma ath_read_first_scan (data : ptr) (max : Z) (wait : bool)
  (sc : ath_softc) :
  4 <= max ->
  let scan := ath9k_rng_data_read data (u32_of (max / 4)) sc in
  wait = false \/ result scan <> 0 ->
  ath9k_rng_read data max wait sc =
  (int_of (result scan * 4), final scan, trace scan).
Proof.
  intros Hmax scan Hc. rewrite ath_read_unfold.
  destruct (Z.ltb_spec max 4) as [|_]; [lia|].
  subst scan.
  destruct (ath9k_rng_data_read data (u32_of (max / 4)) sc) as [[u sc1] t1].
  cbn [result final trace fst snd] in *.
  rewrite ath_retry_step.
  assert (Hb : wait && (u =? 0) = false).
  { destruct Hc as [->|Hu]; [reflexivity|].
    destruct (Z.eqb_spec u 0); [contradiction|apply andb_false_r]. }
  rewrite Hb. now rewrite app_nil_r.
Qed.

(** The whole run of a call for at most [INT_MAX] bytes: the scans it
    makes, of which only the last can keep words. *)
Lemma ath_read_whole_run (data : ptr) (max : Z) (wait : bool)
  (sc : ath_softc) :
  4 <= max <= INT_MAX ->
  exists (pairs : list (Z * Z)) (scans : list (list (Z * Z))) (ah : H),
    let l0 := Ath9k.rng_last sc in
    let l1 := last_sample l0 pairs in
    let found := rescan_words l1 (valid_words l0 pairs) scans in
    Forall (fun ps => Z.of_nat (length ps) = max / 4) (pairs :: scans) /\
    (length scans <= 20)%nat /\
    ath9k_rng_read data max wait sc =
    (4 * Z.of_nat (length found),
     {| Ath9k.rng_last := rescan_last l1 scans; sc_ah := ah |},
     data_read_events data l0 pairs ++ rescan_events data l1 scans) /\
    Z.of_nat (length found) <= max / 4 /\
    barren l0 (take (length scans) (pairs :: scans)) /\
    (wait = false \/ valid_words l0 pairs <> [] ->
     scans = [] /\ found = valid_words l0 pairs) /\
    (wait = true -> found = [] -> length scans = 20%nat).
Proof.
  intros Hmax.
  destruct (ath_read_run data max wait sc Hmax)
    as (pairs & scans & ah & Hall & Hn & Hrun & Hne & Hbar & Hfound & Hex).
  cbn zeta in *. exists pairs, scans, ah. cbn zeta.
  split; [exact Hall|]. split; [exact Hn|]. split; [exact Hrun|].
  split; [exact Hfound|]. split; [exact Hbar|]. split; [|exact Hex].
  intros Hc. destruct scans as [|ps scans]; [split; reflexivity|].
  exfalso. cbn [length] in Hbar. rewrite firstn_cons in Hbar.
  cbn [barren] in Hbar. destruct Hbar as [Hw _].
  destruct Hc as [Hf|Hv]; [|contradiction].
  rewrite Hne in Hf by discriminate. discriminate.
Qed.
End AthClaims.

(** * The claims *)

(** C1.  A call of a read entry point that does not return an error code
    (its result is not negative) returns a byte count that is a multiple of
    the word size of the source, 8 for TX4939 and 4 for RNGA and ath9k, and
    that is at most the capacity [max] rounded down to whole words. *)
Theorem read_returns_whole_words :
  (forall (D : Type) (dev : MmioDevice D) (cfg : bool) (data : ptr) (max : Z)
          (wait : bool) (d : D),
     let r := result (Tx4939.tx4939_rng_read cfg data max wait d) in
     0 <= r -> r mod 8 = 0 /\ r <= max / 8 * 8) /\
  (forall (D : Type) (dev : MmioDevice D) (data : ptr) (max : Z)
          (wait : bool) (d : D),
     let r := result (Rnga.mxc_rnga_read data max wait d) in
     0 <= r -> r mod 4 = 0 /\ r <= max / 4 * 4) /\
  (forall (H : Type) (hw : AthHw H) (data : ptr) (max : Z) (wait : bool)
          (sc : Ath9k.ath_softc),
     let r := result (Ath9k.ath9k_rng_read data max wait sc) in
     0 <= r -> r mod 4 = 0 /\ r <= max / 4 * 4).
Proof.
  split; [|split]; intros.
  - now apply tx_read_whole_words.
  - now apply rnga_read_whole_words.
  - now apply ath_read_whole_words.
Qed.

(** C2.  Once the poll has found the source ready, TX4939 loads
    [n = min 3 (max / 8)] words from ROR(0), ROR(1), ... into [data[0]],
    [data[1]], ..., writes the start bit to RCSR once and returns [8 * n];
    RNGA, when the drain meets no fault (the call does not go through
    [err_clear]), runs [n = min level (max / 4)] rounds, [level] being the
    FIFO level field of the status value the poll ended on, loads one word
    per round into [data[0]], [data[1]], ... and returns [4 * n].  A TX4939
    ready at the first test returns 24 for a capacity of 32 with one start
    write and no delay; an RNGA that reports level 5 returns 12 for a
    capacity of 12. *)
Theorem drain_reads_min_words :
  (forall (D : Type) (dev : MmioDevice D) (cfg : bool) (data : ptr) (max : Z)
          (wait : bool) (d : D),
     8 <= max ->
     let poll := Tx4939.tx4939_rng_poll cfg wait d in
     let n := Z.min 3 (max / 8) in
     let r := Tx4939.tx4939_rng_read cfg data max wait d in
     result poll <> 0 ->
     exists (ws : list Z) (d' : D),
       Z.of_nat (length ws) = n /\
       r = (8 * n, d',
            trace poll ++
            Tx4939.critical cfg
              (Tx4939.drain_events data 0 ws ++
               [MmioWrite Tx4939.TX4939_RNG_RCSR
                  Tx4939.TX4939_RNG_RCSR_ST])) /\
       count (writes_to Tx4939.TX4939_RNG_RCSR) (trace r) = 1%nat /\
       forall buf : list Z,
         (length ws <= length buf)%nat ->
         replay data (trace r) buf = ws ++ drop (length ws) buf) /\
  (forall (D : Type) (dev : MmioDevice D) (data : ptr) (max : Z)
          (wait : bool) (d : D),
     4 <= max ->
     let poll := Rnga.mxc_rnga_poll wait d in
     let n := Z.min (Z.shiftr (result poll) 8) (max / 4) in
     let r := Rnga.mxc_rnga_read data max wait d in
     result poll <> 0 -> Rnga.cleared (trace r) = false ->
     exists (rounds : list (Z * Z)) (d' : D),
       Z.of_nat (length rounds) = n /\
       Forall (fun round => ~ Rnga.faulty round.2) rounds /\
       r = (4 * n, d', trace poll ++ Rnga.drain_events data 0 rounds) /\
       forall buf : list Z,
         (length rounds <= length buf)%nat ->
         replay data (trace r) buf =
         rounds.*1 ++ drop (length rounds) buf) /\
  (forall (D : Type) (dev : MmioDevice D) (cfg : bool) (data : ptr)
          (wait : bool) (d : D),
     Tx4939.ready (u64_of (mmio_load d Tx4939.TX4939_RNG_RCSR).1) ->
     let r := Tx4939.tx4939_rng_read cfg data 32 wait d in
     result r = 24 /\
     count (writes_to Tx4939.TX4939_RNG_RCSR) (trace r) = 1%nat /\
     count is_delay (trace r) = 0%nat) /\
  (forall (D : Type) (dev : MmioDevice D) (data : ptr) (wait : bool) (d : D),
     Rnga.level (u32_of (mmio_load d Rnga.RNGA_STATUS).1) = 5 ->
     let r := Rnga.mxc_rnga_read data 12 wait d in
     Rnga.cleared (trace r) = false ->
     result r = 12 /\ count is_delay (trace r) = 0%nat).
Proof.
  split; [|split; [|split]]; intros.
  - now apply tx_read_ready.
  - now apply rnga_read_ready.
  - now apply tx_read_scenario.
  - now apply rnga_read_scenario.
Qed.

(** C3.  The trace of a call that passes the size check starts with one
    evaluation of the ready test followed by at most 20 re-evaluations, each
    right after its delay; nothing after them is a delay.  Every evaluation
    but the last found the source not ready, no re-evaluation happens when
    [wait] is false or the first test succeeds, and when the last
    evaluation fails too the call ends there with result 0, after exactly 20
    re-evaluations if [wait] is true.  For ath9k the test is a scan by
    [ath9k_rng_data_read]; its trace is given in this form for requests of
    at most [INT_MAX] bytes, and for every capacity of at least a word the
    call makes at most 20 delays and one scan more than delays, no delay
    when [wait] is false, and 20 delays when [wait] is true and the last
    scan keeps nothing. *)
Theorem poll_retries_bounded :
  (forall (D : Type) (dev : MmioDevice D) (cfg : bool) (data : ptr) (max : Z)
          (wait : bool) (d : D),
     8 <= max ->
     let s0 := u64_of (mmio_load d Tx4939.TX4939_RNG_RCSR).1 in
     let r := Tx4939.tx4939_rng_read cfg data max wait d in
     exists (ss : list Z) (rest : list event),
       (length ss <= 20)%nat /\
       trace r =
         Tx4939.check_events cfg s0 ++ Tx4939.recheck_events cfg ss ++ rest /\
       count is_delay rest = 0%nat /\
       count (reads_of Tx4939.TX4939_RNG_RCSR) rest = 0%nat /\
       Forall (fun s => ~ Tx4939.ready s) (take (length ss) (s0 :: ss)) /\
       (wait = false -> ss = []) /\
       (Tx4939.ready s0 -> ss = []) /\
       (~ Tx4939.ready (default s0 (last ss)) ->
        rest = [] /\ result r = 0 /\
        (wait = true -> length ss = 20%nat))) /\
  (forall (D : Type) (dev : MmioDevice D) (data : ptr) (max : Z)
          (wait : bool) (d : D),
     4 <= max ->
     let s0 := u32_of (mmio_load d Rnga.RNGA_STATUS).1 in
     let r := Rnga.mxc_rnga_read data max wait d in
     exists (ss : list Z) (rest : list event),
       (length ss <= 20)%nat /\
       trace r =
         MmioRead Rnga.RNGA_STATUS s0 :: Rnga.recheck_events ss ++ rest /\
       count is_delay rest = 0%nat /\
       Forall (fun s => ~ Rnga.ready s) (take (length ss) (s0 :: ss)) /\
       (wait = false -> ss = []) /\
       (Rnga.ready s0 -> ss = []) /\
       (~ Rnga.ready (default s0 (last ss)) ->
        rest = [] /\ result r = 0 /\
        (wait = true -> length ss = 20%nat))) /\
  (forall (H : Type) (hw : AthHw H) (data : ptr) (max : Z) (wait : bool)
          (sc : Ath9k.ath_softc),
     4 <= max <= INT_MAX ->
     let l0 := Ath9k.rng_last sc in
     let r := Ath9k.ath9k_rng_read data max wait sc in
     exists (pairs : list (Z * Z)) (scans : list (list (Z * Z))),
       let l1 := Ath9k.last_sample l0 pairs in
       let found :=
         Ath9k.rescan_words l1 (Ath9k.valid_words l0 pairs) scans in
       (length scans <= 20)%nat /\
       Forall (fun ps => Z.of_nat (length ps) = max / 4) (pairs :: scans) /\
       trace r =
         Ath9k.data_read_events data l0 pairs ++
         Ath9k.rescan_events data l1 scans /\
       Ath9k.barren l0 (take (length scans) (pairs :: scans)) /\
       (wait = false -> scans = []) /\
       (Ath9k.valid_words l0 pairs <> [] -> scans = []) /\
       result r = 4 * Z.of_nat (length found) /\
       (found = [] -> wait = true -> length scans = 20%nat)) /\
  (forall (H : Type) (hw : AthHw H) (data : ptr) (max : Z) (wait : bool)
          (sc : Ath9k.ath_softc),
     4 <= max ->
     let poll := Ath9k.ath9k_rng_poll data max wait sc in
     let r := Ath9k.ath9k_rng_read data max wait sc in
     trace r = trace poll /\
     result r = int_of (result poll * 4) /\
     (count is_delay (trace r) <= 20)%nat /\
     count wakes (trace r) = S (count is_delay (trace r)) /\
     (wait = false -> count is_delay (trace r) = 0%nat) /\
     (wait = true -> result poll = 0 ->
      count is_delay (trace r) = 20%nat)).
Proof.
  split; [|split; [|split]]; intros.
  - now apply tx_read_retries.
  - now apply rnga_read_retries.
  - now apply ath_read_retries.
  - now apply ath_read_polls.
Qed.

(** C4.  The drain of an RNGA call whose poll found data is a row of
    [k] rounds with a clean status, followed either by nothing, and then
    [k] is the planned number [n], or by one round whose status shows the
    error interrupt: the word of that round is loaded and stored at
    [data[k]], the loop stops there with [0 <= k < n], [err_clear] reads
    CONTROL and writes it back with the clear bit set, which is the only
    store to CONTROL of the call, and the call returns [4 * k]. *)
Theorem rnga_fault_stops_drain :
  forall (D : Type) (dev : MmioDevice D) (data : ptr) (max : Z) (wait : bool)
         (d : D),
    4 <= max ->
    let poll := Rnga.mxc_rnga_poll wait d in
    let n := Z.min (Z.shiftr (result poll) 8) (max / 4) in
    let r := Rnga.mxc_rnga_read data max wait d in
    result poll <> 0 ->
    exists (rounds : list (Z * Z)) (fault : option (Z * Z)) (ctrl : Z),
      let k := Z.of_nat (length rounds) in
      Forall (fun round => ~ Rnga.faulty round.2) rounds /\
      trace r =
        trace poll ++ Rnga.drain_events data 0 rounds ++
        match fault with
        | None => []
        | Some (w, s) =>
            [MmioRead Rnga.RNGA_OUTPUT_FIFO w; Store data k w;
             MmioRead Rnga.RNGA_STATUS s] ++ Rnga.err_clear_events ctrl
        end /\
      result r = 4 * k /\
      match fault with
      | None =>
          k = n /\ count (writes_to Rnga.RNGA_CONTROL) (trace r) = 0%nat
      | Some (w, s) =>
          Rnga.faulty s /\ 0 <= k < n /\
          count (writes_to Rnga.RNGA_CONTROL) (trace r) = 1%nat
      end.
Proof. intros. now apply rnga_read_fault. Qed.

(** C5.  A call with a capacity below one word, 8 bytes for TX4939 and 4
    for RNGA and ath9k, returns [-EINVAL]; its only event is the warning, so
    it makes no access to the hardware, and the device is left as it
    was. *)
Theorem small_buffer_rejected :
  (forall (D : Type) (dev : MmioDevice D) (cfg : bool) (data : ptr) (max : Z)
          (wait : bool) (d : D),
     max < 8 ->
     let r := Tx4939.tx4939_rng_read cfg data max wait d in
     r = (- EINVAL, d, [Warn]) /\ count is_hw_access (trace r) = 0%nat) /\
  (forall (D : Type) (dev : MmioDevice D) (data : ptr) (max : Z)
          (wait : bool) (d : D),
     max < 4 ->
     let r := Rnga.mxc_rnga_read data max wait d in
     r = (- EINVAL, d, [Warn]) /\ count is_hw_access (trace r) = 0%nat) /\
  (forall (H : Type) (hw : AthHw H) (data : ptr) (max : Z) (wait : bool)
          (sc : Ath9k.ath_softc),
     max < 4 ->
     let r := Ath9k.ath9k_rng_read data max wait sc in
     r = (- EINVAL, sc, [Warn]) /\ count is_hw_access (trace r) = 0%nat).
Proof.
  split; [|split]; intros.
  - subst r. now rewrite tx_read_small.
  - subst r. now rewrite rnga_read_small.
  - subst r. now rewrite ath_read_small.
Qed.

(** C6.  A call with [wait] false that passes the size check and whose
    ready test fails returns 0 after that one test: a single load of RCSR
    for TX4939, a single load of the status register for RNGA, a single scan
    for ath9k, and no delay. *)
Theorem nowait_not_ready_returns_zero :
  (forall (D : Type) (dev : MmioDevice D) (cfg : bool) (data : ptr) (max : Z)
          (d : D),
     8 <= max ->
     let s0 := u64_of (mmio_load d Tx4939.TX4939_RNG_RCSR).1 in
     ~ Tx4939.ready s0 ->
     Tx4939.tx4939_rng_read cfg data max false d =
     (0, (mmio_load d Tx4939.TX4939_RNG_RCSR).2,
      Tx4939.check_events cfg s0) /\
     count is_delay (Tx4939.check_events cfg s0) = 0%nat) /\
  (forall (D : Type) (dev : MmioDevice D) (data : ptr) (max : Z) (d : D),
     4 <= max ->
     let s0 := u32_of (mmio_load d Rnga.RNGA_STATUS).1 in
     ~ Rnga.ready s0 ->
     Rnga.mxc_rnga_read data max false d =
     (0, (mmio_load d Rnga.RNGA_STATUS).2,
      [MmioRead Rnga.RNGA_STATUS s0])) /\
  (forall (H : Type) (hw : AthHw H) (data : ptr) (max : Z)
          (sc : Ath9k.ath_softc),
     4 <= max ->
     let scan := Ath9k.ath9k_rng_data_read data (u32_of (max / 4)) sc in
     result scan = 0 ->
     Ath9k.ath9k_rng_read data max false sc = (0, final scan, trace scan) /\
     count is_delay (trace scan) = 0%nat).
Proof.
  split; [|split]; intros.
  - split; [now apply tx_read_nowait|].
    unfold Tx4939.check_events. now rewrite tx_count_critical.
  - now apply rnga_read_nowait.
  - now apply ath_read_nowait.
Qed.

(** C7.  A call of [ath9k_rng_read] for at most [INT_MAX] bytes makes a
    scan of [max / 4] pairs of samples and, only when [wait] is true and
    the scan kept no word, up to twenty more, each of [max / 4] pairs; no
    scan but the last keeps a word, and the call returns 4 times the
    number of words the last scan kept, which is at most [max / 4] and can
    be less.  When [wait] is false, or when the first scan keeps a word,
    the call ends after that scan and returns 4 times what
    [ath9k_rng_data_read] returned, for any capacity.  So a scan of 10
    pairs (capacity 40) that keeps 2 words returns 8 whatever [wait] is,
    and with [wait] false a scan that keeps nothing returns 0 without a
    delay; both are also run on a scripted device. *)
Theorem ath9k_returns_words_found :
  (forall (H : Type) (hw : AthHw H) (data : ptr) (max : Z) (wait : bool)
          (sc : Ath9k.ath_softc),
     4 <= max <= INT_MAX ->
     exists (pairs : list (Z * Z)) (scans : list (list (Z * Z))) (ah : H),
       let l0 := Ath9k.rng_last sc in
       let l1 := Ath9k.last_sample l0 pairs in
       let found :=
         Ath9k.rescan_words l1 (Ath9k.valid_words l0 pairs) scans in
       Forall (fun ps => Z.of_nat (length ps) = max / 4) (pairs :: scans) /\
       (length scans <= 20)%nat /\
       Ath9k.ath9k_rng_read data max wait sc =
       (4 * Z.of_nat (length found),
        {| Ath9k.rng_last := Ath9k.rescan_last l1 scans; Ath9k.sc_ah := ah |},
        Ath9k.data_read_events data l0 pairs ++
        Ath9k.rescan_events data l1 scans) /\
       Z.of_nat (length found) <= max / 4 /\
       Ath9k.barren l0 (take (length scans) (pairs :: scans)) /\
       (wait = false \/ Ath9k.valid_words l0 pairs <> [] ->
        scans = [] /\ found = Ath9k.valid_words l0 pairs) /\
       (wait = true -> found = [] -> length scans = 20%nat)) /\
  (forall (H : Type) (hw : AthHw H) (data : ptr) (max : Z) (wait : bool)
          (sc : Ath9k.ath_softc),
     4 <= max ->
     let scan := Ath9k.ath9k_rng_data_read data (u32_of (max / 4)) sc in
     wait = false \/ result scan <> 0 ->
     Ath9k.ath9k_rng_read data max wait sc =
     (int_of (result scan * 4), final scan, trace scan)) /\
  (forall (H : Type) (hw : AthHw H) (data : ptr) (wait : bool)
          (sc : Ath9k.ath_softc),
     let scan := Ath9k.ath9k_rng_data_read data 10 sc in
     result scan = 2 ->
     Ath9k.ath9k_rng_read data 40 wait sc = (8, final scan, trace scan)) /\
  (forall (H : Type) (hw : AthHw H) (data : ptr) (sc : Ath9k.ath_softc),
     let scan := Ath9k.ath9k_rng_data_read data 10 sc in
     result scan = 0 ->
     Ath9k.ath9k_rng_read data 40 false sc = (0, final scan, trace scan) /\
     count is_delay (trace scan) = 0%nat) /\
  (let sc :=
     {| Ath9k.rng_last := 0;
        Ath9k.sc_ah :=
          [1; 2; 2; 3; 0; 5; 5; 5; 0xffff; 1; 1; 0xffff; 7; 8; 8; 9; 0; 0;
           3; 3] |} in
   let r := Ath9k.ath9k_rng_read 0 40 false sc in
   result r = 8 /\
   stored 0 (trace r) = [(0, 0x10002); (1, 0x70008)] /\
   count is_delay (trace r) = 0%nat) /\
  (let sc := {| Ath9k.rng_last := 0; Ath9k.sc_ah := ([] : list Z) |} in
   let r := Ath9k.ath9k_rng_read 0 40 false sc in
   result r = 0 /\ stored 0 (trace r) = [] /\
   count is_delay (trace r) = 0%nat).
Proof.
  split; [|split; [|split; [|split; [|split]]]].
  - intros. now apply ath_read_whole_run.
  - intros. now apply ath_read_first_scan.
  - intros H hw data wait sc scan Hres.
    assert (Hc : wait = false \/
                 result (Ath9k.ath9k_rng_data_read data (u32_of (40 / 4)) sc)
                 <> 0).
    { right. change (u32_of (40 / 4)) with 10. fold scan. lia. }
    rewrite (ath_read_first_scan data 40 wait sc ltac:(lia) Hc).
    change (u32_of (40 / 4)) with 10. fold scan. rewrite Hres. reflexivity.
  - intros H hw data sc scan Hres.
    exact (ath_read_nowait data 40 sc ltac:(lia) Hres).
  - vm_compute. repeat split.
  - vm_compute. repeat split.
Qed.

(** C8.  One round of the scan loop loads two values, takes the low 16 bits
    of each as [v1] and [v2], and stores [(v1 << 16) | v2] at [buf[j]],
    moving [j] on by one, exactly when [v1] and [v2] are neither [0] nor
    [0xffff], differ from each other, and [v1] differs from [rng_last];
    otherwise it stores nothing.  Either way [rng_last] becomes [v2]; a
    whole scan keeps the words [valid_words] and leaves the last sample in
    [sc->rng_last]. *)
Theorem ath9k_pair_filter :
  (forall (H : Type) (hw : AthHw H) (buf : ptr) (j rng_last : Z)
          (sc : Ath9k.ath_softc),
     0 <= j < INT_MAX ->
     exists (r1 r2 : Z) (ah : H),
       let v1 := Ath9k.sample r1 in
       let v2 := Ath9k.sample r2 in
       let sc' :=
         {| Ath9k.rng_last := Ath9k.rng_last sc; Ath9k.sc_ah := ah |} in
       (Ath9k.valid_pair rng_last v1 v2 ->
        Ath9k.ath9k_rng_scan buf (j, rng_last) sc =
        ((j + 1, v2), sc',
         [RegRead AR_PHY_TST_ADC r1; RegRead AR_PHY_TST_ADC r2;
          Store buf j (Z.lor (Z.shiftl v1 16) v2)])) /\
       (~ Ath9k.valid_pair rng_last v1 v2 ->
        Ath9k.ath9k_rng_scan buf (j, rng_last) sc =
        ((j, v2), sc',
         [RegRead AR_PHY_TST_ADC r1; RegRead AR_PHY_TST_ADC r2]))) /\
  (forall rng_last v1 v2 : Z,
     Ath9k.data_ready rng_last v1 v2 = true <->
     Ath9k.valid_pair rng_last v1 v2) /\
  (forall (H : Type) (hw : AthHw H) (buf : ptr) (buf_size : Z)
          (sc : Ath9k.ath_softc),
     0 <= buf_size <= INT_MAX ->
     exists (pairs : list (Z * Z)) (ah : H),
       let l0 := Ath9k.rng_last sc in
       Z.of_nat (length pairs) = buf_size /\
       Ath9k.ath9k_rng_data_read buf buf_size sc =
       (Z.of_nat (length (Ath9k.valid_words l0 pairs)),
        {| Ath9k.rng_last := Ath9k.last_sample l0 pairs;
           Ath9k.sc_ah := ah |},
        Ath9k.data_read_events buf l0 pairs) /\
       stored buf (Ath9k.data_read_events buf l0 pairs) =
       zip (seqZ 0 (Z.of_nat (length (Ath9k.valid_words l0 pairs))))
         (Ath9k.valid_words l0 pairs)).
Proof.
  split; [|split].
  - intros. now apply ath_scan_filter.
  - intros. apply data_ready_spec.
  - intros H hw buf buf_size sc Hsz.
    destruct (ath_data_read_run buf buf_size sc Hsz)
      as (pairs & ah & Hlen & Hrun).
    exists pairs, ah. cbn zeta.
    split; [exact Hlen|]. split; [exact Hrun|].
    apply ath_stored_data_read.
Qed.

(** C9.  When the allocation and the mapping succeed, probe writes reset, 0
    and start to RCSR and then calls [tx4939_rng_read] on its [flush]
    buffer of 24 bytes with [wait] true.  If that call returns 0 probe
    returns [-EIO]; otherwise it calls it once more and returns [-EIO] if
    that call returns 0; otherwise it sets the driver data, registers the
    source and returns what the registration returns.  The source is
    registered exactly when both calls return a value other than 0. *)
Theorem tx4939_probe_discards_two_reads :
  forall (D : Type) (dev : MmioDevice D) (cfg : bool)
         (env : Tx4939.probe_env) (flush : ptr) (d : D),
    Tx4939.kzalloc_ok env = true ->
    IS_ERR (Tx4939.ioremap_base env) = false ->
    let d0 :=
      mmio_store
        (mmio_store
           (mmio_store d Tx4939.TX4939_RNG_RCSR Tx4939.TX4939_RNG_RCSR_RST)
           Tx4939.TX4939_RNG_RCSR 0)
        Tx4939.TX4939_RNG_RCSR Tx4939.TX4939_RNG_RCSR_ST in
    let r1 := Tx4939.tx4939_rng_read cfg flush 24 true d0 in
    let r2 := Tx4939.tx4939_rng_read cfg flush 24 true (final r1) in
    let p := Tx4939.tx4939_rng_probe cfg env flush d in
    p = (if result r1 =? 0 then
           (- EIO, final r1, Tx4939.reset_events cfg ++ trace r1)
         else if result r2 =? 0 then
           (- EIO, final r2,
            Tx4939.reset_events cfg ++ trace r1 ++ trace r2)
         else
           (Tx4939.hwrng_register_ret env, final r2,
            Tx4939.reset_events cfg ++ trace r1 ++ trace r2 ++
            [SetDrvdata; HwrngRegister])) /\
    count registers (trace p) =
      if (result r1 =? 0) || (result r2 =? 0) then 0%nat else 1%nat.
Proof. intros. now apply tx_probe_run. Qed.

(** C10.  A call of [mxc_rnga_read] that passes the size check and finds
    the FIFO not empty runs [k] rounds whose status is clean, storing their
    words at [data[0..k-1]], and then either has done all [n] rounds, or
    loads one more word [w], stores it at [data[k]] and loads a status that
    shows the error interrupt: it then goes through [err_clear] and
    returns [4 * k], so that [data[k]] holds [w], one word beyond the
    reported result.  On the other paths, and for TX4939 and ath9k (request
    of at most [INT_MAX] bytes), the stores of a call that does not return
    an error code go to [data[0]], [data[1]], ... in this order, one store
    per index, and their number is the returned count of words. *)
Theorem stores_within_result :
  (forall (D : Type) (dev : MmioDevice D) (data : ptr) (max : Z)
          (wait : bool) (d : D),
     4 <= max ->
     let p := result (Rnga.mxc_rnga_poll wait d) in
     let n := Z.min (Z.shiftr p 8) (max / 4) in
     let r := Rnga.mxc_rnga_read data max wait d in
     p <> 0 ->
     exists (rounds : list (Z * Z)) (fault : option (Z * Z)) (ctrl : Z),
       let k := Z.of_nat (length rounds) in
       Forall (fun r => ~ Rnga.faulty r.2) rounds /\
       trace r =
         trace (Rnga.mxc_rnga_poll wait d) ++
         Rnga.drain_events data 0 rounds ++
         match fault with
         | None => []
         | Some (w, s) =>
             [MmioRead Rnga.RNGA_OUTPUT_FIFO w; Store data k w;
              MmioRead Rnga.RNGA_STATUS s] ++ Rnga.err_clear_events ctrl
         end /\
       result r = 4 * k /\
       Rnga.cleared (trace r) = bool_decide (is_Some fault) /\
       match fault with
       | None =>
           k = n /\
           stored data (trace r) = zip (seqZ 0 k) rounds.*1 /\
           forall buf : list Z,
             (length rounds <= length buf)%nat ->
             replay data (trace r) buf =
             rounds.*1 ++ drop (length rounds) buf
       | Some (w, s) =>
           Rnga.faulty s /\ 0 <= k < n /\
           stored data (trace r) = zip (seqZ 0 (k + 1)) (rounds.*1 ++ [w]) /\
           forall buf : list Z,
             (length rounds < length buf)%nat ->
             replay data (trace r) buf =
             rounds.*1 ++ w :: drop (S (length rounds)) buf
       end) /\
  (forall (D : Type) (dev : MmioDevice D) (data : ptr) (max : Z)
          (wait : bool) (d : D),
     let r := Rnga.mxc_rnga_read data max wait d in
     0 <= result r ->
     exists ws : list Z,
       stored data (trace r) = zip (seqZ 0 (Z.of_nat (length ws))) ws /\
       (forall buf : list Z,
          (length ws <= length buf)%nat ->
          replay data (trace r) buf = ws ++ drop (length ws) buf) /\
       if Rnga.cleared (trace r) then
         Z.of_nat (length ws) = result r / 4 + 1 /\
         exists (w s : Z) (pre post : list event),
           last ws = Some w /\ Rnga.faulty s /\
           trace r =
             pre ++
             [MmioRead Rnga.RNGA_OUTPUT_FIFO w; Store data (result r / 4) w;
              MmioRead Rnga.RNGA_STATUS s] ++ post
       else Z.of_nat (length ws) = result r / 4) /\
  (forall (D : Type) (dev : MmioDevice D) (cfg : bool) (data : ptr) (max : Z)
          (wait : bool) (d : D),
     let r := Tx4939.tx4939_rng_read cfg data max wait d in
     0 <= result r ->
     exists ws : list Z,
       stored data (trace r) = zip (seqZ 0 (Z.of_nat (length ws))) ws /\
       Z.of_nat (length ws) = result r / 8 /\
       forall buf : list Z,
         (length ws <= length buf)%nat ->
         replay data (trace r) buf = ws ++ drop (length ws) buf) /\
  (forall (H : Type) (hw : AthHw H) (data : ptr) (max : Z) (wait : bool)
          (sc : Ath9k.ath_softc),
     let r := Ath9k.ath9k_rng_read data max wait sc in
     max <= INT_MAX -> 0 <= result r ->
     exists ws : list Z,
       stored data (trace r) = zip (seqZ 0 (Z.of_nat (length ws))) ws /\
       Z.of_nat (length ws) = result r / 4 /\
       forall buf : list Z,
         (length ws <= length buf)%nat ->
         replay data (trace r) buf = ws ++ drop (length ws) buf).
Proof.
  split; [|split; [|split]].
  - intros D dev data max wait d Hmax p n r Hp.
    exact (rnga_read_paths data max wait d Hmax Hp).
  - intros. now apply rnga_read_stores.
  - intros D dev cfg data max wait d r Hr.
    destruct (tx_read_stores cfg data max wait d Hr) as (ws & Hst & Hlen).
    exists ws. split; [exact Hst|]. split; [exact Hlen|].
    intros buf Hbuf. now apply replay_stored.
  - intros. now apply ath_read_stores.
Qed.

(** * The claims on the scripted device *)

(** Runs used below: [tx_ready] is a TX4939 that has finished and holds the
    words 11, 22, 33; [tx_busy] one that never finishes; [rnga_clean] an
    RNGA at level 5 with clean statuses, [rnga_fault] one whose second
    status shows the error interrupt, [rnga_empty] an empty one; [ath_two]
    an ath9k with two pairs of samples of which the first passes the
    filter. *)

(** C1 on a ready TX4939 with 32 bytes, an RNGA at level 5 with 12 bytes
    and an ath9k scan of two pairs. *)
Lemma read_returns_whole_words_witness :
  (let r := result (Tx4939.tx4939_rng_read false 0 32 false Mock.tx_ready) in
   0 <= r /\ r mod 8 = 0 /\ r <= 32 / 8 * 8) /\
  (let r := result (Rnga.mxc_rnga_read 0 12 false Mock.rnga_clean) in
   0 <= r /\ r mod 4 = 0 /\ r <= 12 / 4 * 4) /\
  (let r := result (Ath9k.ath9k_rng_read 0 8 false Mock.ath_two) in
   0 <= r /\ r mod 4 = 0 /\ r <= 8 / 4 * 4).
Proof.
  destruct read_returns_whole_words as (Htx & Hrn & Hath).
  split; [|split]; intros r.
  - assert (Hr : 0 <= r) by (vm_compute; congruence).
    split; [exact Hr|].
    exact (Htx (list Z) _ false 0 32 false Mock.tx_ready Hr).
  - assert (Hr : 0 <= r) by (vm_compute; congruence).
    split; [exact Hr|].
    exact (Hrn (list Z) _ 0 12 false Mock.rnga_clean Hr).
  - assert (Hr : 0 <= r) by (vm_compute; congruence).
    split; [exact Hr|].
    exact (Hath (list Z) _ 0 8 false Mock.ath_two Hr).
Defined.

(** C2 on a ready TX4939 with 32 bytes and an RNGA at level 5 with 12
    bytes and clean statuses. *)
Lemma drain_reads_min_words_witness :
  (8 <= 32 /\
   result (Tx4939.tx4939_rng_poll false false Mock.tx_ready) <> 0 /\
   result (Tx4939.tx4939_rng_read false 0 32 false Mock.tx_ready) = 24) /\
  (4 <= 12 /\
   result (Rnga.mxc_rnga_poll false Mock.rnga_clean) <> 0 /\
   Rnga.cleared (trace (Rnga.mxc_rnga_read 0 12 false Mock.rnga_clean)) =
   false /\
   result (Rnga.mxc_rnga_read 0 12 false Mock.rnga_clean) = 12) /\
  (Tx4939.ready (u64_of (mmio_load Mock.tx_ready Tx4939.TX4939_RNG_RCSR).1) /\
   count (writes_to Tx4939.TX4939_RNG_RCSR)
     (trace (Tx4939.tx4939_rng_read true 0 32 true Mock.tx_ready)) = 1%nat) /\
  (Rnga.level (u32_of (mmio_load Mock.rnga_clean Rnga.RNGA_STATUS).1) = 5 /\
   count is_delay (trace (Rnga.mxc_rnga_read 0 12 true Mock.rnga_clean)) =
   0%nat).
Proof.
  destruct drain_reads_min_words as (Htx & Hrn & Htxs & Hrns).
  split; [|split; [|split]].
  - assert (H1 : 8 <= 32) by lia.
    assert (H2 : result (Tx4939.tx4939_rng_poll false false Mock.tx_ready)
                 <> 0) by (vm_compute; congruence).
    split; [exact H1|]. split; [exact H2|].
    destruct (Htx (list Z) _ false 0 32 false Mock.tx_ready H1 H2)
      as (ws & d' & _ & Heq & _).
    rewrite Heq. reflexivity.
  - assert (H1 : 4 <= 12) by lia.
    assert (H2 : result (Rnga.mxc_rnga_poll false Mock.rnga_clean) <> 0)
      by (vm_compute; congruence).
    assert (H3 : Rnga.cleared
                   (trace (Rnga.mxc_rnga_read 0 12 false Mock.rnga_clean)) =
                 false) by (vm_compute; reflexivity).
    split; [exact H1|]. split; [exact H2|]. split; [exact H3|].
    destruct (Hrn (list Z) _ 0 12 false Mock.rnga_clean H1 H2 H3)
      as (rounds & d' & _ & _ & Heq & _).
    rewrite Heq. reflexivity.
  - assert (H1 : Tx4939.ready
                   (u64_of (mmio_load Mock.tx_ready
                              Tx4939.TX4939_RNG_RCSR).1))
      by (vm_compute; reflexivity).
    split; [exact H1|].
    exact (proj1 (proj2 (Htxs (list Z) _ true 0 true Mock.tx_ready H1))).
  - assert (H1 : Rnga.level
                   (u32_of (mmio_load Mock.rnga_clean Rnga.RNGA_STATUS).1) =
                 5) by (vm_compute; reflexivity).
    assert (H2 : Rnga.cleared
                   (trace (Rnga.mxc_rnga_read 0 12 true Mock.rnga_clean)) =
                 false) by (vm_compute; reflexivity).
    split; [exact H1|].
    exact (proj2 (Hrns (list Z) _ 0 true Mock.rnga_clean H1 H2)).
Defined.

(** C3 on a TX4939 that never finishes, an empty RNGA and an ath9k whose
    samples are all 0, [wait] true: the call returns 0. *)
Lemma poll_retries_bounded_witness :
  (8 <= 16 /\
   exists (ss : list Z) (rest : list event),
     (length ss <= 20)%nat /\
     trace (Tx4939.tx4939_rng_read true 0 16 true Mock.tx_busy) =
     Tx4939.check_events true 1 ++ Tx4939.recheck_events true ss ++ rest) /\
  (4 <= 16 /\
   exists (ss : list Z) (rest : list event),
     (length ss <= 20)%nat /\
     trace (Rnga.mxc_rnga_read 0 16 true Mock.rnga_empty) =
     MmioRead Rnga.RNGA_STATUS 0 :: Rnga.recheck_events ss ++ rest) /\
  (4 <= 8 <= INT_MAX /\
   exists scans : list (list (Z * Z)),
     (length scans <= 20)%nat /\
     Forall (fun ps => Z.of_nat (length ps) = 8 / 4) scans) /\
  (4 <= 8 /\
   result (Ath9k.ath9k_rng_poll 0 8 true Mock.ath_none) = 0 /\
   count is_delay (trace (Ath9k.ath9k_rng_read 0 8 true Mock.ath_none)) =
   20%nat).
Proof.
  destruct poll_retries_bounded as (Htx & Hrn & Hath & Hcnt).
  split; [|split; [|split]].
  - assert (H1 : 8 <= 16) by lia.
    split; [exact H1|].
    destruct (Htx (list Z) _ true 0 16 true Mock.tx_busy H1)
      as (ss & rest & Hlen & Htr & _).
    exists ss, rest. split; [exact Hlen|exact Htr].
  - assert (H1 : 4 <= 16) by lia.
    split; [exact H1|].
    destruct (Hrn (list Z) _ 0 16 true Mock.rnga_empty H1)
      as (ss & rest & Hlen & Htr & _).
    exists ss, rest. split; [exact Hlen|exact Htr].
  - assert (H1 : 4 <= 8 <= INT_MAX) by (unfold INT_MAX; lia).
    split; [exact H1|].
    destruct (Hath (list Z) _ 0 8 true Mock.ath_none H1)
      as (pairs & scans & Hlen & Hall & _).
    exists scans. split; [exact Hlen|].
    exact (Forall_inv_tail Hall).
  - assert (H1 : 4 <= 8) by lia.
    assert (H2 : result (Ath9k.ath9k_rng_poll 0 8 true Mock.ath_none) = 0)
      by (vm_compute; reflexivity).
    split; [exact H1|]. split; [exact H2|].
    destruct (Hcnt (list Z) _ 0 8 true Mock.ath_none H1)
      as (_ & _ & _ & _ & _ & Hex).
    exact (Hex eq_refl H2).
Defined.

(** C4 on an RNGA at level 5 whose second status shows the error. *)
Lemma rnga_fault_stops_drain_witness :
  4 <= 12 /\
  result (Rnga.mxc_rnga_poll false Mock.rnga_fault) <> 0 /\
  exists rounds : list (Z * Z),
    result (Rnga.mxc_rnga_read 0 12 false Mock.rnga_fault) =
    4 * Z.of_nat (length rounds).
Proof.
  assert (H1 : 4 <= 12) by lia.
  assert (H2 : result (Rnga.mxc_rnga_poll false Mock.rnga_fault) <> 0)
    by (vm_compute; congruence).
  split; [exact H1|]. split; [exact H2|].
  destruct (rnga_fault_stops_drain (list Z) _ 0 12 false Mock.rnga_fault
              H1 H2)
    as (rounds & fault & ctrl & _ & _ & Hres & _).
  exists rounds. exact Hres.
Defined.

(** C5 on calls with one byte less than a word. *)
Lemma small_buffer_rejected_witness :
  (7 < 8 /\
   Tx4939.tx4939_rng_read false 0 7 true Mock.tx_ready =
   (- EINVAL, Mock.tx_ready, [Warn])) /\
  (3 < 4 /\
   Rnga.mxc_rnga_read 0 3 true Mock.rnga_clean =
   (- EINVAL, Mock.rnga_clean, [Warn])) /\
  (3 < 4 /\
   Ath9k.ath9k_rng_read 0 3 true Mock.ath_two =
   (- EINVAL, Mock.ath_two, [Warn])).
Proof.
  destruct small_buffer_rejected as (Htx & Hrn & Hath).
  split; [|split].
  - assert (H1 : 7 < 8) by lia.
    split; [exact H1|].
    exact (proj1 (Htx (list Z) _ false 0 7 true Mock.tx_ready H1)).
  - assert (H1 : 3 < 4) by lia.
    split; [exact H1|].
    exact (proj1 (Hrn (list Z) _ 0 3 true Mock.rnga_clean H1)).
  - assert (H1 : 3 < 4) by lia.
    split; [exact H1|].
    exact (proj1 (Hath (list Z) _ 0 3 true Mock.ath_two H1)).
Defined.

(** C6 on a TX4939 that has not finished, an empty RNGA and an ath9k whose
    samples are all 0. *)
Lemma nowait_not_ready_returns_zero_witness :
  (8 <= 64 /\
   ~ Tx4939.ready (u64_of (mmio_load Mock.tx_busy Tx4939.TX4939_RNG_RCSR).1)
   /\ result (Tx4939.tx4939_rng_read true 0 64 false Mock.tx_busy) = 0) /\
  (4 <= 64 /\
   ~ Rnga.ready (u32_of (mmio_load Mock.rnga_empty Rnga.RNGA_STATUS).1) /\
   result (Rnga.mxc_rnga_read 0 64 false Mock.rnga_empty) = 0) /\
  (4 <= 8 /\
   result (Ath9k.ath9k_rng_data_read 0 (u32_of (8 / 4)) Mock.ath_none) = 0 /\
   result (Ath9k.ath9k_rng_read 0 8 false Mock.ath_none) = 0).
Proof.
  destruct nowait_not_ready_returns_zero as (Htx & Hrn & Hath).
  split; [|split].
  - assert (H1 : 8 <= 64) by lia.
    assert (H2 : ~ Tx4939.ready
                     (u64_of (mmio_load Mock.tx_busy
                                Tx4939.TX4939_RNG_RCSR).1))
      by (vm_compute; congruence).
    split; [exact H1|]. split; [exact H2|].
    destruct (Htx (list Z) _ true 0 64 Mock.tx_busy H1 H2) as [Heq _].
    rewrite Heq. reflexivity.
  - assert (H1 : 4 <= 64) by lia.
    assert (H2 : ~ Rnga.ready
                     (u32_of (mmio_load Mock.rnga_empty Rnga.RNGA_STATUS).1))
      by (vm_compute; congruence).
    split; [exact H1|]. split; [exact H2|].
    rewrite (Hrn (list Z) _ 0 64 Mock.rnga_empty H1 H2). reflexivity.
  - assert (H1 : 4 <= 8) by lia.
    assert (H2 : result (Ath9k.ath9k_rng_data_read 0 (u32_of (8 / 4))
                           Mock.ath_none) = 0) by (vm_compute; reflexivity).
    split; [exact H1|]. split; [exact H2|].
    destruct (Hath (list Z) _ 0 8 Mock.ath_none H1 H2) as [Heq _].
    rewrite Heq. reflexivity.
Defined.

(** C7 on a scan of ten pairs of which two pass the filter, [wait] true,
    and on scans of ten pairs that are all 0, [wait] false and true. *)
Lemma ath9k_returns_words_found_witness :
  (4 <= 40 <= INT_MAX /\
   result (Ath9k.ath9k_rng_read 0 40 true Mock.ath_none) = 0 /\
   exists scans : list (list (Z * Z)),
     length scans = 20%nat /\
     Forall (fun ps => Z.of_nat (length ps) = 40 / 4) scans) /\
  (4 <= 40 <= INT_MAX /\
   exists pairs : list (Z * Z),
     Z.of_nat (length pairs) = 40 / 4 /\
     Ath9k.ath9k_rng_read 0 40 false Mock.ath_none =
     (4 * Z.of_nat (length (Ath9k.valid_words 0 pairs)),
      final (Ath9k.ath9k_rng_read 0 40 false Mock.ath_none),
      Ath9k.data_read_events 0 0 pairs)) /\
  (result (Ath9k.ath9k_rng_data_read 0 (u32_of (40 / 4)) Mock.ath_ten) <> 0
   /\
   result (Ath9k.ath9k_rng_read 0 40 true Mock.ath_ten) =
   int_of
     (result (Ath9k.ath9k_rng_data_read 0 (u32_of (40 / 4)) Mock.ath_ten)
      * 4)) /\
  (result (Ath9k.ath9k_rng_data_read 0 10 Mock.ath_ten) = 2 /\
   result (Ath9k.ath9k_rng_read 0 40 true Mock.ath_ten) = 8) /\
  (result (Ath9k.ath9k_rng_data_read 0 10 Mock.ath_none) = 0 /\
   result (Ath9k.ath9k_rng_read 0 40 false Mock.ath_none) = 0).
Proof.
  destruct ath9k_returns_words_found as (Hrun & Hfirst & Htwo & Hnone & _).
  split; [|split; [|split; [|split]]].
  - assert (H1 : 4 <= 40 <= INT_MAX) by (unfold INT_MAX; lia).
    assert (H2 : result (Ath9k.ath9k_rng_read 0 40 true Mock.ath_none) = 0)
      by (vm_compute; reflexivity).
    split; [exact H1|]. split; [exact H2|].
    destruct (Hrun (list Z) _ 0 40 true Mock.ath_none H1)
      as (pairs & scans & ah & Hall & _ & Heq & _ & _ & _ & Hex).
    rewrite Heq in H2. cbn [result fst] in H2.
    assert (Hf : Ath9k.rescan_words
                   (Ath9k.last_sample (Ath9k.rng_last Mock.ath_none) pairs)
                   (Ath9k.valid_words (Ath9k.rng_last Mock.ath_none) pairs)
                   scans = [])
      by (apply length_zero_iff_nil; lia).
    exists scans. split; [exact (Hex eq_refl Hf)|].
    exact (Forall_inv_tail Hall).
  - assert (H1 : 4 <= 40 <= INT_MAX) by (unfold INT_MAX; lia).
    split; [exact H1|].
    destruct (Hrun (list Z) _ 0 40 false Mock.ath_none H1)
      as (pairs & scans & ah & Hall & _ & Heq & _ & _ & Hend & _).
    destruct (Hend (or_introl eq_refl)) as [Hs _]. subst scans.
    cbn [Ath9k.rescan_events Ath9k.rescan_words Ath9k.rescan_last] in Heq.
    rewrite app_nil_r in Heq.
    exists pairs. split; [exact (Forall_inv Hall)|].
    rewrite Heq. reflexivity.
  - assert (H1 : 4 <= 40) by lia.
    assert (H2 : result (Ath9k.ath9k_rng_data_read 0 (u32_of (40 / 4))
                           Mock.ath_ten) <> 0)
      by (vm_compute; congruence).
    split; [exact H2|].
    rewrite (Hfirst (list Z) _ 0 40 true Mock.ath_ten H1 (or_intror H2)).
    reflexivity.
  - assert (H1 : result (Ath9k.ath9k_rng_data_read 0 10 Mock.ath_ten) = 2)
      by (vm_compute; reflexivity).
    split; [exact H1|].
    rewrite (Htwo (list Z) _ 0 true Mock.ath_ten H1). reflexivity.
  - assert (H1 : result (Ath9k.ath9k_rng_data_read 0 10 Mock.ath_none) = 0)
      by (vm_compute; reflexivity).
    split; [exact H1|].
    rewrite (proj1 (Hnone (list Z) _ 0 Mock.ath_none H1)). reflexivity.
Defined.

(** C8 on the first round and on the whole scan of two pairs. *)
Lemma ath9k_pair_filter_witness :
  (0 <= 0 < INT_MAX /\
   exists (r1 r2 : Z) (ah : list Z),
     Ath9k.valid_pair 0 (Ath9k.sample r1) (Ath9k.sample r2) ->
     Ath9k.ath9k_rng_scan 0 (0, 0) Mock.ath_two =
     ((0 + 1, Ath9k.sample r2),
      {| Ath9k.rng_last := 0; Ath9k.sc_ah := ah |},
      [RegRead AR_PHY_TST_ADC r1; RegRead AR_PHY_TST_ADC r2;
       Store 0 0
         (Z.lor (Z.shiftl (Ath9k.sample r1) 16) (Ath9k.sample r2))])) /\
  (0 <= 2 <= INT_MAX /\
   exists pairs : list (Z * Z),
     Z.of_nat (length pairs) = 2 /\
     result (Ath9k.ath9k_rng_data_read 0 2 Mock.ath_two) =
     Z.of_nat (length (Ath9k.valid_words 0 pairs))).
Proof.
  destruct ath9k_pair_filter as (Hstep & _ & Hscan).
  split.
  - assert (H1 : 0 <= 0 < INT_MAX) by (unfold INT_MAX; lia).
    split; [exact H1|].
    destruct (Hstep (list Z) _ 0 0 0 Mock.ath_two H1)
      as (r1 & r2 & ah & Hvalid & _).
    exists r1, r2, ah. exact Hvalid.
  - assert (H1 : 0 <= 2 <= INT_MAX) by (unfold INT_MAX; lia).
    split; [exact H1|].
    destruct (Hscan (list Z) _ 0 2 Mock.ath_two H1)
      as (pairs & ah & Hlen & Heq & _).
    exists pairs. split; [exact Hlen|]. rewrite Heq. reflexivity.
Defined.

(** C9 on a TX4939 that is ready for both reads of probe. *)
Lemma tx4939_probe_discards_two_reads_witness :
  Tx4939.kzalloc_ok Mock.probe_ok = true /\
  IS_ERR (Tx4939.ioremap_base Mock.probe_ok) = false /\
  count registers
    (trace (Tx4939.tx4939_rng_probe true Mock.probe_ok 0
              [0; 1; 2; 3; 0; 4; 5; 6])) = 1%nat.
Proof.
  assert (H1 : Tx4939.kzalloc_ok Mock.probe_ok = true) by reflexivity.
  assert (H2 : IS_ERR (Tx4939.ioremap_base Mock.probe_ok) = false)
    by reflexivity.
  split; [exact H1|]. split; [exact H2|].
  destruct (tx4939_probe_discards_two_reads (list Z) _ true Mock.probe_ok 0
              [0; 1; 2; 3; 0; 4; 5; 6] H1 H2) as [_ Hc].
  rewrite Hc. vm_compute. reflexivity.
Defined.

(** C10 on an RNGA whose second status shows the error: the call returns
    4 and has stored two words; then on the same RNGA, a ready TX4939 and an
    ath9k scan of two pairs. *)
Lemma stores_within_result_witness :
  (4 <= 12 /\
   result (Rnga.mxc_rnga_poll false Mock.rnga_fault) <> 0 /\
   exists (rounds : list (Z * Z)) (w s : Z),
     Rnga.faulty s /\
     result (Rnga.mxc_rnga_read 0 12 false Mock.rnga_fault) =
       4 * Z.of_nat (length rounds) /\
     stored 0 (trace (Rnga.mxc_rnga_read 0 12 false Mock.rnga_fault)) =
       zip (seqZ 0 (Z.of_nat (length rounds) + 1)) (rounds.*1 ++ [w]) /\
     stored 0 (trace (Rnga.mxc_rnga_read 0 12 false Mock.rnga_fault)) =
       [(0, 11); (1, 22)]) /\
  (0 <= result (Rnga.mxc_rnga_read 0 12 false Mock.rnga_fault) /\
   exists ws : list Z,
     stored 0 (trace (Rnga.mxc_rnga_read 0 12 false Mock.rnga_fault)) =
     zip (seqZ 0 (Z.of_nat (length ws))) ws) /\
  (0 <= result (Tx4939.tx4939_rng_read false 0 32 false Mock.tx_ready) /\
   exists ws : list Z,
     stored 0 (trace (Tx4939.tx4939_rng_read false 0 32 false
                        Mock.tx_ready)) =
     zip (seqZ 0 (Z.of_nat (length ws))) ws /\
     Z.of_nat (length ws) =
     result (Tx4939.tx4939_rng_read false 0 32 false Mock.tx_ready) / 8) /\
  (8 <= INT_MAX /\
   0 <= result (Ath9k.ath9k_rng_read 0 8 false Mock.ath_two) /\
   exists ws : list Z,
     stored 0 (trace (Ath9k.ath9k_rng_read 0 8 false Mock.ath_two)) =
     zip (seqZ 0 (Z.of_nat (length ws))) ws /\
     Z.of_nat (length ws) =
     result (Ath9k.ath9k_rng_read 0 8 false Mock.ath_two) / 4).
Proof.
  destruct stores_within_result as (Hfault & Hrn & Htx & Hath).
  split; [|split; [|split]].
  - assert (H1 : 4 <= 12) by lia.
    assert (H2 : result (Rnga.mxc_rnga_poll false Mock.rnga_fault) <> 0)
      by (vm_compute; congruence).
    assert (H3 : Rnga.cleared
                   (trace (Rnga.mxc_rnga_read 0 12 false Mock.rnga_fault)) =
                 true) by (vm_compute; reflexivity).
    split; [exact H1|]. split; [exact H2|].
    destruct (Hfault (list Z) _ 0 12 false Mock.rnga_fault H1 H2)
      as (rounds & fault & ctrl & _ & _ & Hres & Hcl & Hpath).
    rewrite H3 in Hcl.
    destruct fault as [[w s]|]; [|discriminate Hcl].
    destruct Hpath as (Hfy & _ & Hst & _).
    exists rounds, w, s. split; [exact Hfy|]. split; [exact Hres|].
    split; [exact Hst|]. vm_compute. reflexivity.
  - assert (H1 : 0 <= result (Rnga.mxc_rnga_read 0 12 false Mock.rnga_fault))
      by (vm_compute; congruence).
    split; [exact H1|].
    destruct (Hrn (list Z) _ 0 12 false Mock.rnga_fault H1)
      as (ws & Hst & _).
    exists ws. exact Hst.
  - assert (H1 : 0 <= result (Tx4939.tx4939_rng_read false 0 32 false
                                Mock.tx_ready))
      by (vm_compute; congruence).
    split; [exact H1|].
    destruct (Htx (list Z) _ false 0 32 false Mock.tx_ready H1)
      as (ws & Hst & Hlen & _).
    exists ws. split; [exact Hst|exact Hlen].
  - assert (H1 : 8 <= INT_MAX) by (unfold INT_MAX; lia).
    assert (H2 : 0 <= result (Ath9k.ath9k_rng_read 0 8 false Mock.ath_two))
      by (vm_compute; congruence).
    split; [exact H1|]. split; [exact H2|].
    destruct (Hath (list Z) _ 0 8 false Mock.ath_two H1 H2)
      as (ws & Hst & Hlen & _).
    exists ws. split; [exact Hst|exact Hlen].
Defined.

(** * Beyond the read contract *)

(** Safety and timing of the read entry points, the register accesses of
    the TX4939 driver, and the paths that bring a source up and take it
    down: init, cleanup, probe, remove, start and stop. *)

(** ** Reading traces, continued *)

Lemma in_buffer_quiet (data : ptr) (cap : Z) (t : list event) :
  count is_store t = 0%nat -> Forall (in_buffer data cap) t.
Proof.
  unfold count. induction t as [|e t IH]; [constructor|].
  cbn. destruct e; cbn; try discriminate; intros Hc; constructor;
    try exact I; auto.
Qed.

Lemma delay_ns_app (t1 t2 : list event) :
  delay_ns (t1 ++ t2) = delay_ns t1 + delay_ns t2.
Proof.
  induction t1 as [|e t1 IH]; [reflexivity|].
  destruct e; cbn [app delay_ns]; lia.
Qed.

Lemma delay_ns_quiet (t : list event) :
  count is_delay t = 0%nat -> delay_ns t = 0.
Proof.
  unfold count. induction t as [|e t IH]; [reflexivity|].
  destruct e; cbn; try discriminate; exact IH.
Qed.

Lemma irq_discipline_app (b : bool) (t1 t2 : list event) :
  irq_discipline b (t1 ++ t2) =
  b' ← irq_discipline b t1; irq_discipline b' t2.
Proof.
  revert b. induction t1 as [|e t1 IH]; intros b; [reflexivity|].
  destruct e, b; cbn [app irq_discipline]; try reflexivity; apply IH.
Qed.

Lemma ps_discipline_app (b : bool) (t1 t2 : list event) :
  ps_discipline b (t1 ++ t2) =
  b' ← ps_discipline b t1; ps_discipline b' t2.
Proof.
  revert b. induction t1 as [|e t1 IH]; intros b; [reflexivity|].
  destruct e, b; cbn [app ps_discipline]; try reflexivity; apply IH.
Qed.

Lemma mmio_writes_app (t1 t2 : list event) :
  mmio_writes (t1 ++ t2) = mmio_writes t1 ++ mmio_writes t2.
Proof. apply omap_app. Qed.

Lemma mmio_writes_quiet (t : list event) :
  count is_mmio_write t = 0%nat -> mmio_writes t = [].
Proof.
  unfold count, mmio_writes. induction t as [|e t IH]; [reflexivity|].
  destruct e; cbn; try discriminate; exact IH.
Qed.

(** An error pointer carries an error number other than [0]. *)
Lemma IS_ERR_nonzero (p : Z) : IS_ERR p = true -> int_of (PTR_ERR p) <> 0.
Proof.
  unfold IS_ERR, PTR_ERR, MAX_ERRNO.
  intros [H1%Z.leb_le H2%Z.ltb_lt]%andb_true_iff.
  rewrite int_of_small by lia. lia.
Qed.

(** ** TX4939: safety and timing *)

Section TxMore.
Context {D : Type} `{MmioDevice D}.
Variable cfg : bool.
Import Tx4939.

Lemma tx_drain_in_buffer (data : ptr) (cap i : Z) (ws : list Z) :
  0 <= i -> i + Z.of_nat (length ws) <= cap ->
  Forall (in_buffer data cap) (drain_events data i ws).
Proof.
  revert i. induction ws as [|w ws IH]; intros i Hi Hcap; [constructor|].
  cbn [drain_events length] in *.
  constructor; [exact I|]. constructor; [cbn; lia|].
  apply IH; lia.
Qed.

Lemma tx_poll_in_buffer (data : ptr) (cap s0 : Z) (ss : list Z) :
  Forall (in_buffer data cap) (check_events cfg s0 ++ recheck_events cfg ss).
Proof.
  apply in_buffer_quiet, tx_count_poll; reflexivity.
Qed.

Lemma tx_critical_in_buffer (data : ptr) (cap : Z) (t : list event) :
  Forall (in_buffer data cap) t -> Forall (in_buffer data cap) (critical cfg t).
Proof.
  intros Ht. unfold critical.
  destruct cfg; cbn; rewrite ?app_nil_r; [exact Ht|].
  constructor; [exact I|]. apply Forall_app. split; [exact Ht|].
  constructor; [exact I|constructor].
Qed.

Lemma tx_read_in_buffer (data : ptr) (max : Z) (wait : bool) (d : D) :
  Forall (in_buffer data (max / 8))
    (trace (tx4939_rng_read cfg data max wait d)).
Proof.
  destruct (Z.lt_ge_cases max 8) as [Hs|Hmax].
  - rewrite tx_read_small by assumption. repeat constructor.
  - destruct (tx_read_trace cfg data max wait d Hmax)
      as (ss & ws & d' & _ & _ & _ & _ & _ & Hn & _ & ->).
    destruct (decide _); cbn [trace snd].
    + rewrite app_assoc. apply Forall_app. split; [apply tx_poll_in_buffer|].
      apply tx_critical_in_buffer, Forall_app. split.
      * apply tx_drain_in_buffer; lia.
      * repeat constructor.
    + apply tx_poll_in_buffer.
Qed.

Lemma tx_delay_recheck (ss : list Z) :
  delay_ns (recheck_events cfg ss) = 450 * Z.of_nat (length ss).
Proof.
  induction ss as [|s ss IH]; [reflexivity|].
  change (recheck_events cfg (s :: ss))
    with ([Ndelay 450] ++ check_events cfg s ++ recheck_events cfg ss).
  rewrite !delay_ns_app, IH.
  rewrite (delay_ns_quiet (check_events cfg s)).
  - cbn [delay_ns length]. lia.
  - unfold check_events. rewrite tx_count_critical by reflexivity. reflexivity.
Qed.

Lemma tx_read_delay (data : ptr) (max : Z) (wait : bool) (d : D) :
  let t := trace (tx4939_rng_read cfg data max wait d) in
  delay_ns t = 450 * Z.of_nat (count is_delay t) /\
  0 <= delay_ns t <= (if wait then 20 * 450 else 0).
Proof.
  cbn zeta. destruct (Z.lt_ge_cases max 8) as [Hs|Hmax].
  - rewrite tx_read_small by assumption. cbn. destruct wait; lia.
  - destruct (tx_read_retries cfg data max wait d Hmax)
      as (ss & rest & Hlen & -> & Hq & _ & _ & Hw & _).
    rewrite !delay_ns_app, !count_app, tx_delay_recheck.
    rewrite (delay_ns_quiet rest) by assumption. rewrite Hq.
    rewrite (delay_ns_quiet (check_events cfg _))
      by (unfold check_events; now rewrite tx_count_critical).
    assert (Hc : count is_delay (check_events cfg
                   (u64_of (mmio_load d TX4939_RNG_RCSR).1)) = 0%nat)
      by (unfold check_events; now rewrite tx_count_critical).
    rewrite Hc.
    assert (Hr : count is_delay (recheck_events cfg ss) = length ss).
    { clear. induction ss as [|s ss IH]; [reflexivity|].
      change (recheck_events cfg (s :: ss))
        with ([Ndelay 450] ++ check_events cfg s ++ recheck_events cfg ss).
      rewrite !count_app, IH. unfold check_events.
      rewrite tx_count_critical by reflexivity. reflexivity. }
    rewrite Hr. split; [lia|].
    destruct wait; [lia|]. rewrite Hw by reflexivity. cbn. lia.
Qed.

Lemma tx_mmio_writes_critical (t : list event) :
  mmio_writes (critical cfg t) = mmio_writes t.
Proof.
  unfold critical.
  destruct cfg; cbn; rewrite ?app_nil_r; [reflexivity|].
  now rewrite mmio_writes_app, app_nil_r.
Qed.

Lemma tx_mmio_writes_poll (s0 : Z) (ss : list Z) :
  mmio_writes (check_events cfg s0 ++ recheck_events cfg ss) = [].
Proof. apply mmio_writes_quiet, tx_count_poll; reflexivity. Qed.

Lemma tx_mmio_writes_drain (data : ptr) (i : Z) (ws : list Z) :
  mmio_writes (drain_events data i ws) = [].
Proof.
  revert i. induction ws as [|w ws IH]; intros i; [reflexivity|].
  cbn. apply IH.
Qed.

Lemma tx_read_writes (data : ptr) (max : Z) (wait : bool) (d : D) :
  let r := tx4939_rng_read cfg data max wait d in
  mmio_writes (trace r) =
  if 0 <? result r then [(TX4939_RNG_RCSR, TX4939_RNG_RCSR_ST)] else [].
Proof.
  cbn zeta. destruct (Z.lt_ge_cases max 8) as [Hs|Hmax].
  - rewrite tx_read_small by assumption. reflexivity.
  - destruct (tx_read_trace cfg data max wait d Hmax)
      as (ss & ws & d' & _ & _ & _ & _ & _ & Hn & _ & ->).
    destruct (decide _); cbn [trace result fst snd].
    + assert (1 <= max / 8) by (apply Z.div_le_lower_bound; lia).
      destruct (Z.ltb_spec 0 (8 * Z.min 3 (max / 8))) as [_|]; [|lia].
      rewrite app_assoc, mmio_writes_app, tx_mmio_writes_poll.
      rewrite tx_mmio_writes_critical, mmio_writes_app.
      now rewrite tx_mmio_writes_drain.
    + apply tx_mmio_writes_poll.
Qed.

Lemma tx_read_access (data : ptr) (max : Z) (wait : bool) (d : D) :
  Forall read_access (trace (tx4939_rng_read cfg data max wait d)).
Proof.
  assert (Hcrit : forall t, Forall read_access t ->
             Forall read_access (critical cfg t)).
  { intros t Ht. unfold critical.
    destruct cfg; cbn; rewrite ?app_nil_r; [exact Ht|].
    constructor; [exact I|]. apply Forall_app. split; [exact Ht|].
    repeat constructor. }
  assert (Hchk : forall s, Forall read_access (check_events cfg s)).
  { intros s. apply Hcrit. constructor; [now left|constructor]. }
  assert (Hre : forall ss, Forall read_access (recheck_events cfg ss)).
  { induction ss as [|s ss IH]; [constructor|].
    change (recheck_events cfg (s :: ss))
      with ([Ndelay 450] ++ check_events cfg s ++ recheck_events cfg ss).
    apply Forall_app. split; [repeat constructor|].
    apply Forall_app. split; [apply Hchk|exact IH]. }
  assert (Hdr : forall ws i, 0 <= i -> i + Z.of_nat (length ws) <= 3 ->
             Forall read_access (drain_events data i ws)).
  { induction ws as [|w ws IH]; intros i Hi Hc; [constructor|].
    cbn [drain_events length] in *.
    constructor; [right; exists i; split; [lia|reflexivity]|].
    constructor; [exact I|]. apply IH; lia. }
  destruct (Z.lt_ge_cases max 8) as [Hs|Hmax].
  - rewrite tx_read_small by assumption. repeat constructor.
  - destruct (tx_read_trace cfg data max wait d Hmax)
      as (ss & ws & d' & _ & _ & _ & _ & _ & Hn & _ & ->).
    destruct (decide _); cbn [trace snd].
    + apply Forall_app. split; [apply Hchk|].
      apply Forall_app. split; [apply Hre|].
      apply Hcrit, Forall_app. split; [apply Hdr; lia|].
      repeat constructor.
    + apply Forall_app. split; [apply Hchk|apply Hre].
Qed.

Lemma tx_irq_recheck (ss : list Z) :
  irq_discipline true (recheck_events false ss) = Some true.
Proof.
  induction ss as [|s ss IH]; [reflexivity|]. cbn. exact IH.
Qed.

Lemma tx_irq_drain (data : ptr) (i : Z) (ws : list Z) (t : list event) :
  irq_discipline false (drain_events data i ws ++ t) = irq_discipline false t.
Proof.
  revert i. induction ws as [|w ws IH]; intros i; [reflexivity|].
  cbn. apply IH.
Qed.

Lemma tx_read_irq (data : ptr) (max : Z) (wait : bool) (d : D) :
  irq_discipline true (trace (tx4939_rng_read false data max wait d)) =
  Some true.
Proof.
  destruct (Z.lt_ge_cases max 8) as [Hs|Hmax].
  - rewrite tx_read_small by assumption. reflexivity.
  - destruct (tx_read_trace false data max wait d Hmax)
      as (ss & ws & d' & _ & _ & _ & _ & _ & Hn & _ & ->).
    destruct (decide _); cbn [trace snd].
    + cbn [check_events critical app irq_discipline].
      rewrite irq_discipline_app, tx_irq_recheck.
      cbn [mbind option_bind irq_discipline].
      rewrite <- app_assoc, tx_irq_drain. reflexivity.
    + cbn [check_events critical app irq_discipline].
      apply tx_irq_recheck.
Qed.

Lemma tx_count_irq_drain (data : ptr) (i : Z) (ws : list Z) :
  count toggles_irq (drain_events data i ws) = 0%nat.
Proof.
  revert i. induction ws as [|w ws IH]; intros i; [reflexivity|]. apply IH.
Qed.

Lemma tx_count_irq_recheck (ss : list Z) :
  count toggles_irq (recheck_events true ss) = 0%nat.
Proof. induction ss as [|s ss IH]; [reflexivity|]. exact IH. Qed.

Lemma tx_read_no_irq (data : ptr) (max : Z) (wait : bool) (d : D) :
  count toggles_irq (trace (tx4939_rng_read true data max wait d)) = 0%nat.
Proof.
  destruct (Z.lt_ge_cases max 8) as [Hs|Hmax].
  - rewrite tx_read_small by assumption. reflexivity.
  - destruct (tx_read_trace true data max wait d Hmax)
      as (ss & ws & d' & _ & _ & _ & _ & _ & Hn & _ & ->).
    destruct (decide _); cbn [trace snd]; rewrite !count_app.
    + unfold critical. cbn [app]. rewrite app_nil_r, count_app.
      rewrite tx_count_irq_recheck, tx_count_irq_drain. reflexivity.
    + rewrite tx_count_irq_recheck. reflexivity.
Qed.

(** The events of probe for any answers of the kernel services. *)
Lemma tx_probe_trace (env : probe_env) (flush : ptr) (d : D) :
  let d0 :=
    mmio_store
      (mmio_store (mmio_store d TX4939_RNG_RCSR TX4939_RNG_RCSR_RST)
         TX4939_RNG_RCSR 0)
      TX4939_RNG_RCSR TX4939_RNG_RCSR_ST in
  let r1 := tx4939_rng_read cfg flush 24 true d0 in
  let r2 := tx4939_rng_read cfg flush 24 true (final r1) in
  trace (tx4939_rng_probe cfg env flush d) =
  if kzalloc_ok env && negb (IS_ERR (ioremap_base env)) then
    reset_events cfg ++ trace r1 ++
    (if result r1 =? 0 then [] else
       trace r2 ++
       (if result r2 =? 0 then [] else [SetDrvdata; HwrngRegister]))
  else [].
Proof.
  cbn zeta. destruct (kzalloc_ok env) eqn:Hk.
  - destruct (IS_ERR (ioremap_base env)) eqn:Hi.
    + unfold tx4939_rng_probe. rewrite Hk, Hi. reflexivity.
    + destruct (tx_probe_run cfg env flush d Hk Hi) as [-> _].
      destruct (_ =? 0); [now rewrite app_nil_r|].
      destruct (_ =? 0); [now rewrite app_nil_r|reflexivity].
  - unfold tx4939_rng_probe. rewrite Hk. reflexivity.
Qed.

(** A discard read of probe returns [0] or [24]. *)
Lemma tx_read_24 (data : ptr) (wait : bool) (d : D) :
  let r := tx4939_rng_read cfg data 24 wait d in
  (result r = 0 /\ stored data (trace r) = []) \/
  (result r = 24 /\ (stored data (trace r)).*1 = [0; 1; 2]).
Proof.
  cbn zeta.
  destruct (tx_read_trace cfg data 24 wait d ltac:(lia))
    as (ss & ws & d' & _ & _ & _ & _ & _ & Hn & _ & ->).
  change (Z.min 3 (24 / 8)) with 3 in *.
  destruct (decide _); cbn [trace result fst snd]; [right|left].
  - split; [reflexivity|].
    rewrite app_assoc, stored_app, tx_stored_poll, tx_stored_critical.
    rewrite stored_app, tx_stored_drain.
    destruct ws as [|w1 [|w2 [|w3 [|w4 ws]]]]; cbn in Hn; try lia.
    reflexivity.
  - split; [reflexivity|apply tx_stored_poll].
Qed.

Lemma tx_probe_in_buffer (env : probe_env) (flush : ptr) (d : D) :
  Forall (in_buffer flush 3) (trace (tx4939_rng_probe cfg env flush d)).
Proof.
  rewrite tx_probe_trace.
  destruct (_ && _); [|constructor].
  apply Forall_app. split.
  { unfold reset_events. apply tx_critical_in_buffer. repeat constructor. }
  apply Forall_app. split; [apply (tx_read_in_buffer flush 24)|].
  destruct (_ =? 0); [constructor|].
  apply Forall_app. split; [apply (tx_read_in_buffer flush 24)|].
  destruct (_ =? 0); repeat constructor.
Qed.

Lemma tx_probe_writes (env : probe_env) (flush : ptr) (d : D) :
  let t := trace (tx4939_rng_probe cfg env flush d) in
  mmio_writes t `prefix_of` probe_writes /\
  (count registers t = 1%nat <-> mmio_writes t = probe_writes) /\
  (count registers t = 1%nat ->
   (stored flush t).*1 = [0; 1; 2; 0; 1; 2]).
Proof.
  cbn zeta. rewrite tx_probe_trace.
  destruct (_ && _);
    [|split; [apply prefix_nil|split; [split; discriminate|discriminate]]].
  set (d0 := mmio_store _ _ _).
  assert (Hreg : forall data max wait d1,
             count registers (trace (tx4939_rng_read cfg data max wait d1)) =
             0%nat).
  { intros data max wait d1.
    destruct (Z.lt_ge_cases max 8) as [Hs|Hmax].
    - rewrite tx_read_small by assumption. reflexivity.
    - rewrite (tx_read_count cfg registers data max wait d1 Hmax);
        try reflexivity.
      destruct (_ =? 0); reflexivity. }
  assert (Hres : count registers (reset_events cfg) = 0%nat)
    by (unfold reset_events; now rewrite tx_count_critical).
  assert (Hrw : mmio_writes (reset_events cfg) = take 3 probe_writes)
    by (unfold reset_events; now rewrite tx_mmio_writes_critical).
  pose proof (tx_read_writes flush 24 true d0) as Hw1. cbn zeta in Hw1.
  pose proof (tx_read_24 flush true d0) as H1. cbn zeta in H1.
  pose proof (Hreg flush 24 true d0) as Hc1.
  set (r1 := tx4939_rng_read cfg flush 24 true d0) in *.
  pose proof (tx_read_writes flush 24 true (final r1)) as Hw2.
  cbn zeta in Hw2.
  pose proof (tx_read_24 flush true (final r1)) as H2. cbn zeta in H2.
  pose proof (Hreg flush 24 true (final r1)) as Hc2.
  set (r2 := tx4939_rng_read cfg flush 24 true (final r1)) in *.
  rewrite !mmio_writes_app, !stored_app, !count_app, Hrw, Hw1, Hres, Hc1.
  unfold reset_events. rewrite tx_stored_critical.
  destruct H1 as [[E1 S1]|[E1 S1]]; rewrite E1; cbn [Z.eqb Z.ltb Z.compare].
  - rewrite !app_nil_r.
    split; [now exists (drop 3 probe_writes)|].
    split; [split; discriminate|discriminate].
  - rewrite !mmio_writes_app, !stored_app, !count_app, Hw2, Hc2.
    destruct H2 as [[E2 S2]|[E2 S2]]; rewrite E2; cbn [Z.eqb Z.ltb Z.compare].
    + rewrite !app_nil_r.
      split; [now exists (drop 4 probe_writes)|].
      split; [split; discriminate|discriminate].
    + split; [now exists []|].
      split; [split; reflexivity|].
      intros _.
      change (stored flush [MmioWrite _ _; MmioWrite _ _; MmioWrite _ _])
        with (@nil (Z * Z)).
      change (stored flush [SetDrvdata; HwrngRegister]) with (@nil (Z * Z)).
      rewrite app_nil_r, app_nil_l, fmap_app, S1, S2. reflexivity.
Qed.

(** What probe returns, by what it did. *)
Lemma tx_probe_result (env : probe_env) (flush : ptr) (d : D) :
  let p := tx4939_rng_probe cfg env flush d in
  (count registers (trace p) = 1%nat -> result p = hwrng_register_ret env) /\
  (result p = 0 ->
   count registers (trace p) = 1%nat /\ hwrng_register_ret env = 0) /\
  (kzalloc_ok env = false -> p = (- ENOMEM, d, [])) /\
  (kzalloc_ok env = true -> IS_ERR (ioremap_base env) = true ->
   p = (int_of (PTR_ERR (ioremap_base env)), d, [])).
Proof.
  cbn zeta. destruct (kzalloc_ok env) eqn:Hk.
  - destruct (IS_ERR (ioremap_base env)) eqn:Hi.
    + pose proof (IS_ERR_nonzero _ Hi) as Hn.
      unfold tx4939_rng_probe. rewrite Hk, Hi. cbn [negb result trace fst snd].
      unfold ret. cbn [result trace fst snd].
      split; [discriminate|]. split; [intros Hz; contradiction|].
      split; [discriminate|]. reflexivity.
    + destruct (tx_probe_run cfg env flush d Hk Hi) as [Hp Hc].
      cbn zeta in Hp, Hc. rewrite Hc, Hp.
      split; [|split; [|split; discriminate]].
      * destruct (_ =? 0); [discriminate|].
        destruct (_ =? 0); [discriminate|]. reflexivity.
      * destruct (_ =? 0); [discriminate|].
        destruct (_ =? 0); [discriminate|].
        cbn [result fst orb]. intros Hz. split; [reflexivity|exact Hz].
  - unfold tx4939_rng_probe. rewrite Hk. cbn [negb]. unfold ret.
    cbn [result trace fst snd].
    split; [discriminate|]. split; [discriminate|].
    split; [reflexivity|discriminate].
Qed.
End TxMore.

Section TxIrq.
Context {D : Type} `{MmioDevice D}.
Import Tx4939.

Lemma tx_probe_irq (env : probe_env) (flush : ptr) (d : D) :
  irq_discipline true (trace (tx4939_rng_probe false env flush d)) = Some true.
Proof.
  rewrite tx_probe_trace.
  destruct (_ && _); [|reflexivity].
  rewrite irq_discipline_app.
  change (irq_discipline true (reset_events false)) with (Some true).
  cbn [mbind option_bind].
  rewrite irq_discipline_app, tx_read_irq. cbn [mbind option_bind].
  destruct (_ =? 0); [reflexivity|].
  rewrite irq_discipline_app, tx_read_irq. cbn [mbind option_bind].
  destruct (_ =? 0); reflexivity.
Qed.

Lemma tx_probe_no_irq (env : probe_env) (flush : ptr) (d : D) :
  count toggles_irq (trace (tx4939_rng_probe true env flush d)) = 0%nat.
Proof.
  rewrite tx_probe_trace.
  destruct (_ && _); [|reflexivity].
  rewrite !count_app, tx_read_no_irq.
  change (count toggles_irq (reset_events true)) with 0%nat.
  destruct (_ =? 0); [reflexivity|].
  rewrite count_app, tx_read_no_irq.
  destruct (_ =? 0); reflexivity.
Qed.
End TxIrq.

(** ** RNGA: safety and timing *)

Section RngaMore.
Context {D : Type} `{MmioDevice D}.
Import Rnga.

Lemma rnga_drain_in_buffer (data : ptr) (cap i : Z) (rounds : list (Z * Z)) :
  0 <= i -> i + Z.of_nat (length rounds) <= cap ->
  Forall (in_buffer data cap) (drain_events data i rounds).
Proof.
  revert i. induction rounds as [|[w s] rounds IH]; intros i Hi Hcap;
    [constructor|].
  cbn [drain_events length] in *.
  constructor; [exact I|]. constructor; [cbn; lia|].
  constructor; [exact I|]. apply IH; lia.
Qed.

Lemma rnga_count_fifo_drain (data : ptr) (i : Z) (rounds : list (Z * Z)) :
  count (reads_of RNGA_OUTPUT_FIFO) (drain_events data i rounds) =
  length rounds.
Proof.
  revert i. induction rounds as [|[w s] rounds IH]; intros i; [reflexivity|].
  cbn [drain_events length].
  change (count (reads_of RNGA_OUTPUT_FIFO)
            (MmioRead RNGA_OUTPUT_FIFO w :: Store data i w ::
             MmioRead RNGA_STATUS s :: drain_events data (i + 1) rounds))
    with (S (count (reads_of RNGA_OUTPUT_FIFO)
               (drain_events data (i + 1) rounds))).
  now rewrite IH.
Qed.

Lemma rnga_delay_recheck (ss : list Z) :
  delay_ns (recheck_events ss) = 10000 * Z.of_nat (length ss) /\
  count is_delay (recheck_events ss) = length ss.
Proof.
  induction ss as [|s ss [IH1 IH2]]; [split; reflexivity|].
  change (recheck_events (s :: ss))
    with ([Udelay 10; MmioRead RNGA_STATUS s] ++ recheck_events ss).
  rewrite delay_ns_app, count_app, IH1, IH2. cbn [length].
  split; [|reflexivity].
  change (delay_ns [Udelay 10; MmioRead RNGA_STATUS s]) with 10000. lia.
Qed.

Lemma rnga_read_in_buffer (data : ptr) (max : Z) (wait : bool) (d : D) :
  Forall (in_buffer data (max / 4)) (trace (mxc_rnga_read data max wait d)).
Proof.
  destruct (Z.lt_ge_cases max 4) as [Hs|Hmax].
  - rewrite rnga_read_small by assumption. repeat constructor.
  - destruct (rnga_read_trace data max wait d Hmax)
      as (ss & rounds & fault & ctrl & d' & _ & _ & _ & _ & _ & _ & Hf & _
          & ->).
    cbn zeta in *.
    assert (Hpoll : forall s0,
               Forall (in_buffer data (max / 4))
                 (MmioRead RNGA_STATUS s0 :: recheck_events ss))
      by (intros; apply in_buffer_quiet, rnga_count_poll; reflexivity).
    destruct (decide _); cbn [trace snd]; [|apply Hpoll].
    rewrite app_comm_cons. apply Forall_app. split; [apply Hpoll|].
    apply Forall_app. split.
    + apply rnga_drain_in_buffer; [lia|]. rewrite length_app.
      destruct fault as [[w s]|]; simpl length; [destruct Hf|]; lia.
    + destruct fault; repeat constructor.
Qed.

Lemma rnga_read_delay (data : ptr) (max : Z) (wait : bool) (d : D) :
  let t := trace (mxc_rnga_read data max wait d) in
  delay_ns t = 10000 * Z.of_nat (count is_delay t) /\
  0 <= delay_ns t <= (if wait then 20 * 10000 else 0).
Proof.
  cbn zeta. destruct (Z.lt_ge_cases max 4) as [Hs|Hmax].
  - rewrite rnga_read_small by assumption. cbn. destruct wait; lia.
  - destruct (rnga_read_retries data max wait d Hmax)
      as (ss & rest & Hlen & -> & Hq & _ & Hw & _).
    destruct (rnga_delay_recheck ss) as [Hd Hc].
    change (MmioRead RNGA_STATUS ?s :: ?t) with ([MmioRead RNGA_STATUS s] ++ t).
    rewrite !delay_ns_app, !count_app, Hd, Hc, Hq.
    rewrite (delay_ns_quiet rest) by assumption.
    cbn [delay_ns]. change (count is_delay [MmioRead _ _]) with 0%nat.
    split; [lia|].
    destruct wait; [lia|]. rewrite Hw by reflexivity. cbn. lia.
Qed.

Lemma rnga_read_fifo_loads (data : ptr) (max : Z) (wait : bool) (d : D) :
  4 <= max ->
  let r := mxc_rnga_read data max wait d in
  let p := result (mxc_rnga_poll wait d) in
  count (reads_of RNGA_OUTPUT_FIFO) (trace r) = length (stored data (trace r))
  /\ Z.of_nat (count (reads_of RNGA_OUTPUT_FIFO) (trace r)) <=
     Z.min (Z.shiftr p 8) (max / 4).
Proof.
  intros Hmax. cbn zeta.
  destruct (rnga_read_trace data max wait d Hmax)
    as (ss & rounds & fault & ctrl & d' & _ & _ & _ & _ & _ & _ & Hf & ->
        & ->).
  cbn zeta in *. cbn [result fst].
  fold (level (default (u32_of (mmio_load d RNGA_STATUS).1) (last ss))).
  set (sl := default _ (last ss)) in *.
  pose proof (level_range sl) as Hl.
  assert (Hdiv : 1 <= max / 4) by (apply Z.div_le_lower_bound; lia).
  assert (Hpoll : forall s0,
             count (reads_of RNGA_OUTPUT_FIFO)
               (MmioRead RNGA_STATUS s0 :: recheck_events ss) = 0%nat)
    by (intros; apply rnga_count_poll; reflexivity).
  destruct (decide _); cbn [trace snd].
  - rewrite rnga_stored_ready. rewrite length_zip, length_seqZ, length_fmap.
    rewrite app_comm_cons, !count_app, Hpoll, rnga_count_fifo_drain.
    assert (Hclr : count (reads_of RNGA_OUTPUT_FIFO)
                     match fault with
                     | Some _ => err_clear_events ctrl
                     | None => []
                     end = 0%nat) by (destruct fault; reflexivity).
    rewrite Hclr. split; [lia|].
    rewrite length_app.
    destruct fault as [[w s]|]; simpl length; [destruct Hf|]; lia.
  - rewrite Hpoll, rnga_stored_poll. split; [reflexivity|]. cbn. lia.
Qed.
End RngaMore.

(** ** Paths through kernel services *)

Ltac unfold_k :=
  unfold call, hw in *;
  unfold mbind, K_bind, kbind, kret in *;
  cbv beta iota in *.

(** Clearing a bit of a [u32] with the complement of an [int] mask. *)
Lemma land_lnot_clearbit (c k : Z) :
  0 <= c < 2 ^ 32 -> 0 <= k < 32 ->
  u32_of (Z.land c (u32_of (Z.lnot (2 ^ k)))) = Z.clearbit c k.
Proof.
  intros Hc Hk.
  assert (Hb : forall i, 32 <= i -> Z.testbit c i = false).
  { intros i Hi. rewrite <- (Z.mod_small c (2 ^ 32)) by lia.
    apply Z.mod_pow2_bits_high. lia. }
  unfold u32_of. apply Z.bits_inj'. intros i Hi.
  rewrite Z.clearbit_eqb by lia.
  destruct (Z.lt_ge_cases i 32) as [Hlt|Hge].
  - rewrite Z.mod_pow2_bits_low, Z.land_spec by lia.
    rewrite Z.mod_pow2_bits_low, Z.lnot_spec, Z.pow2_bits_eqb by lia.
    reflexivity.
  - rewrite Z.mod_pow2_bits_high by lia. rewrite Hb by lia. reflexivity.
Qed.

Lemma clearbit_range (c k : Z) :
  0 <= c < 2 ^ 32 -> 0 <= k < 32 -> 0 <= Z.clearbit c k < 2 ^ 32.
Proof.
  intros Hc Hk. rewrite <- land_lnot_clearbit by assumption.
  apply u32_of_range.
Qed.

Lemma setbit_range (c k : Z) :
  0 <= c < 2 ^ 32 -> 0 <= k < 32 -> 0 <= Z.setbit c k < 2 ^ 32.
Proof.
  intros Hc Hk. unfold Z.setbit. apply (lor_below 32); [lia|assumption|].
  rewrite Z.shiftl_1_l. split; [lia|]. apply Z.pow_lt_mono_r; lia.
Qed.

(** ** RNGA: init and cleanup *)

Section RngaInit.
Context {D : Type} `{MmioDevice D}.
Import Rnga.

(** The run of [mxc_rnga_init]: wake up, test the oscillator, start. *)
Lemma rnga_init_run (d : D) :
  let c0 := u32_of (mmio_load d RNGA_CONTROL).1 in
  let d1 :=
    mmio_store (mmio_load d RNGA_CONTROL).2 RNGA_CONTROL (Z.clearbit c0 4) in
  let osc := u32_of (mmio_load d1 RNGA_STATUS).1 in
  let d2 := (mmio_load d1 RNGA_STATUS).2 in
  let c1 := u32_of (mmio_load d2 RNGA_CONTROL).1 in
  let wake :=
    [Hw (MmioRead RNGA_CONTROL c0);
     Hw (MmioWrite RNGA_CONTROL (Z.clearbit c0 4));
     Hw (MmioRead RNGA_STATUS osc)] in
  mxc_rnga_init d =
  if Z.testbit osc 31 then
    (- ENODEV, d2, wake ++ [Call (KDevErr "RNGA Oscillator is dead!" [])])
  else
    (0, mmio_store (mmio_load d2 RNGA_CONTROL).2 RNGA_CONTROL (Z.setbit c1 0),
     wake ++ [Hw (MmioRead RNGA_CONTROL c1);
              Hw (MmioWrite RNGA_CONTROL (Z.setbit c1 0))]).
Proof.
  cbn zeta. unfold mxc_rnga_init, __raw_readl, __raw_writel. unfold_k.
  destruct (mmio_load d RNGA_CONTROL) as [v0 d0]. cbn [fst snd fmap list_fmap].
  change RNGA_CONTROL_SLEEP with (2 ^ 4).
  rewrite land_lnot_clearbit by (try apply u32_of_range; lia).
  destruct (mmio_load (mmio_store d0 RNGA_CONTROL _) RNGA_STATUS) as [s d2].
  cbn [fst snd fmap list_fmap].
  assert (Hosc : negb (Z.land (u32_of s) RNGA_STATUS_OSC_DEAD =? 0) =
                 Z.testbit (u32_of s) 31).
  { change RNGA_STATUS_OSC_DEAD with (2 ^ 31).
    destruct (Z.testbit (u32_of s) 31) eqn:Hb.
    - apply negb_true_iff, Z.eqb_neq. intros Hz.
      apply (f_equal (fun z => Z.testbit z 31)) in Hz.
      rewrite Z.land_spec, Hb, Z.pow2_bits_true, Z.bits_0 in Hz by lia.
      discriminate.
    - apply negb_false_iff, Z.eqb_eq. apply Z.bits_inj'. intros i Hi.
      rewrite Z.land_spec, Z.pow2_bits_eqb, Z.bits_0 by lia.
      destruct (Z.eqb_spec 31 i) as [<-|_];
        [now rewrite Hb|apply andb_false_r]. }
  rewrite Hosc. destruct (Z.testbit (u32_of s) 31); [reflexivity|].
  destruct (mmio_load d2 RNGA_CONTROL) as [v1 d3].
  cbn [fst snd fmap list_fmap app].
  change (Z.lor (u32_of v1) RNGA_CONTROL_GO) with (Z.setbit (u32_of v1) 0).
  rewrite (u32_of_small (Z.setbit _ _))
    by (apply setbit_range; [apply u32_of_range|lia]).
  reflexivity.
Qed.

Lemma rnga_cleanup_run (d : D) :
  let c := u32_of (mmio_load d RNGA_CONTROL).1 in
  mxc_rnga_cleanup d =
  (tt, mmio_store (mmio_load d RNGA_CONTROL).2 RNGA_CONTROL (Z.clearbit c 0),
   [MmioRead RNGA_CONTROL c; MmioWrite RNGA_CONTROL (Z.clearbit c 0)]).
Proof.
  cbn zeta. unfold mxc_rnga_cleanup, __raw_readl, __raw_writel. unfold_m.
  destruct (mmio_load d RNGA_CONTROL) as [v0 d0]. cbn [fst snd].
  change RNGA_CONTROL_GO with (2 ^ 0).
  rewrite land_lnot_clearbit by (try apply u32_of_range; lia).
  reflexivity.
Qed.
End RngaInit.

(** *** On a plain register space *)

Section RngaRegFile.
Import Rnga RegFile.

Lemma clearbit_clearbit_comm (c j k : Z) :
  0 <= j -> 0 <= k ->
  Z.clearbit (Z.clearbit c j) k = Z.clearbit (Z.clearbit c k) j.
Proof.
  intros Hj Hk. apply Z.bits_inj'. intros i Hi.
  rewrite !Z.clearbit_eqb by lia.
  destruct (Z.testbit c i), (j =? i), (k =? i); reflexivity.
Qed.

Lemma clearbit_setbit (c k : Z) :
  0 <= k -> Z.clearbit (Z.setbit c k) k = Z.clearbit c k.
Proof.
  intros Hk. apply Z.bits_inj'. intros i Hi.
  rewrite !Z.clearbit_eqb, Z.setbit_eqb by lia.
  destruct (Z.testbit c i), (k =? i); reflexivity.
Qed.

Lemma regfile_init (m : gmap Z Z) :
  let c0 := u32_of (default 0 (m !! RNGA_CONTROL)) in
  let osc := u32_of (default 0 (m !! RNGA_STATUS)) in
  let r := mxc_rnga_init m in
  kresult r = (if Z.testbit osc 31 then - ENODEV else 0) /\
  kfinal r =
    <[RNGA_CONTROL :=
        if Z.testbit osc 31 then Z.clearbit c0 4
        else Z.setbit (Z.clearbit c0 4) 0]> m.
Proof.
  cbn zeta. rewrite rnga_init_run.
  cbn [mmio_load mmio_store regfile_mmio fst snd].
  rewrite lookup_insert_ne by discriminate.
  destruct (Z.testbit _ 31); cbn [kresult kfinal fst snd];
    (split; [reflexivity|]); [reflexivity|].
  rewrite lookup_insert_eq. cbn [default id].
  rewrite (u32_of_small (Z.clearbit _ _))
    by (apply clearbit_range; [apply u32_of_range|lia]).
  apply insert_insert_eq.
Qed.
Lemma regfile_cleanup (m : gmap Z Z) :
  final (mxc_rnga_cleanup m) =
  <[RNGA_CONTROL := Z.clearbit (u32_of (default 0 (m !! RNGA_CONTROL))) 0]> m.
Proof. rewrite rnga_cleanup_run. reflexivity. Qed.

Lemma regfile_init_cleanup (m : gmap Z Z) :
  let c0 := u32_of (default 0 (m !! RNGA_CONTROL)) in
  let osc := u32_of (default 0 (m !! RNGA_STATUS)) in
  let r := mxc_rnga_init m in
  Z.testbit osc 31 = false ->
  kresult r = 0 /\
  kfinal r = <[RNGA_CONTROL := Z.setbit (Z.clearbit c0 4) 0]> m /\
  mxc_rnga_init (kfinal r) = (0, kfinal r, ktrace (mxc_rnga_init (kfinal r)))
  /\
  final (mxc_rnga_cleanup (kfinal r)) =
    <[RNGA_CONTROL := Z.clearbit (Z.clearbit c0 4) 0]> m.
Proof.
  cbn zeta. intros Hosc.
  destruct (regfile_init m) as [Hr Hf]. cbn zeta in Hr, Hf.
  rewrite Hosc in Hr, Hf. rewrite Hr, Hf.
  set (c0 := u32_of (default 0 (m !! RNGA_CONTROL))).
  assert (Hc : 0 <= Z.setbit (Z.clearbit c0 4) 0 < 2 ^ 32).
  { apply setbit_range; [|lia].
    apply clearbit_range; [apply u32_of_range|lia]. }
  split; [reflexivity|]. split; [reflexivity|]. split.
  - destruct (regfile_init (<[RNGA_CONTROL:=Z.setbit (Z.clearbit c0 4) 0]> m))
      as [Hr' Hf'].
    cbn zeta in Hr', Hf'.
    rewrite lookup_insert_ne, Hosc in Hr', Hf' by discriminate.
    rewrite lookup_insert_eq in Hf'. cbn [default id] in Hf'.
    rewrite (u32_of_small _ Hc) in Hf'.
    rewrite insert_insert_eq in Hf'.
    assert (Hb : Z.setbit (Z.clearbit (Z.setbit (Z.clearbit c0 4) 0) 4) 0 =
                 Z.setbit (Z.clearbit c0 4) 0).
    { apply Z.bits_inj'. intros i Hi.
      rewrite !Z.setbit_eqb, !Z.clearbit_eqb, Z.setbit_eqb, Z.clearbit_eqb
        by lia.
      destruct (Z.eqb_spec 0 i) as [<-|_]; [reflexivity|].
      destruct (Z.testbit c0 i), (4 =? i); reflexivity. }
    rewrite Hb in Hf'.
    destruct (mxc_rnga_init (<[_ := _]> m)) as [[x y] z].
    unfold kresult, kfinal, ktrace in *. cbn [fst snd] in *. congruence.
  - rewrite regfile_cleanup, lookup_insert_eq. cbn [default id].
    rewrite (u32_of_small _ Hc), clearbit_setbit by lia.
    apply insert_insert_eq.
Qed.
End RngaRegFile.

(** ** ath9k: what a scan does *)

Section AthMore.
Context {H : Type} `{AthHw H}.
Import Ath9k.

(** A stored word splits back into its two samples. *)
Lemma pack_halves (v1 v2 : Z) :
  0 <= v1 < 2 ^ 16 -> 0 <= v2 < 2 ^ 16 ->
  hi_half (pack v1 v2) = v1 /\ lo_half (pack v1 v2) = v2.
Proof.
  intros H1 H2. unfold hi_half, lo_half, pack. split.
  - rewrite Z.shiftr_lor, Z.shiftr_shiftl_l, Z.sub_diag, Z.shiftl_0_r by lia.
    rewrite (Z.shiftr_div_pow2 v2), Z.div_small, Z.lor_0_r by lia.
    reflexivity.
  - change 0xffff with (Z.ones 16).
    rewrite Z.land_lor_distr_l, !Z.land_ones by lia.
    rewrite Z.shiftl_mul_pow2, Z.mod_mul, Z.lor_0_l by lia.
    apply Z.mod_small. lia.
Qed.

Lemma good_word_pack (rng_last r1 r2 : Z) :
  data_ready rng_last (sample r1) (sample r2) = true ->
  good_word (pack (sample r1) (sample r2)).
Proof.
  intros (N1 & F1 & N2 & F2 & Hd & _)%data_ready_spec.
  pose proof (sample_range r1). pose proof (sample_range r2).
  unfold good_word.
  destruct (pack_halves (sample r1) (sample r2)) as [-> ->]; lia.
Qed.

Lemma ath_scan_events_sound (buf : ptr) (rng_last j : Z)
  (pairs : list (Z * Z)) :
  Forall (scan_event buf) (scan_events buf rng_last j pairs).
Proof.
  revert rng_last j.
  induction pairs as [|[r1 r2] pairs IH]; intros l j; [constructor|].
  cbn [scan_events]. constructor; [reflexivity|].
  constructor; [reflexivity|].
  destruct (data_ready l (sample r1) (sample r2)) eqn:Hr; [|apply IH].
  constructor; [|apply IH].
  split; [reflexivity|]. eapply good_word_pack, Hr.
Qed.

(** The scan loop for any number of rounds. *)
Lemma ath_scan_loop_sound (buf : ptr) (n : nat) (st : Z * Z)
  (sc : ath_softc) :
  Forall (scan_event buf) (trace (ath9k_rng_scan_loop buf n st sc)).
Proof.
  revert st sc. induction n as [|n IH]; intros [j l] sc; [constructor|].
  rewrite ath_scan_loop_step.
  destruct (ath_scan_run buf j l sc) as (r1 & r2 & ah1 & Hstep).
  cbn zeta in Hstep. rewrite Hstep. clear Hstep.
  specialize (IH (if data_ready l (sample r1) (sample r2)
                  then (int_of (j + 1), sample r2) else (j, sample r2))
                {| Ath9k.rng_last := Ath9k.rng_last sc; sc_ah := ah1 |}).
  destruct (ath9k_rng_scan_loop buf n _ _) as [[st2 sc2] t2].
  cbn [trace snd] in *. apply Forall_app. split; [|exact IH].
  apply ath_scan_events_sound.
Qed.

Lemma ath_data_read_shape (buf : ptr) (buf_size : Z) (sc : ath_softc) :
  exists t : list event,
    Forall (scan_event buf) t /\
    trace (ath9k_rng_data_read buf buf_size sc) = bracket t.
Proof.
  destruct (ath_data_read_unfold buf buf_size sc) as (sc0 & _ & ->).
  pose proof (ath_scan_loop_sound buf (Z.to_nat buf_size)
                (0, Ath9k.rng_last sc) sc0) as Hs.
  destruct (ath9k_rng_scan_loop buf _ _ _) as [[[j l] sc1] t].
  exists t. split; [exact Hs|reflexivity].
Qed.

Lemma ath_retry_shape (data : ptr) (max : Z) (wait : bool) (retries : nat)
  (u : Z) (sc : ath_softc) :
  exists ts : list (list event),
    Forall (Forall (scan_event data)) ts /\
    (length ts <= retries)%nat /\
    (wait = false -> ts = []) /\
    trace (ath9k_rng_retry data max wait retries u sc) =
    flat_map (fun t => Udelay 10 :: bracket t) ts.
Proof.
  revert u sc. induction retries as [|r IH]; intros u sc;
    rewrite ath_retry_step.
  - exists []. destruct (wait && _); repeat split; auto.
  - destruct (wait && (u =? 0)) eqn:Hc;
      [|exists []; repeat split; auto; cbn; lia].
    apply andb_true_iff in Hc as [-> _].
    destruct (ath_data_read_shape data (u32_of (max / 4))
                (on_ah (fun ah => ath_elapse ah 10000) sc)) as (t & Ht & Hd).
    destruct (ath9k_rng_data_read data _ _) as [[u1 sc1] t1].
    cbn [trace snd] in Hd. subst t1.
    destruct (IH u1 sc1) as (ts & Hts & Hlen & _ & Hr).
    destruct (ath9k_rng_retry data max true r u1 sc1) as [[u2 sc2] t2].
    cbn [trace snd] in *. subst t2.
    exists (t :: ts). split; [constructor; assumption|].
    split; [cbn; lia|]. split; [discriminate|]. reflexivity.
Qed.

(** The events of a call that passes the size check, for any capacity: a
    scan, then at most twenty more, each after its delay. *)
Lemma ath_read_shape (data : ptr) (max : Z) (wait : bool) (sc : ath_softc) :
  4 <= max ->
  exists (t0 : list event) (ts : list (list event)),
    Forall (Forall (scan_event data)) (t0 :: ts) /\
    (length ts <= 20)%nat /\
    (wait = false -> ts = []) /\
    trace (ath9k_rng_read data max wait sc) =
    bracket t0 ++ flat_map (fun t => Udelay 10 :: bracket t) ts.
Proof.
  intros Hmax. rewrite ath_read_unfold.
  destruct (Z.ltb_spec max 4) as [|_]; [lia|].
  destruct (ath_data_read_shape data (u32_of (max / 4)) sc) as (t0 & Ht & Hd).
  destruct (ath9k_rng_data_read data _ sc) as [[u sc1] t1].
  cbn [trace snd] in Hd. subst t1.
  destruct (ath_retry_shape data max wait 20 u sc1)
    as (ts & Hts & Hlen & Hw & Hr).
  destruct (ath9k_rng_retry data max wait 20 u sc1) as [[u' sc2] t2].
  cbn [trace snd] in *. subst t2.
  exists t0, ts. repeat split; auto.
Qed.

Lemma ath_scan_quiet (buf : ptr) (t : list event) :
  Forall (scan_event buf) t ->
  delay_ns t = 0 /\ count is_delay t = 0%nat /\
  (forall t', ps_discipline true (t ++ t') = ps_discipline true t').
Proof.
  induction 1 as [|e t He _ (IH1 & IH2 & IH3)]; [repeat split|].
  destruct e; cbn in He; try contradiction; repeat split; auto.
Qed.

Lemma ath_bracket_ps (buf : ptr) (t : list event) :
  Forall (scan_event buf) t -> ps_discipline false (bracket t) = Some false.
Proof.
  intros Ht. unfold bracket, setup_events. cbn [app ps_discipline].
  now rewrite (proj2 (proj2 (ath_scan_quiet buf t Ht))).
Qed.

Lemma ath_bracket_delay (buf : ptr) (t : list event) :
  Forall (scan_event buf) t ->
  delay_ns (bracket t) = 0 /\ count is_delay (bracket t) = 0%nat.
Proof.
  intros Ht. destruct (ath_scan_quiet buf t Ht) as (Hd & Hc & _).
  unfold bracket. rewrite !delay_ns_app, !count_app, Hd, Hc.
  split; reflexivity.
Qed.

Lemma ath_read_ps (data : ptr) (max : Z) (wait : bool) (sc : ath_softc) :
  ps_discipline false (trace (ath9k_rng_read data max wait sc)) = Some false.
Proof.
  destruct (Z.lt_ge_cases max 4) as [Hs|Hmax].
  - rewrite ath_read_small by assumption. reflexivity.
  - destruct (ath_read_shape data max wait sc Hmax)
      as (t0 & ts & Hts & _ & _ & ->).
    apply Forall_cons in Hts as [Ht0 Hts].
    rewrite ps_discipline_app, (ath_bracket_ps data) by assumption.
    cbn [mbind option_bind].
    induction Hts as [|t ts Ht _ IH]; [reflexivity|].
    cbn [flat_map app ps_discipline].
    rewrite ps_discipline_app, (ath_bracket_ps data) by assumption.
    exact IH.
Qed.

Lemma ath_read_delay (data : ptr) (max : Z) (wait : bool) (sc : ath_softc) :
  let t := trace (ath9k_rng_read data max wait sc) in
  delay_ns t = 10000 * Z.of_nat (count is_delay t) /\
  0 <= delay_ns t <= (if wait then 20 * 10000 else 0).
Proof.
  cbn zeta. destruct (Z.lt_ge_cases max 4) as [Hs|Hmax].
  - rewrite ath_read_small by assumption. cbn. destruct wait; lia.
  - destruct (ath_read_shape data max wait sc Hmax)
      as (t0 & ts & Hts & Hlen & Hw & ->).
    apply Forall_cons in Hts as [Ht0 Hts].
    destruct (ath_bracket_delay data t0 Ht0) as [Hd0 Hc0].
    rewrite delay_ns_app, count_app, Hd0, Hc0.
    assert (Hr : delay_ns (flat_map (fun t => Udelay 10 :: bracket t) ts) =
                 10000 * Z.of_nat (length ts) /\
                 count is_delay (flat_map (fun t => Udelay 10 :: bracket t) ts)
                 = length ts).
    { clear Hlen Hw. induction Hts as [|t ts Ht _ [IH1 IH2]];
        [split; reflexivity|].
      destruct (ath_bracket_delay data t Ht) as [Hd Hc].
      cbn [flat_map length].
      change (Udelay 10 :: bracket t) with ([Udelay 10] ++ bracket t).
      rewrite !delay_ns_app, !count_app, Hd, Hc, IH1, IH2.
      split; [|reflexivity].
      change (delay_ns [Udelay 10]) with 10000. lia. }
    destruct Hr as [-> ->]. split; [lia|].
    destruct wait; [lia|]. rewrite Hw by reflexivity. cbn. lia.
Qed.

Lemma ath_read_good_words (data : ptr) (max : Z) (wait : bool)
  (sc : ath_softc) :
  Forall (fun e => match e with
                   | Store p _ w => p = data /\ good_word w
                   | _ => True
                   end)
    (trace (ath9k_rng_read data max wait sc)).
Proof.
  destruct (Z.lt_ge_cases max 4) as [Hs|Hmax].
  - rewrite ath_read_small by assumption. repeat constructor.
  - destruct (ath_read_shape data max wait sc Hmax)
      as (t0 & ts & Hts & _ & _ & ->).
    assert (Hb : forall t, Forall (scan_event data) t ->
               Forall (fun e => match e with
                                | Store p _ w => p = data /\ good_word w
                                | _ => True
                                end) (bracket t)).
    { intros t Ht. unfold bracket, setup_events.
      repeat (constructor; [exact I|]).
      apply Forall_app. split; [|repeat constructor].
      eapply Forall_impl; [exact Ht|].
      intros e He. destruct e; cbn in He; try contradiction; auto. }
    apply Forall_cons in Hts as [Ht0 Hts].
    apply Forall_app. split; [apply Hb, Ht0|].
    induction Hts as [|t ts Ht _ IH]; [constructor|].
    cbn [flat_map]. constructor; [exact I|].
    apply Forall_app. split; [apply Hb, Ht|exact IH].
Qed.

Lemma ath_scan_in_buffer (buf : ptr) (cap rng_last j : Z)
  (pairs : list (Z * Z)) :
  0 <= j -> j + Z.of_nat (length pairs) <= cap ->
  Forall (in_buffer buf cap) (scan_events buf rng_last j pairs).
Proof.
  revert rng_last j.
  induction pairs as [|[r1 r2] pairs IH]; intros l j Hj Hcap; [constructor|].
  cbn [scan_events length] in *.
  constructor; [exact I|]. constructor; [exact I|].
  destruct (data_ready l (sample r1) (sample r2)).
  - constructor; [cbn; lia|]. apply IH; lia.
  - apply IH; lia.
Qed.

Lemma ath_data_read_in_buffer (buf : ptr) (cap rng_last : Z)
  (pairs : list (Z * Z)) :
  Z.of_nat (length pairs) <= cap ->
  Forall (in_buffer buf cap) (data_read_events buf rng_last pairs).
Proof.
  intros Hcap. unfold data_read_events, setup_events.
  repeat (constructor; [exact I|]).
  apply Forall_app. split; [|repeat constructor].
  apply ath_scan_in_buffer; lia.
Qed.

Lemma ath_read_in_buffer (data : ptr) (max : Z) (wait : bool)
  (sc : ath_softc) :
  max <= INT_MAX ->
  Forall (in_buffer data (max / 4)) (trace (ath9k_rng_read data max wait sc)).
Proof.
  intros Hmax. destruct (Z.lt_ge_cases max 4) as [Hs|Hge].
  - rewrite ath_read_small by assumption. repeat constructor.
  - destruct (ath_read_run data max wait sc ltac:(lia))
      as (pairs & scans & ah & Hall & _ & -> & _).
    cbn [trace snd]. apply Forall_cons in Hall as [Hp Hall].
    apply Forall_app. split; [apply ath_data_read_in_buffer; lia|].
    generalize (last_sample (Ath9k.rng_last sc) pairs) as l.
    induction Hall as [|ps scans Hps _ IH]; intros l; [constructor|].
    cbn [rescan_events]. constructor; [exact I|].
    apply Forall_app. split; [apply ath_data_read_in_buffer; lia|apply IH].
Qed.

(** *** The filter along the stream of samples *)

Lemma valid_words_app (rng_last : Z) (p1 p2 : list (Z * Z)) :
  valid_words rng_last (p1 ++ p2) =
  valid_words rng_last p1 ++ valid_words (last_sample rng_last p1) p2.
Proof.
  revert rng_last. induction p1 as [|[r1 r2] p1 IH]; intros l; [reflexivity|].
  cbn [app valid_words]. rewrite IH, last_sample_cons.
  now rewrite app_assoc.
Qed.

Lemma last_sample_app (rng_last : Z) (p1 p2 : list (Z * Z)) :
  last_sample rng_last (p1 ++ p2) =
  last_sample (last_sample rng_last p1) p2.
Proof.
  revert rng_last. induction p1 as [|[r1 r2] p1 IH]; intros l; [reflexivity|].
  cbn [app]. now rewrite !last_sample_cons, IH.
Qed.

Lemma pair_up_app (pairs : list (Z * Z)) (l : list Z) :
  pair_up (flat_map (fun p => [p.1; p.2]) pairs ++ l) = pairs ++ pair_up l.
Proof.
  induction pairs as [|[r1 r2] pairs IH]; [reflexivity|].
  cbn [flat_map app pair_up fst snd]. now rewrite IH.
Qed.

Lemma reg_loads_app (t1 t2 : list event) :
  reg_loads (t1 ++ t2) = reg_loads t1 ++ reg_loads t2.
Proof. apply omap_app. Qed.

Lemma ath_scan_stream (buf : ptr) (rng_last j : Z) (pairs : list (Z * Z)) :
  reg_loads (scan_events buf rng_last j pairs) =
    flat_map (fun p => [p.1; p.2]) pairs /\
  (stored buf (scan_events buf rng_last j pairs)).*2 =
    valid_words rng_last pairs.
Proof.
  rewrite ath_stored_scan, snd_zip
    by (rewrite length_seqZ; lia).
  split; [|reflexivity].
  revert rng_last j.
  induction pairs as [|[r1 r2] pairs IH]; intros l j; [reflexivity|].
  cbn [scan_events flat_map fst snd app].
  destruct (data_ready l (sample r1) (sample r2)); cbn; now rewrite IH.
Qed.

Lemma ath_data_read_stream (buf : ptr) (rng_last : Z)
  (pairs : list (Z * Z)) :
  reg_loads (data_read_events buf rng_last pairs) =
    flat_map (fun p => [p.1; p.2]) pairs /\
  (stored buf (data_read_events buf rng_last pairs)).*2 =
    valid_words rng_last pairs.
Proof.
  destruct (ath_scan_stream buf rng_last 0 pairs) as [Hl Hs].
  unfold data_read_events.
  rewrite !reg_loads_app, !stored_app, Hl.
  change (stored buf [PsRestore]) with (@nil (Z * Z)).
  change (reg_loads [PsRestore]) with (@nil Z).
  change (stored buf setup_events) with (@nil (Z * Z)).
  change (reg_loads setup_events) with (@nil Z).
  rewrite !app_nil_r, !app_nil_l. split; [reflexivity|exact Hs].
Qed.

Lemma ath_rescan_stream (buf : ptr) (rng_last : Z)
  (scans : list (list (Z * Z))) :
  reg_loads (rescan_events buf rng_last scans) =
    flat_map (fun p => [p.1; p.2]) (concat scans) /\
  (stored buf (rescan_events buf rng_last scans)).*2 =
    valid_words rng_last (concat scans) /\
  rescan_last rng_last scans = last_sample rng_last (concat scans).
Proof.
  revert rng_last. induction scans as [|ps scans IH]; intros l;
    [repeat split|].
  destruct (IH (last_sample l ps)) as (IH1 & IH2 & IH3).
  destruct (ath_data_read_stream buf l ps) as [Hl Hs].
  cbn [rescan_events rescan_last concat].
  change (Udelay 10 :: ?t) with ([Udelay 10] ++ t).
  rewrite !reg_loads_app, !stored_app, !fmap_app, Hl, Hs, IH1, IH2, IH3.
  rewrite flat_map_app, valid_words_app, last_sample_app.
  repeat split.
Qed.

(** One call along the stream of the samples it loads. *)
Lemma ath_read_stream (data : ptr) (max : Z) (wait : bool) (sc : ath_softc) :
  max <= INT_MAX ->
  let r := ath9k_rng_read data max wait sc in
  exists pairs : list (Z * Z),
    reg_loads (trace r) = flat_map (fun p => [p.1; p.2]) pairs /\
    (stored data (trace r)).*2 = valid_words (Ath9k.rng_last sc) pairs /\
    Ath9k.rng_last (final r) = last_sample (Ath9k.rng_last sc) pairs.
Proof.
  intros Hmax. cbn zeta. destruct (Z.lt_ge_cases max 4) as [Hs|Hge].
  - rewrite ath_read_small by assumption. exists []. repeat split.
  - destruct (ath_read_run data max wait sc ltac:(lia))
      as (pairs & scans & ah & _ & _ & -> & _).
    cbn [trace final fst snd Ath9k.rng_last].
    destruct (ath_data_read_stream data (Ath9k.rng_last sc) pairs) as [Hl Hs].
    destruct (ath_rescan_stream data (last_sample (Ath9k.rng_last sc) pairs)
                scans) as (Rl & Rs & Rlast).
    exists (pairs ++ concat scans).
    rewrite reg_loads_app, stored_app, fmap_app, Hl, Hs, Rl, Rs, Rlast.
    rewrite flat_map_app, valid_words_app, last_sample_app.
    repeat split.
Qed.

Lemma ath_read_twice (data1 data2 : ptr) (max1 max2 : Z) (wait1 wait2 : bool)
  (sc : ath_softc) :
  max1 <= INT_MAX -> max2 <= INT_MAX ->
  let r1 := ath9k_rng_read data1 max1 wait1 sc in
  let r2 := ath9k_rng_read data2 max2 wait2 (final r1) in
  (stored data1 (trace r1)).*2 ++ (stored data2 (trace r2)).*2 =
  valid_words (Ath9k.rng_last sc) (pair_up (reg_loads (trace r1 ++ trace r2))).
Proof.
  intros H1 H2. cbn zeta.
  destruct (ath_read_stream data1 max1 wait1 sc H1) as (p1 & L1 & S1 & F1).
  cbn zeta in *.
  set (r1 := ath9k_rng_read data1 max1 wait1 sc) in *.
  destruct (ath_read_stream data2 max2 wait2 (final r1) H2)
    as (p2 & L2 & S2 & _).
  cbn zeta in *.
  rewrite reg_loads_app, L1, L2, S1, S2, F1.
  rewrite pair_up_app.
  rewrite <- (app_nil_r (flat_map _ p2)), pair_up_app, app_nil_r.
  now rewrite valid_words_app.
Qed.
End AthMore.

(** ** RNGA: probe and remove *)

Section RngaPlatform.
Import Rnga.

Lemma rnga_probe_balance (env : rnga_env) (pdev : platform_device) :
  let r := mxc_rnga_probe env pdev in
  let cs := calls (ktrace r) in
  clk_refs cs = (if kresult r =? 0 then 1 else 0) /\
  rng_refs cs = (if kresult r =? 0 then 1 else 0) /\
  hw_events (ktrace r) = [] /\
  kfinal r = pdev.
Proof.
  cbn zeta. unfold mxc_rnga_probe, mxc_rnga_err_ioremap. unfold_k.
  destruct env as [k c e m g]; cbn [env_kzalloc_ok env_clk env_mem
    env_clk_prepare_enable env_hwrng_register].
  destruct k; [|repeat split].
  cbn [negb].
  destruct (IS_ERR c) eqn:Hc.
  { pose proof (IS_ERR_nonzero c Hc) as Hn.
    cbn. destruct (Z.eqb_spec (int_of (PTR_ERR c)) 0); [contradiction|].
    repeat split. }
  destruct (Z.eqb_spec e 0) as [->|He]; cbn [negb].
  2:{ cbn. destruct (Z.eqb_spec e 0); [contradiction|]. repeat split. }
  destruct (IS_ERR m) eqn:Hm.
  { pose proof (IS_ERR_nonzero m Hm) as Hn.
    cbn. destruct (Z.eqb_spec (int_of (PTR_ERR m)) 0); [contradiction|].
    repeat split. }
  destruct (Z.eqb_spec g 0) as [->|Hg]; cbn [negb].
  - repeat split.
  - cbn. destruct (Z.eqb_spec g 0); [contradiction|]. repeat split.
Qed.

Lemma calls_app (t1 t2 : list kevent) :
  calls (t1 ++ t2) = calls t1 ++ calls t2.
Proof. apply omap_app. Qed.

Lemma clk_refs_app (c1 c2 : list kcall) :
  clk_refs (c1 ++ c2) = clk_refs c1 + clk_refs c2.
Proof.
  induction c1 as [|c c1 IH]; [reflexivity|].
  destruct c; cbn [app clk_refs]; lia.
Qed.

Lemma rnga_probe_no_drvdata (env : rnga_env) (pdev : platform_device) :
  driver_data pdev = None ->
  let p := mxc_rnga_probe env pdev in
  let r := mxc_rnga_remove (kfinal p) in
  kresult r = None /\
  calls (ktrace r) = [KPlatformGetDrvdata; KHwrngUnregister None] /\
  clk_refs (calls (ktrace p ++ ktrace r)) = (if kresult p =? 0 then 1 else 0).
Proof.
  intros Hd. cbn zeta.
  destruct (rnga_probe_balance env pdev) as (Hc & _ & _ & Hf).
  cbn zeta in *. rewrite Hf.
  unfold mxc_rnga_remove, platform_get_drvdata. unfold_k.
  rewrite Hd. cbn [kresult ktrace fst snd fmap option_fmap option_map app].
  split; [reflexivity|]. split; [reflexivity|].
  rewrite calls_app, clk_refs_app, Hc.
  change (clk_refs (calls _)) with 0. lia.
Qed.
End RngaPlatform.

(** ** ath9k: start and stop *)

Section AthStart.
Import Ath9k.

Lemma ath_start_stop (ret : Z) (sc : rng_host) :
  let r := ath9k_rng_start ret sc in
  let s := ath9k_rng_stop (kfinal r) in
  let rng :=
    {| hwrng_name := host_kobj_name sc;
       hwrng_init := hwrng_init (host_rng sc);
       hwrng_cleanup := hwrng_cleanup (host_rng sc);
       hwrng_read := Some "ath9k_rng_read";
       hwrng_quality := 320 |} in
  calls (ktrace r ++ ktrace s) =
    (if AR_SREV_9300_20_OR_LATER sc
     then [KDevmHwrngRegister rng ret; KDevmHwrngUnregister rng]
     else [KDevmHwrngUnregister (host_rng sc)]) /\
  rng_refs (calls (ktrace r ++ ktrace s)) =
    (if AR_SREV_9300_20_OR_LATER sc && (ret =? 0) then 0 else -1).
Proof.
  cbn zeta. unfold ath9k_rng_start, ath9k_rng_stop, get_host, set_host_rng.
  unfold_k. destruct sc as [rng name [|]]; cbn; [|split; reflexivity].
  split; [reflexivity|]. destruct (ret =? 0); reflexivity.
Qed.
End AthStart.

(** ** Return values *)

Section ReturnValues.

Lemma tx_read_values {D : Type} `{MmioDevice D} (cfg : bool) (data : ptr)
  (max : Z) (wait : bool) (d : D) :
  let r := result (Tx4939.tx4939_rng_read cfg data max wait d) in
  (max < 8 /\ r = - EINVAL) \/
  (8 <= max /\ (r = 0 \/ r = 8 * Z.min 3 (max / 8))).
Proof.
  cbn zeta. destruct (Z.lt_ge_cases max 8) as [Hs|Hmax].
  - left. split; [exact Hs|]. rewrite tx_read_small by assumption. reflexivity.
  - right. split; [exact Hmax|].
    destruct (tx_read_trace cfg data max wait d Hmax)
      as (ss & ws & d' & _ & _ & _ & _ & _ & _ & _ & ->).
    destruct (decide _); [right|left]; reflexivity.
Qed.

Lemma rnga_read_values {D : Type} `{MmioDevice D} (data : ptr) (max : Z)
  (wait : bool) (d : D) :
  let r := result (Rnga.mxc_rnga_read data max wait d) in
  (max < 4 /\ r = - EINVAL) \/
  (4 <= max /\ 0 <= r <= 4 * Z.min 255 (max / 4) /\ r mod 4 = 0).
Proof.
  cbn zeta. destruct (Z.lt_ge_cases max 4) as [Hs|Hmax].
  - left. split; [exact Hs|]. rewrite rnga_read_small by assumption.
    reflexivity.
  - right. split; [exact Hmax|].
    assert (Hdiv : 1 <= max / 4) by (apply Z.div_le_lower_bound; lia).
    destruct (rnga_read_trace data max wait d Hmax)
      as (ss & rounds & fault & ctrl & d' & _ & _ & _ & _ & _ & _ & Hf & _
          & ->).
    cbn zeta in Hf.
    pose proof (level_range
                  (default (u32_of (mmio_load d Rnga.RNGA_STATUS).1)
                     (last ss))) as Hl.
    destruct (decide _); cbn [result fst].
    + split.
      * destruct fault as [[w s]|]; [destruct Hf|]; lia.
      * rewrite Z.mul_comm. apply Z.mod_mul. lia.
    + split; [lia|reflexivity].
Qed.

Lemma ath_read_values {H : Type} `{AthHw H} (data : ptr) (max : Z)
  (wait : bool) (sc : Ath9k.ath_softc) :
  max <= INT_MAX ->
  let r := result (Ath9k.ath9k_rng_read data max wait sc) in
  (max < 4 /\ r = - EINVAL) \/
  (4 <= max /\ 0 <= r <= max /\ r mod 4 = 0).
Proof.
  intros Hm. cbn zeta. destruct (Z.lt_ge_cases max 4) as [Hs|Hmax].
  - left. split; [exact Hs|]. rewrite ath_read_small by assumption.
    reflexivity.
  - right. split; [exact Hmax|].
    destruct (ath_read_run data max wait sc ltac:(lia))
      as (pairs & scans & ah & _ & _ & -> & _ & _ & Hfound & _).
    cbn zeta in Hfound. cbn [result fst].
    pose proof (Z.mul_div_le max 4 ltac:(lia)).
    split; [lia|]. rewrite Z.mul_comm. apply Z.mod_mul. lia.
Qed.
End ReturnValues.

(** ** Register loads of a call *)

Section TxLoads.
Context {D : Type} `{MmioDevice D}.
Variable cfg : bool.
Import Tx4939.

Lemma tx_count_loads_drain (data : ptr) (i : Z) (ws : list Z) :
  count is_mmio_read (drain_events data i ws) = length ws.
Proof.
  revert i. induction ws as [|w ws IH]; intros i; [reflexivity|].
  cbn [drain_events length].
  change (count is_mmio_read
            (MmioRead (TX4939_RNG_ROR i) w :: Store data i w ::
             drain_events data (i + 1) ws))
    with (S (count is_mmio_read (drain_events data (i + 1) ws))).
  now rewrite IH.
Qed.

Lemma tx_count_recheck (ss : list Z) :
  count is_mmio_read (recheck_events cfg ss) = length ss /\
  count is_delay (recheck_events cfg ss) = length ss.
Proof.
  induction ss as [|s ss [IH1 IH2]]; [split; reflexivity|].
  change (recheck_events cfg (s :: ss))
    with ([Ndelay 450] ++ check_events cfg s ++ recheck_events cfg ss).
  rewrite !count_app, IH1, IH2. unfold check_events.
  rewrite !tx_count_critical by reflexivity. split; reflexivity.
Qed.

Lemma tx_read_loads (data : ptr) (max : Z) (wait : bool) (d : D) :
  8 <= max ->
  let r := tx4939_rng_read cfg data max wait d in
  Z.of_nat (count is_mmio_read (trace r)) =
  1 + Z.of_nat (count is_delay (trace r)) + result r / 8.
Proof.
  intros Hmax. cbn zeta.
  destruct (tx_read_trace cfg data max wait d Hmax)
    as (ss & ws & d' & _ & _ & _ & _ & _ & Hn & _ & ->).
  destruct (tx_count_recheck ss) as [Hr Hd].
  assert (Hc : forall s, count is_mmio_read (check_events cfg s) = 1%nat /\
                         count is_delay (check_events cfg s) = 0%nat).
  { intros s. unfold check_events.
    rewrite !tx_count_critical by reflexivity. split; reflexivity. }
  destruct (decide _); cbn [trace result fst snd];
    rewrite !count_app, Hr, Hd, !(proj1 (Hc _)), !(proj2 (Hc _)).
  - rewrite !tx_count_critical, !count_app, tx_count_loads_drain
      by reflexivity.
    assert (Hq : count is_delay (drain_events data 0 ws) = 0%nat).
    { apply count_zero, tx_drain_events_quiet; [lia| |]; reflexivity. }
    rewrite Hq. rewrite Z.mul_comm, Z.div_mul by lia.
    change (count is_mmio_read [MmioWrite _ _]) with 0%nat.
    change (count is_delay [MmioWrite _ _]) with 0%nat. lia.
  - change (0 / 8) with 0. lia.
Qed.
End TxLoads.

Section RngaLoads.
Context {D : Type} `{MmioDevice D}.
Import Rnga.

Lemma rnga_count_status_drain (data : ptr) (i : Z) (rounds : list (Z * Z)) :
  count (reads_of RNGA_STATUS) (drain_events data i rounds) = length rounds /\
  count (reads_of RNGA_CONTROL) (drain_events data i rounds) = 0%nat /\
  count is_delay (drain_events data i rounds) = 0%nat.
Proof.
  revert i. induction rounds as [|[w s] rounds IH]; intros i;
    [repeat split|].
  destruct (IH (i + 1)) as (IH1 & IH2 & IH3).
  cbn [drain_events length].
  change (MmioRead RNGA_OUTPUT_FIFO w :: Store data i w ::
          MmioRead RNGA_STATUS s :: drain_events data (i + 1) rounds)
    with ([MmioRead RNGA_OUTPUT_FIFO w; Store data i w;
           MmioRead RNGA_STATUS s] ++ drain_events data (i + 1) rounds).
  rewrite !count_app, IH1, IH2, IH3. repeat split.
Qed.

Lemma rnga_count_status_recheck (ss : list Z) :
  count (reads_of RNGA_STATUS) (recheck_events ss) = length ss /\
  count (reads_of RNGA_CONTROL) (recheck_events ss) = 0%nat /\
  count (reads_of RNGA_OUTPUT_FIFO) (recheck_events ss) = 0%nat.
Proof.
  induction ss as [|s ss (IH1 & IH2 & IH3)]; [repeat split|].
  change (recheck_events (s :: ss))
    with ([Udelay 10; MmioRead RNGA_STATUS s] ++ recheck_events ss).
  rewrite !count_app, IH1, IH2, IH3. repeat split.
Qed.

Lemma rnga_read_loads (data : ptr) (max : Z) (wait : bool) (d : D) :
  4 <= max ->
  let t := trace (mxc_rnga_read data max wait d) in
  count (reads_of RNGA_STATUS) t =
    (1 + count is_delay t + count (reads_of RNGA_OUTPUT_FIFO) t)%nat /\
  count (reads_of RNGA_CONTROL) t = (if cleared t then 1 else 0)%nat.
Proof.
  intros Hmax. cbn zeta.
  destruct (rnga_read_trace data max wait d Hmax)
    as (ss & rounds & fault & ctrl & d' & _ & _ & _ & _ & _ & _ & _ & _
        & ->).
  cbn zeta.
  destruct (rnga_count_status_recheck ss) as (R1 & R2 & R3).
  destruct (rnga_delay_recheck ss) as [_ Rd].
  destruct (decide _); cbn [trace snd].
  - destruct (rnga_cleared_ready data
                (u32_of (mmio_load d RNGA_STATUS).1) ctrl ss rounds fault)
      as [_ Hcl].
    cbn zeta in Hcl. rewrite Hcl. clear Hcl.
    destruct (rnga_count_status_drain data 0 (rounds ++ option_list fault))
      as (D1 & D2 & D3).
    change (MmioRead RNGA_STATUS ?s :: ?t)
      with ([MmioRead RNGA_STATUS s] ++ t).
    rewrite !count_app, R1, R2, R3, Rd, D1, D2, D3, rnga_count_fifo_drain.
    destruct fault as [[w s]|]; split; cbn; lia.
  - change (MmioRead RNGA_STATUS ?s :: ?t)
      with ([MmioRead RNGA_STATUS s] ++ t).
    rewrite !count_app, R1, R2, R3, Rd.
    assert (Hcl : cleared ([MmioRead RNGA_STATUS
                              (u32_of (mmio_load d RNGA_STATUS).1)] ++
                           recheck_events ss) = false).
    { unfold cleared. rewrite existsb_count.
      change ([MmioRead RNGA_STATUS ?s] ++ ?t)
        with (MmioRead RNGA_STATUS s :: t).
      rewrite rnga_count_poll by reflexivity. reflexivity. }
    rewrite Hcl. split; cbn; lia.
Qed.
End RngaLoads.

Section AthLoads.
Context {H : Type} `{AthHw H}.
Import Ath9k.

Lemma ath_scan_loop_loads (buf : ptr) (n : nat) (st : Z * Z)
  (sc : ath_softc) :
  count is_reg_read (trace (ath9k_rng_scan_loop buf n st sc)) = (2 * n)%nat.
Proof.
  revert st sc. induction n as [|n IH]; intros [j l] sc; [reflexivity|].
  rewrite ath_scan_loop_step.
  destruct (ath_scan_run buf j l sc) as (r1 & r2 & ah1 & Hstep).
  cbn zeta in Hstep. rewrite Hstep. clear Hstep.
  specialize (IH (if data_ready l (sample r1) (sample r2)
                  then (int_of (j + 1), sample r2) else (j, sample r2))
                {| Ath9k.rng_last := Ath9k.rng_last sc; sc_ah := ah1 |}).
  destruct (ath9k_rng_scan_loop buf n _ _) as [[st2 sc2] t2].
  cbn [trace snd] in *. rewrite count_app, IH.
  cbn [scan_events].
  destruct (data_ready l (sample r1) (sample r2)); cbn; lia.
Qed.

Lemma ath_data_read_loads (buf : ptr) (buf_size : Z) (sc : ath_softc) :
  count is_reg_read (trace (ath9k_rng_data_read buf buf_size sc)) =
  (2 * Z.to_nat buf_size)%nat.
Proof.
  destruct (ath_data_read_unfold buf buf_size sc) as (sc0 & _ & ->).
  pose proof (ath_scan_loop_loads buf (Z.to_nat buf_size)
                (0, Ath9k.rng_last sc) sc0) as Hs.
  destruct (ath9k_rng_scan_loop buf _ _ _) as [[[j l] sc1] t].
  cbn [trace snd] in *. rewrite !count_app, Hs. cbn. lia.
Qed.

Lemma ath_retry_loads (data : ptr) (max : Z) (wait : bool) (retries : nat)
  (u : Z) (sc : ath_softc) :
  let t := trace (ath9k_rng_retry data max wait retries u sc) in
  count is_reg_read t =
  (2 * Z.to_nat (u32_of (max / 4)) * count is_delay t)%nat.
Proof.
  cbn zeta. revert u sc. induction retries as [|r IH]; intros u sc;
    rewrite ath_retry_step.
  - destruct (wait && _); cbn; lia.
  - destruct (wait && (u =? 0)); [|cbn; lia].
    pose proof (ath_data_read_loads data (u32_of (max / 4))
                  (on_ah (fun ah => ath_elapse ah 10000) sc)) as Hl.
    pose proof (ath_count_data_read is_delay data (u32_of (max / 4))
                  (on_ah (fun ah => ath_elapse ah 10000) sc)) as Hd.
    destruct (ath9k_rng_data_read data _ _) as [[u1 sc1] t1].
    specialize (IH u1 sc1).
    destruct (ath9k_rng_retry data max wait r u1 sc1) as [[u2 sc2] t2].
    cbn [trace snd] in *.
    change (Udelay 10 :: t1 ++ t2) with ([Udelay 10] ++ t1 ++ t2).
    rewrite !count_app, Hl, IH, Hd by reflexivity.
    change (count is_reg_read [Udelay 10]) with 0%nat.
    change (count is_delay [Udelay 10]) with 1%nat. lia.
Qed.

Lemma ath_read_loads (data : ptr) (max : Z) (wait : bool) (sc : ath_softc) :
  4 <= max ->
  let t := trace (ath9k_rng_read data max wait sc) in
  count is_reg_read t =
  (2 * Z.to_nat (u32_of (max / 4)) * (1 + count is_delay t))%nat.
Proof.
  intros Hmax. cbn zeta. rewrite ath_read_unfold.
  destruct (Z.ltb_spec max 4) as [|_]; [lia|].
  pose proof (ath_data_read_loads data (u32_of (max / 4)) sc) as Hl.
  pose proof (ath_count_data_read is_delay data (u32_of (max / 4)) sc) as Hd.
  destruct (ath9k_rng_data_read data _ sc) as [[u sc1] t1].
  pose proof (ath_retry_loads data max wait 20 u sc1) as Hr.
  destruct (ath9k_rng_retry data max wait 20 u sc1) as [[u' sc2] t2].
  cbn [trace snd] in *.
  rewrite !count_app, Hl, Hr, Hd by reflexivity. lia.
Qed.
End AthLoads.

(** * Further properties *)

(** Buffer safety of the three read entry points.  Every store of a call
    goes through the caller's [data] pointer, at a word index from [0] up to
    but not including the capacity [max] in whole words: [max / 8] for
    TX4939, [max / 4] for RNGA, also on its error path, and for ath9k, there
    for a capacity of at most [INT_MAX] bytes, up to which the [int] index
    of the scan loop cannot wrap. *)
Theorem reads_store_inside_buffer :
  (forall (D : Type) (dev : MmioDevice D) (cfg : bool) (data : ptr) (max : Z)
          (wait : bool) (d : D),
     Forall (in_buffer data (max / 8))
       (trace (Tx4939.tx4939_rng_read cfg data max wait d))) /\
  (forall (D : Type) (dev : MmioDevice D) (data : ptr) (max : Z)
          (wait : bool) (d : D),
     Forall (in_buffer data (max / 4))
       (trace (Rnga.mxc_rnga_read data max wait d))) /\
  (forall (H : Type) (hw : AthHw H) (data : ptr) (max : Z) (wait : bool)
          (sc : Ath9k.ath_softc),
     max <= INT_MAX ->
     Forall (in_buffer data (max / 4))
       (trace (Ath9k.ath9k_rng_read data max wait sc))).
Proof.
  split; [|split].
  - intros. apply tx_read_in_buffer.
  - intros. apply rnga_read_in_buffer.
  - intros H hw data max wait sc Hmax. now apply ath_read_in_buffer.
Qed.

(** Worst-case busy wait of the three read entry points.  The time a call
    spends in its delays is the number of its delays times the period of
    the source, 450 ns for TX4939 and 10 us for RNGA and ath9k; it is at
    most twenty periods, and none at all when [wait] is false. *)
Theorem reads_busy_wait_bounded :
  (forall (D : Type) (dev : MmioDevice D) (cfg : bool) (data : ptr) (max : Z)
          (wait : bool) (d : D),
     let t := trace (Tx4939.tx4939_rng_read cfg data max wait d) in
     delay_ns t = 450 * Z.of_nat (count is_delay t) /\
     0 <= delay_ns t <= (if wait then 20 * 450 else 0)) /\
  (forall (D : Type) (dev : MmioDevice D) (data : ptr) (max : Z)
          (wait : bool) (d : D),
     let t := trace (Rnga.mxc_rnga_read data max wait d) in
     delay_ns t = 10000 * Z.of_nat (count is_delay t) /\
     0 <= delay_ns t <= (if wait then 20 * 10000 else 0)) /\
  (forall (H : Type) (hw : AthHw H) (data : ptr) (max : Z) (wait : bool)
          (sc : Ath9k.ath_softc),
     let t := trace (Ath9k.ath9k_rng_read data max wait sc) in
     delay_ns t = 10000 * Z.of_nat (count is_delay t) /\
     0 <= delay_ns t <= (if wait then 20 * 10000 else 0)).
Proof.
  split; [|split].
  - intros. apply tx_read_delay.
  - intros. apply rnga_read_delay.
  - intros. apply ath_read_delay.
Qed.

(** Interrupt discipline of the TX4939 driver.  On a 32-bit kernel
    ([CONFIG_64BIT] unset) every register load and store of
    [tx4939_rng_read] and of [tx4939_rng_probe] is made with interrupts
    disabled, every delay with interrupts enabled, [local_irq_disable] and
    [local_irq_enable] alternate, and interrupts are enabled when the
    function returns.  On a 64-bit kernel neither function touches the
    interrupt state. *)
Theorem tx4939_irq_discipline :
  (forall (D : Type) (dev : MmioDevice D) (data : ptr) (max : Z)
          (wait : bool) (d : D),
     irq_discipline true
       (trace (Tx4939.tx4939_rng_read false data max wait d)) = Some true) /\
  (forall (D : Type) (dev : MmioDevice D) (env : Tx4939.probe_env)
          (flush : ptr) (d : D),
     irq_discipline true
       (trace (Tx4939.tx4939_rng_probe false env flush d)) = Some true) /\
  (forall (D : Type) (dev : MmioDevice D) (data : ptr) (max : Z)
          (wait : bool) (d : D),
     count toggles_irq
       (trace (Tx4939.tx4939_rng_read true data max wait d)) = 0%nat) /\
  (forall (D : Type) (dev : MmioDevice D) (env : Tx4939.probe_env)
          (flush : ptr) (d : D),
     count toggles_irq
       (trace (Tx4939.tx4939_rng_probe true env flush d)) = 0%nat).
Proof.
  split; [|split; [|split]].
  - intros. apply tx_read_irq.
  - intros. apply tx_probe_irq.
  - intros. apply tx_read_no_irq.
  - intros. apply tx_probe_no_irq.
Qed.

(** Register accesses of [tx4939_rng_read].  A call loads only RCSR and the
    output registers ROR(0), ROR(1), ROR(2).  It stores to the device
    exactly when it returns data, and then once: the start bit to RCSR.  A
    call that returns [0] or an error leaves the generator as it is. *)
Theorem tx4939_read_rearms_with_data :
  forall (D : Type) (dev : MmioDevice D) (cfg : bool) (data : ptr) (max : Z)
         (wait : bool) (d : D),
    let r := Tx4939.tx4939_rng_read cfg data max wait d in
    Forall Tx4939.read_access (trace r) /\
    mmio_writes (trace r) =
      if 0 <? result r
      then [(Tx4939.TX4939_RNG_RCSR, Tx4939.TX4939_RNG_RCSR_ST)]
      else [].
Proof.
  intros D dev cfg data max wait d r. split.
  - apply tx_read_access.
  - apply tx_read_writes.
Qed.

(** Register stores of [tx4939_rng_probe], whatever the kernel services
    answer.  Probe stores to RCSR only, and its stores are a prefix of:
    reset, 0, start, and one more start after each discarded read.  It
    calls [devm_hwrng_register] exactly when it has made all five, so that
    the third generation is under way, and then returns what that call
    answers: probe returns [0] only after all five stores, when the
    registration answered [0].  The six discarded words then went to
    [flush[0..2]], twice, and no store of probe leaves [flush].  When the
    allocation fails, or when the mapping is an error pointer, probe
    returns the error number and touches neither the device nor [flush]. *)
Theorem tx4939_probe_start_sequence :
  forall (D : Type) (dev : MmioDevice D) (cfg : bool)
         (env : Tx4939.probe_env) (flush : ptr) (d : D),
    let p := Tx4939.tx4939_rng_probe cfg env flush d in
    let t := trace p in
    Forall (in_buffer flush 3) t /\
    mmio_writes t `prefix_of` Tx4939.probe_writes /\
    (count registers t = 1%nat <-> mmio_writes t = Tx4939.probe_writes) /\
    (count registers t = 1%nat ->
     result p = Tx4939.hwrng_register_ret env /\
     (stored flush t).*1 = [0; 1; 2; 0; 1; 2]) /\
    (result p = 0 ->
     count registers t = 1%nat /\ Tx4939.hwrng_register_ret env = 0) /\
    (Tx4939.kzalloc_ok env = false -> p = (- ENOMEM, d, [])) /\
    (Tx4939.kzalloc_ok env = true ->
     IS_ERR (Tx4939.ioremap_base env) = true ->
     p = (int_of (PTR_ERR (Tx4939.ioremap_base env)), d, [])).
Proof.
  intros D dev cfg env flush d p t.
  split; [apply tx_probe_in_buffer|].
  destruct (tx_probe_writes cfg env flush d) as (Hp & Hr & Hs).
  destruct (tx_probe_result cfg env flush d) as (Hret & Hok & Hmem & Hmap).
  split; [exact Hp|]. split; [exact Hr|].
  split; [intros Hc; split; [exact (Hret Hc)|exact (Hs Hc)]|].
  split; [exact Hok|]. split; [exact Hmem|exact Hmap].
Qed.

(** FIFO loads of [mxc_rnga_read].  A call that passes the size check loads
    the output FIFO once for each word it stores, and at most as often as
    the level field of the status it polled last allows. *)
Theorem mxc_rnga_fifo_loads_bounded :
  forall (D : Type) (dev : MmioDevice D) (data : ptr) (max : Z) (wait : bool)
         (d : D),
    4 <= max ->
    let r := Rnga.mxc_rnga_read data max wait d in
    let p := result (Rnga.mxc_rnga_poll wait d) in
    count (reads_of Rnga.RNGA_OUTPUT_FIFO) (trace r) =
      length (stored data (trace r)) /\
    Z.of_nat (count (reads_of Rnga.RNGA_OUTPUT_FIFO) (trace r)) <=
      Z.min (Z.shiftr p 8) (max / 4).
Proof.
  intros D dev data max wait d Hmax. now apply rnga_read_fifo_loads.
Qed.

(** [mxc_rnga_init].  The function stores back the control value it loaded
    with bit 4 (SLEEP) cleared and tests bit 31 (OSC_DEAD) of the status it
    loads next.  If the bit is set it reports the dead oscillator and
    returns [-ENODEV] without a further register access, so it does not set
    GO.  Otherwise it loads the control register again, stores that value
    back with bit 0 (GO) set, and returns [0]. *)
Theorem mxc_rnga_init_wake_test_start :
  forall (D : Type) (dev : MmioDevice D) (d : D),
    let r := Rnga.mxc_rnga_init d in
    exists c0 osc c1 : Z,
      let dead := Z.testbit osc 31 in
      kresult r = (if dead then - ENODEV else 0) /\
      hw_events (ktrace r) =
        [MmioRead Rnga.RNGA_CONTROL c0;
         MmioWrite Rnga.RNGA_CONTROL (Z.clearbit c0 4);
         MmioRead Rnga.RNGA_STATUS osc] ++
        (if dead then []
         else [MmioRead Rnga.RNGA_CONTROL c1;
               MmioWrite Rnga.RNGA_CONTROL (Z.setbit c1 0)]) /\
      calls (ktrace r) =
        (if dead then [KDevErr "RNGA Oscillator is dead!" []] else []).
Proof.
  intros D dev d r. subst r. rewrite rnga_init_run. cbn zeta.
  set (c0 := u32_of (mmio_load d Rnga.RNGA_CONTROL).1).
  set (d1 := mmio_store _ Rnga.RNGA_CONTROL (Z.clearbit c0 4)).
  set (osc := u32_of (mmio_load d1 Rnga.RNGA_STATUS).1).
  exists c0, osc,
    (u32_of (mmio_load (mmio_load d1 Rnga.RNGA_STATUS).2
               Rnga.RNGA_CONTROL).1).
  destruct (Z.testbit osc 31); repeat split.
Qed.

(** [mxc_rnga_init] and [mxc_rnga_cleanup] on a plain register space.
    Init leaves the control register with SLEEP cleared, and with GO set
    unless the status shows a dead oscillator; the other registers keep
    their values.  After an init that succeeded, a second init changes
    nothing, and cleanup leaves the control register at its first value
    with both SLEEP and GO cleared. *)
Theorem mxc_rnga_init_cleanup_plain :
  forall m : gmap Z Z,
    let c0 := u32_of (default 0 (m !! Rnga.RNGA_CONTROL)) in
    let osc := u32_of (default 0 (m !! Rnga.RNGA_STATUS)) in
    let r := Rnga.mxc_rnga_init m in
    kresult r = (if Z.testbit osc 31 then - ENODEV else 0) /\
    kfinal r =
      <[Rnga.RNGA_CONTROL :=
          if Z.testbit osc 31 then Z.clearbit c0 4
          else Z.setbit (Z.clearbit c0 4) 0]> m /\
    (Z.testbit osc 31 = false ->
     kresult (Rnga.mxc_rnga_init (kfinal r)) = 0 /\
     kfinal (Rnga.mxc_rnga_init (kfinal r)) = kfinal r /\
     final (Rnga.mxc_rnga_cleanup (kfinal r)) =
       <[Rnga.RNGA_CONTROL := Z.clearbit (Z.clearbit c0 4) 0]> m).
Proof.
  intros m c0 osc r.
  destruct (regfile_init m) as [Hr Hf].
  split; [exact Hr|]. split; [exact Hf|].
  intros Hosc.
  destruct (regfile_init_cleanup m Hosc) as (_ & _ & Hi & Hc).
  fold r in Hi, Hc. rewrite Hi. repeat split. exact Hc.
Qed.

(** Resources of [mxc_rnga_probe], whatever the kernel services answer.
    Probe returns [0] exactly when it leaves the source registered, and
    then it holds one reference on the clock; on each of its five failure
    paths it leaves nothing registered and no clock reference.  It makes no
    register access and leaves the platform device as it found it: it does
    not set the driver data. *)
Theorem mxc_rnga_probe_balanced :
  forall (env : Rnga.rnga_env) (pdev : Rnga.platform_device),
    let r := Rnga.mxc_rnga_probe env pdev in
    let cs := calls (ktrace r) in
    clk_refs cs = (if kresult r =? 0 then 1 else 0) /\
    rng_refs cs = (if kresult r =? 0 then 1 else 0) /\
    hw_events (ktrace r) = [] /\
    kfinal r = pdev.
Proof.
  intros env pdev. apply rnga_probe_balance.
Qed.

(** [mxc_rnga_remove] after [mxc_rnga_probe].  On a platform device whose
    driver data is null when probe runs, it is still null afterwards:
    remove passes a pointer into a null instance to [hwrng_unregister] and
    then loads the clock through the null pointer, so it does not return,
    and the clock reference of a probe that succeeded is not dropped. *)
Theorem mxc_rnga_remove_finds_no_instance :
  forall (env : Rnga.rnga_env) (pdev : Rnga.platform_device),
    Rnga.driver_data pdev = None ->
    let p := Rnga.mxc_rnga_probe env pdev in
    let r := Rnga.mxc_rnga_remove (kfinal p) in
    kresult r = None /\
    calls (ktrace r) = [KPlatformGetDrvdata; KHwrngUnregister None] /\
    clk_refs (calls (ktrace p ++ ktrace r)) =
      (if kresult p =? 0 then 1 else 0).
Proof.
  intros env pdev Hd. now apply rnga_probe_no_drvdata.
Qed.

(** Power-save discipline of [ath9k_rng_read], for any capacity.  Every
    register access of a call is made between an [ath9k_ps_wakeup] and the
    [ath9k_ps_restore] that follows it, the two alternate, and the last
    wakeup is restored when the call returns; the delays between scans are
    taken after the restore. *)
Theorem ath9k_read_ps_discipline :
  forall (H : Type) (hw : AthHw H) (data : ptr) (max : Z) (wait : bool)
         (sc : Ath9k.ath_softc),
    ps_discipline false (trace (Ath9k.ath9k_rng_read data max wait sc)) =
    Some false.
Proof.
  intros H hw data max wait sc. apply ath_read_ps.
Qed.

(** Words of [ath9k_rng_read], for any capacity.  A word packed from two
    16-bit samples splits back into them; and every word a call stores goes
    through [data] and has two halves that differ and are neither [0] nor
    [0xffff]: no stored word is [0] or [0xffffffff]. *)
Theorem ath9k_stores_good_words :
  (forall v1 v2 : Z,
     0 <= v1 < 2 ^ 16 -> 0 <= v2 < 2 ^ 16 ->
     Ath9k.hi_half (Ath9k.pack v1 v2) = v1 /\
     Ath9k.lo_half (Ath9k.pack v1 v2) = v2) /\
  (forall (H : Type) (hw : AthHw H) (data : ptr) (max : Z) (wait : bool)
          (sc : Ath9k.ath_softc),
     Forall (fun e => match e with
                      | Store p _ w =>
                          p = data /\ Ath9k.good_word w /\
                          w <> 0 /\ w <> 0xffffffff
                      | _ => True
                      end)
       (trace (Ath9k.ath9k_rng_read data max wait sc))).
Proof.
  split; [intros; now apply pack_halves|].
  intros H hw data max wait sc.
  eapply Forall_impl; [apply ath_read_good_words|].
  intros [] He; try exact I. destruct He as [Hp Hg].
  split; [exact Hp|]. split; [exact Hg|].
  destruct Hg as (Hhi & Hlo & _). unfold Ath9k.lo_half in Hlo.
  split; intros ->;
    [change (Z.land 0 0xffff) with 0 in Hlo
    |change (Z.land 0xffffffff 0xffff) with 0xffff in Hlo]; lia.
Qed.

(** The filter of ath9k across calls.  For two calls in a row, each for at
    most [INT_MAX] bytes, the words the first stores followed by the words
    the second stores are the words the filter keeps from the whole stream
    of samples the two calls load, taken two by two, starting from the
    [rng_last] the first call found: the filter does not start afresh at a
    call. *)
Theorem ath9k_filter_spans_calls :
  forall (H : Type) (hw : AthHw H) (data1 data2 : ptr) (max1 max2 : Z)
         (wait1 wait2 : bool) (sc : Ath9k.ath_softc),
    max1 <= INT_MAX -> max2 <= INT_MAX ->
    let r1 := Ath9k.ath9k_rng_read data1 max1 wait1 sc in
    let r2 := Ath9k.ath9k_rng_read data2 max2 wait2 (final r1) in
    (stored data1 (trace r1)).*2 ++ (stored data2 (trace r2)).*2 =
    Ath9k.valid_words (Ath9k.rng_last sc)
      (Ath9k.pair_up (Ath9k.reg_loads (trace r1 ++ trace r2))).
Proof.
  intros H hw data1 data2 max1 max2 wait1 wait2 sc H1 H2.
  now apply ath_read_twice.
Qed.

(** [ath9k_rng_start] and [ath9k_rng_stop].  Start registers the source,
    with [ath9k_rng_read] as its read function and quality 320, only on a
    chip that is AR9300 2.0 or later, and drops what the registration
    returns; stop unregisters whatever start did.  So start followed by
    stop leaves the registrations balanced only when the chip is new enough
    and the registration succeeded; otherwise stop unregisters a source
    that is not registered. *)
Theorem ath9k_start_stop_pairing :
  forall (ret : Z) (sc : Ath9k.rng_host),
    let r := Ath9k.ath9k_rng_start ret sc in
    let s := Ath9k.ath9k_rng_stop (kfinal r) in
    let rng :=
      {| hwrng_name := Ath9k.host_kobj_name sc;
         hwrng_init := hwrng_init (Ath9k.host_rng sc);
         hwrng_cleanup := hwrng_cleanup (Ath9k.host_rng sc);
         hwrng_read := Some "ath9k_rng_read";
         hwrng_quality := 320 |} in
    calls (ktrace r ++ ktrace s) =
      (if Ath9k.AR_SREV_9300_20_OR_LATER sc
       then [KDevmHwrngRegister rng ret; KDevmHwrngUnregister rng]
       else [KDevmHwrngUnregister (Ath9k.host_rng sc)]) /\
    rng_refs (calls (ktrace r ++ ktrace s)) =
      (if Ath9k.AR_SREV_9300_20_OR_LATER sc && (ret =? 0) then 0 else -1).
Proof.
  intros ret sc. apply ath_start_stop.
Qed.

(** Return values of the three read entry points.  The only error a call
    returns is [-EINVAL], and it returns it exactly when the capacity is
    below one word.  Otherwise TX4939 returns [0] or the bytes of all the
    words it can deliver, [8 * min(3, max / 8)]; RNGA returns a multiple of
    4 up to [4 * min(255, max / 4)], also after a fault of the hardware;
    ath9k, asked for at most [INT_MAX] bytes, returns a multiple of 4 up to
    [max]. *)
Theorem reads_return_values :
  (forall (D : Type) (dev : MmioDevice D) (cfg : bool) (data : ptr) (max : Z)
          (wait : bool) (d : D),
     let r := result (Tx4939.tx4939_rng_read cfg data max wait d) in
     (max < 8 /\ r = - EINVAL) \/
     (8 <= max /\ (r = 0 \/ r = 8 * Z.min 3 (max / 8)))) /\
  (forall (D : Type) (dev : MmioDevice D) (data : ptr) (max : Z)
          (wait : bool) (d : D),
     let r := result (Rnga.mxc_rnga_read data max wait d) in
     (max < 4 /\ r = - EINVAL) \/
     (4 <= max /\ 0 <= r <= 4 * Z.min 255 (max / 4) /\ r mod 4 = 0)) /\
  (forall (H : Type) (hw : AthHw H) (data : ptr) (max : Z) (wait : bool)
          (sc : Ath9k.ath_softc),
     max <= INT_MAX ->
     let r := result (Ath9k.ath9k_rng_read data max wait sc) in
     (max < 4 /\ r = - EINVAL) \/
     (4 <= max /\ 0 <= r <= max /\ r mod 4 = 0)).
Proof.
  split; [|split].
  - intros. apply tx_read_values.
  - intros. apply rnga_read_values.
  - intros H hw data max wait sc Hmax. now apply ath_read_values.
Qed.

(** Register loads of the three read entry points, for a call that passes
    the size check.  TX4939 makes one load for the first test, one for
    each delay, and one for each word it returns.  RNGA loads the status
    once for the first test, once for each delay and once for each load of
    the FIFO, and the control register once exactly when it takes the error
    path.  ath9k loads the ADC register twice for each word of capacity in
    each of its scans, which are one more than its delays. *)
Theorem reads_register_loads :
  (forall (D : Type) (dev : MmioDevice D) (cfg : bool) (data : ptr) (max : Z)
          (wait : bool) (d : D),
     8 <= max ->
     let r := Tx4939.tx4939_rng_read cfg data max wait d in
     Z.of_nat (count is_mmio_read (trace r)) =
     1 + Z.of_nat (count is_delay (trace r)) + result r / 8) /\
  (forall (D : Type) (dev : MmioDevice D) (data : ptr) (max : Z)
          (wait : bool) (d : D),
     4 <= max ->
     let t := trace (Rnga.mxc_rnga_read data max wait d) in
     count (reads_of Rnga.RNGA_STATUS) t =
       (1 + count is_delay t + count (reads_of Rnga.RNGA_OUTPUT_FIFO) t)%nat
     /\
     count (reads_of Rnga.RNGA_CONTROL) t =
       (if Rnga.cleared t then 1 else 0)%nat) /\
  (forall (H : Type) (hw : AthHw H) (data : ptr) (max : Z) (wait : bool)
          (sc : Ath9k.ath_softc),
     4 <= max ->
     let t := trace (Ath9k.ath9k_rng_read data max wait sc) in
     count is_reg_read t =
     (2 * Z.to_nat (u32_of (max / 4)) * (1 + count is_delay t))%nat).
Proof.
  split; [|split].
  - intros D dev cfg data max wait d Hmax. now apply tx_read_loads.
  - intros D dev data max wait d Hmax. now apply rnga_read_loads.
  - intros H hw data max wait sc Hmax. now apply ath_read_loads.
Qed.

(** * The further properties on concrete devices *)

(** Buffer safety on an ath9k scan of two pairs into a buffer of 8 bytes. *)
Lemma reads_store_inside_buffer_witness :
  8 <= INT_MAX /\
  Forall (in_buffer 0 (8 / 4))
    (trace (Ath9k.ath9k_rng_read 0 8 false Mock.ath_two)).
Proof.
  destruct reads_store_inside_buffer as (_ & _ & Hath).
  assert (H1 : 8 <= INT_MAX) by (unfold INT_MAX; lia).
  split; [exact H1|].
  exact (Hath (list Z) _ 0 8 false Mock.ath_two H1).
Defined.

(** Return values on the same ath9k scan. *)
Lemma reads_return_values_witness :
  8 <= INT_MAX /\
  4 <= 8 /\ 0 <= result (Ath9k.ath9k_rng_read 0 8 false Mock.ath_two) <= 8.
Proof.
  destruct reads_return_values as (_ & _ & Hath).
  assert (H1 : 8 <= INT_MAX) by (unfold INT_MAX; lia).
  split; [exact H1|].
  destruct (Hath (list Z) _ 0 8 false Mock.ath_two H1)
    as [[Hs _]|(Hge & Hr & _)]; [lia|].
  split; [exact Hge|exact Hr].
Defined.

(** The start sequence on a TX4939 that is ready at both discarded
    reads: all five stores are made and probe returns what the
    registration answers. *)
Lemma tx4939_probe_start_sequence_witness :
  count registers
    (trace (Tx4939.tx4939_rng_probe true Mock.probe_ok 0
              [0; 1; 2; 3; 0; 4; 5; 6])) = 1%nat /\
  mmio_writes
    (trace (Tx4939.tx4939_rng_probe true Mock.probe_ok 0
              [0; 1; 2; 3; 0; 4; 5; 6])) = Tx4939.probe_writes /\
  result (Tx4939.tx4939_rng_probe true Mock.probe_ok 0
            [0; 1; 2; 3; 0; 4; 5; 6]) =
  Tx4939.hwrng_register_ret Mock.probe_ok.
Proof.
  assert (H1 : count registers
                 (trace (Tx4939.tx4939_rng_probe true Mock.probe_ok 0
                           [0; 1; 2; 3; 0; 4; 5; 6])) = 1%nat)
    by (vm_compute; reflexivity).
  split; [exact H1|].
  destruct (tx4939_probe_start_sequence (list Z) _ true Mock.probe_ok 0
              [0; 1; 2; 3; 0; 4; 5; 6]) as (_ & _ & Hr & Hres & _).
  split; [exact (proj1 Hr H1)|exact (proj1 (Hres H1))].
Defined.

(** FIFO loads on an RNGA at level 5 whose second status shows the error:
    two loads for a capacity of three words. *)
Lemma mxc_rnga_fifo_loads_bounded_witness :
  4 <= 12 /\
  Z.of_nat
    (count (reads_of Rnga.RNGA_OUTPUT_FIFO)
       (trace (Rnga.mxc_rnga_read 0 12 false Mock.rnga_fault))) <=
  Z.min (Z.shiftr (result (Rnga.mxc_rnga_poll false Mock.rnga_fault)) 8)
    (12 / 4).
Proof.
  assert (H1 : 4 <= 12) by lia.
  split; [exact H1|].
  exact (proj2 (mxc_rnga_fifo_loads_bounded (list Z) _ 0 12 false
                  Mock.rnga_fault H1)).
Defined.

(** Init and cleanup on an RNGA that is asleep with a working oscillator:
    cleanup leaves the control register at 0x4. *)
Lemma mxc_rnga_init_cleanup_plain_witness :
  Z.testbit
    (u32_of (default 0 (RegFile.rnga_asleep !! Rnga.RNGA_STATUS))) 31 =
  false /\
  final (Rnga.mxc_rnga_cleanup
           (kfinal (Rnga.mxc_rnga_init RegFile.rnga_asleep))) =
  <[Rnga.RNGA_CONTROL :=
      Z.clearbit
        (Z.clearbit
           (u32_of (default 0 (RegFile.rnga_asleep !! Rnga.RNGA_CONTROL))) 4)
        0]> RegFile.rnga_asleep.
Proof.
  assert (H1 : Z.testbit
                 (u32_of (default 0
                            (RegFile.rnga_asleep !! Rnga.RNGA_STATUS))) 31 =
               false) by (vm_compute; reflexivity).
  split; [exact H1|].
  destruct (mxc_rnga_init_cleanup_plain RegFile.rnga_asleep)
    as (_ & _ & Hc).
  exact (proj2 (proj2 (Hc H1))).
Defined.

(** Remove after a probe that succeeded, on a device with null driver
    data. *)
Lemma mxc_rnga_remove_finds_no_instance_witness :
  Rnga.driver_data Mock.rnga_unbound = None /\
  kresult (Rnga.mxc_rnga_probe Mock.rnga_services_ok Mock.rnga_unbound) = 0
  /\
  kresult
    (Rnga.mxc_rnga_remove
       (kfinal (Rnga.mxc_rnga_probe Mock.rnga_services_ok
                  Mock.rnga_unbound))) = None.
Proof.
  assert (H1 : Rnga.driver_data Mock.rnga_unbound = None) by reflexivity.
  split; [exact H1|]. split; [vm_compute; reflexivity|].
  exact (proj1 (mxc_rnga_remove_finds_no_instance Mock.rnga_services_ok
                  Mock.rnga_unbound H1)).
Defined.

(** The filter across two calls on an ath9k whose ADC yields the pairs
    (1, 2) and (3, 3), then only 0. *)
Lemma ath9k_filter_spans_calls_witness :
  8 <= INT_MAX /\
  (stored 0 (trace (Ath9k.ath9k_rng_read 0 8 false Mock.ath_two))).*2 ++
  (stored 0
     (trace (Ath9k.ath9k_rng_read 0 8 false
               (final (Ath9k.ath9k_rng_read 0 8 false Mock.ath_two))))).*2 =
  Ath9k.valid_words (Ath9k.rng_last Mock.ath_two)
    (Ath9k.pair_up
       (Ath9k.reg_loads
          (trace (Ath9k.ath9k_rng_read 0 8 false Mock.ath_two) ++
           trace (Ath9k.ath9k_rng_read 0 8 false
                    (final (Ath9k.ath9k_rng_read 0 8 false Mock.ath_two)))))).
Proof.
  assert (H1 : 8 <= INT_MAX) by (unfold INT_MAX; lia).
  split; [exact H1|].
  exact (ath9k_filter_spans_calls (list Z) _ 0 0 8 8 false false Mock.ath_two
           H1 H1).
Defined.

(** Good words on the same ath9k scan: the halves of a packed word. *)
Lemma ath9k_stores_good_words_witness :
  0 <= 1 < 2 ^ 16 /\ 0 <= 2 < 2 ^ 16 /\
  Ath9k.hi_half (Ath9k.pack 1 2) = 1 /\ Ath9k.lo_half (Ath9k.pack 1 2) = 2.
Proof.
  assert (H1 : 0 <= 1 < 2 ^ 16) by lia.
  assert (H2 : 0 <= 2 < 2 ^ 16) by lia.
  split; [exact H1|]. split; [exact H2|].
  exact (proj1 ath9k_stores_good_words 1 2 H1 H2).
Defined.

(** Register loads on a TX4939 that never finishes, [wait] true: the first
    test and twenty more. *)
Lemma reads_register_loads_witness :
  8 <= 16 /\
  Z.of_nat
    (count is_mmio_read
       (trace (Tx4939.tx4939_rng_read true 0 16 true Mock.tx_busy))) = 21.
Proof.
  destruct reads_register_loads as (Htx & _ & _).
  assert (H1 : 8 <= 16) by lia.
  split; [exact H1|].
  rewrite (Htx (list Z) _ true 0 16 true Mock.tx_busy H1).
  vm_compute. reflexivity.
Defined.
